(** * Scraper platform: tenant visibility, keyset pagination, job lifecycle

    A shallow embedding of the NestJS services of the scraper platform
    (DatasetsService, JobsService, ItemsService) over a relational store
    modelled as lists of rows, followed by the properties established
    about them.  The store is PostgreSQL behind the node-postgres driver:
    ids are [uuid] columns, timestamps are [timestamptz] columns, tags and
    sources are [text[]] columns.  The Python worker (claim / succeed /
    fail / ingest) is modelled in [Module Worker]. *)

From Stdlib Require Import ZArith List String Ascii Bool Lia.
From Stdlib Require Import Sorted Permutation OrderedTypeEx.
Import ListNotations.

Set Warnings "-register-all".

Local Open Scope string_scope.
Local Open Scope Z_scope.

(* ================================================================== *)
(** ** JavaScript values *)

(** A JS [number] as the controllers produce it with [parseInt]: an
    integer or [NaN]. *)
Inductive number : Type :=
| NaN
| Num (z : Z).

(** [x || d] on numbers: [0] and [NaN] are falsy, [undefined] too. *)
Definition orDefault (x : option number) (d : Z) : Z :=
  match x with
  | Some (Num z) => if z =? 0 then d else z
  | Some NaN => d
  | None => d
  end.

Definition Math_min (a b : Z) : Z := Z.min a b.

(** [if (s)] on an optional string: [undefined] and [""] are falsy. *)
Definition truthy (s : option string) : option string :=
  match s with
  | Some v => if (v =? "")%string then None else Some v
  | None => None
  end.

(** JSON values ([Record<string, any>] columns). *)
Inductive json : Type :=
| JNull
| JBool (b : bool)
| JNum (z : Z)
| JStr (s : string)
| JArr (l : list json)
| JObj (fields : list (string * json)).

(** A [Date] is a number of milliseconds since the epoch. *)
Definition Date : Type := Z.

(** A [timestamptz] column holds an instant in microseconds since the
    epoch ([DEFAULT now()] fills it at that resolution). *)
Definition Timestamp : Type := Z.

(** The driver reads a timestamp into the [Date] of its millisecond, the
    microseconds below it being dropped, and binds a [Date] as the
    timestamp at which that millisecond starts. *)
Definition toDate (t : Timestamp) : Date := t / 1000.
Definition toTimestamp (d : Date) : Timestamp := d * 1000.

(** The instant of the [Date] a timestamp is read into. *)
Definition asRead (t : Timestamp) : Timestamp := toTimestamp (toDate t).

(** A field of a request body as the validation pipe hands it over: left
    out, [null] (which [@IsOptional()] lets through), or a value. *)
Inductive Field (A : Type) : Type :=
| Absent
| Null
| Value (a : A).
Arguments Absent {A}.
Arguments Null {A}.
Arguments Value {A} a.

(** [s.split(sep)] for a one-character separator. *)
Fixpoint split (sep : ascii) (s : string) : list string :=
  match s with
  | EmptyString => [EmptyString]
  | String c rest =>
      if Ascii.eqb c sep then EmptyString :: split sep rest
      else match split sep rest with
           | hd :: tl => String c hd :: tl
           | [] => [String c EmptyString]
           end
  end.

Definition pipe : ascii := "|"%char.

Fixpoint noPipe (s : string) : bool :=
  match s with
  | EmptyString => true
  | String c rest => negb (Ascii.eqb c pipe) && noPipe rest
  end.

(* ================================================================== *)
(** ** Errors *)

(** The exceptions a request can end with.  [BadRequestException] is the
    framework's InvalidArgument.  The last three are not [HttpException]s
    and nothing catches them: [DatabaseError] is a statement the store
    rejects, [ReferenceError] the use of an identifier that is not bound,
    [TypeError] the read of a property of [undefined]. *)
Inductive HttpError : Type :=
| NotFoundException
| ForbiddenException
| BadRequestException
| DatabaseError
| ReferenceError
| TypeError.

Inductive Result (A : Type) : Type :=
| Ok (a : A)
| Err (e : HttpError).
Arguments Ok {A} a.
Arguments Err {A} e.

Definition bind {A B} (r : Result A) (k : A -> Result B) : Result B :=
  match r with
  | Ok a => k a
  | Err e => Err e
  end.

Notation "'let*' x ':=' e 'in' k" := (bind e (fun x => k))
  (at level 10, x pattern, e at level 100, k at level 200).

(* ================================================================== *)
(** ** Schema (db/schema.ts) *)

(** A [uuid] column is given by its canonical text (lower-case digits in
    the 8-4-4-4-12 form), whose order by character codes is the order of
    the store on uuids.  Each table comes with [selected]: the row as a
    statement hands it to the service, every timestamp read into a [Date]
    and given by the instant of that [Date]. *)
Module TenantsTable.
Record row : Type := {
  id : string;
  name : string;
  api_key : string;
  is_enabled : bool;
  created_at : Timestamp;
  updated_at : Timestamp
}.

Definition selected (r : row) : row :=
  {| id := id r;
     name := name r;
     api_key := api_key r;
     is_enabled := is_enabled r;
     created_at := asRead (created_at r);
     updated_at := asRead (updated_at r) |}.
End TenantsTable.
Definition Tenant : Type := TenantsTable.row.

Module DatasetsTable.
Record row : Type := {
  id : string;
  owner_tenant_id : option string;
  name : string;
  entity_type : string;
  tags : list string;
  sources : list string;
  schedule_cron : option string;
  extractor : string;
  config : json;
  is_enabled : bool;
  created_at : Timestamp;
  updated_at : Timestamp
}.

Definition selected (r : row) : row :=
  {| id := id r;
     owner_tenant_id := owner_tenant_id r;
     name := name r;
     entity_type := entity_type r;
     tags := tags r;
     sources := sources r;
     schedule_cron := schedule_cron r;
     extractor := extractor r;
     config := config r;
     is_enabled := is_enabled r;
     created_at := asRead (created_at r);
     updated_at := asRead (updated_at r) |}.

(** The row with its [is_enabled] flag set to [b]. *)
Definition withEnabled (b : bool) (r : row) : row :=
  {| id := id r;
     owner_tenant_id := owner_tenant_id r;
     name := name r;
     entity_type := entity_type r;
     tags := tags r;
     sources := sources r;
     schedule_cron := schedule_cron r;
     extractor := extractor r;
     config := config r;
     is_enabled := b;
     created_at := created_at r;
     updated_at := updated_at r |}.
End DatasetsTable.
Definition Dataset : Type := DatasetsTable.row.

Inductive JobStatus : Type :=
| QUEUED | RUNNING | SUCCEEDED | FAILED | CANCELED.

Definition statusText (s : JobStatus) : string :=
  match s with
  | QUEUED => "QUEUED"
  | RUNNING => "RUNNING"
  | SUCCEEDED => "SUCCEEDED"
  | FAILED => "FAILED"
  | CANCELED => "CANCELED"
  end.

Module JobsTable.
Record row : Type := {
  id : string;
  dataset_id : string;
  tenant_id : string;
  status : JobStatus;
  created_at : Timestamp;
  started_at : option Timestamp;
  finished_at : option Timestamp;
  progress : Z;
  stats : json;
  error_message : option string
}.

Definition selected (r : row) : row :=
  {| id := id r;
     dataset_id := dataset_id r;
     tenant_id := tenant_id r;
     status := status r;
     created_at := asRead (created_at r);
     started_at := option_map asRead (started_at r);
     finished_at := option_map asRead (finished_at r);
     progress := progress r;
     stats := stats r;
     error_message := error_message r |}.
End JobsTable.
Definition Job : Type := JobsTable.row.

Module ItemsTable.
Record row : Type := {
  id : string;
  dataset_id : string;
  tenant_id : option string;
  entity_type : string;
  tags : list string;
  source : string;
  url : string;
  canonical_url : option string;
  hash : string;
  published_at : option Timestamp;
  observed_at : Timestamp;
  data : json;
  created_at : Timestamp
}.

Definition selected (r : row) : row :=
  {| id := id r;
     dataset_id := dataset_id r;
     tenant_id := tenant_id r;
     entity_type := entity_type r;
     tags := tags r;
     source := source r;
     url := url r;
     canonical_url := canonical_url r;
     hash := hash r;
     published_at := option_map asRead (published_at r);
     observed_at := asRead (observed_at r);
     data := data r;
     created_at := asRead (created_at r) |}.
End ItemsTable.
Definition Item : Type := ItemsTable.row.

Record Database : Type := {
  tenants : list Tenant;
  datasets : list Dataset;
  jobs : list Job;
  items : list Item
}.

(* ================================================================== *)
(** ** Query building blocks *)

Section Sql.
Context {R : Type}.

Definition where_ (p : R -> bool) (q : list R) : list R := filter p q.

Definition executeTakeFirst (q : list R) : option R := hd_error q.

(** [ORDER BY]: an insertion sort; [before a b] holds when [a] may come
    before [b]. *)
Fixpoint insertRow (before : R -> R -> bool) (x : R) (l : list R) : list R :=
  match l with
  | [] => [x]
  | y :: tl => if before x y then x :: y :: tl else y :: insertRow before x tl
  end.

Fixpoint orderBy (before : R -> R -> bool) (l : list R) : list R :=
  match l with
  | [] => []
  | x :: tl => insertRow before x (orderBy before tl)
  end.

(** [LIMIT n]: the store rejects a negative count. *)
Definition limit_ (n : Z) (q : list R) : Result (list R) :=
  if n <? 0 then Err DatabaseError else Ok (firstn (Z.to_nat n) q).

(** [arr.pop()] keeps all but the last element. *)
Definition pop (l : list R) : list R := removelast l.

(** [arr[i]] for an integer index. *)
Definition at_ (l : list R) (i : Z) : option R :=
  if i <? 0 then None else nth_error l (Z.to_nat i).

End Sql.

(** [innerJoin('datasets', 'datasets.id', fk)]. *)
Definition innerJoin {R : Type} (rows : list R) (fk : R -> string)
  (ds : list Dataset) : list (R * Dataset) :=
  flat_map (fun r =>
    map (fun d => (r, d))
        (filter (fun d => (DatasetsTable.id d =? fk r)%string) ds)) rows.

(** [col @> elems] on a text array: every element of [elems] is in the
    column; a NULL element ([None]) is in no array. *)
Definition contains (l : list string) (elems : list (option string)) : bool :=
  forallb (fun e =>
             match e with
             | Some x => existsb (fun y => (y =? x)%string) l
             | None => false
             end) elems.

Section Store.

(** The input functions of the store for the two column types that the
    services bind request texts to.  [uuid_in] reads a text as a uuid and
    gives its canonical text; [array_in] reads a text as an array literal
    and gives its elements.  [None] is a text the store rejects. *)
Variable uuid_in : string -> option string.
Variable array_in : string -> option (list (option string)).

(** The ids of a table are uuids as the store gives them out: read back
    as texts, they stand for themselves. *)
Definition canonicalIds {R : Type} (rid : R -> string) (rows : list R) : Prop :=
  forall r, In r rows -> uuid_in (rid r) = Some (rid r).

(** A text bound where a uuid is compared. *)
Definition uuidParam (s : string) : Result string :=
  match uuid_in s with
  | Some u => Ok u
  | None => Err DatabaseError
  end.

(** [where(col, '@>', [x])]: the one-element list is compiled to the
    value list [($1)], so that the store is handed the text [x] itself
    where it expects an array, and reads it as an array literal. *)
Definition arrayParam (s : string) : Result (list (option string)) :=
  match array_in s with
  | Some elems => Ok elems
  | None => Err DatabaseError
  end.

End Store.

(** The access rule every read path spells out:
    [owner_tenant_id IS NULL OR owner_tenant_id = tenant.id]. *)
Definition isVisible (d : Dataset) (t : Tenant) : bool :=
  match DatasetsTable.owner_tenant_id d with
  | None => true
  | Some o => (o =? TenantsTable.id t)%string
  end.

(** Descending order on a timestamp, and on (timestamp, id). *)
Definition descDate {R : Type} (k : R -> Timestamp) (a b : R) : bool :=
  k b <=? k a.

Definition keyLt (a b : Timestamp * string) : bool :=
  (fst a <? fst b) || ((fst a =? fst b) && String.ltb (snd a) (snd b)).

Definition keyLe (a b : Timestamp * string) : bool :=
  (fst a <? fst b) || ((fst a =? fst b) && String.leb (snd a) (snd b)).

Definition descKey {R : Type} (k : R -> Timestamp * string) (a b : R) : bool :=
  keyLe (k b) (k a).

(** [l1] is [l2] with some rows left out, the others in their order. *)
Inductive Subsequence {A : Type} : list A -> list A -> Prop :=
| sub_nil : Subsequence [] []
| sub_skip x l1 l2 : Subsequence l1 l2 -> Subsequence l1 (x :: l2)
| sub_keep x l1 l2 : Subsequence l1 l2 -> Subsequence (x :: l1) (x :: l2).

(* ================================================================== *)
(** ** DatasetsService *)

(** [CreateDatasetDto] (datasets/dto/create-dataset.dto.ts). *)
Module CreateDatasetDto.
Record dto : Type := {
  name : string;
  entity_type : string;
  tags : option (list string);
  sources : option (list string);
  schedule_cron : option string;
  extractor : string;
  config : json;
  is_enabled : option bool
}.
End CreateDatasetDto.

Module DatasetsService.

Record Filters : Type := {
  entityType : option string;
  tag : option string;
  source : option string;
  mine : option bool
}.

(** [UpdateDatasetDto]: the eight optional fields the validation pipe
    lets through (whitelist, forbidNonWhitelisted). *)
Record UpdateDatasetDto : Type := {
  name : Field string;
  entity_type : Field string;
  tags : Field (list string);
  sources : Field (list string);
  schedule_cron : Field string;
  extractor : Field string;
  config : Field json;
  is_enabled : Field bool
}.

Definition given {A : Type} (f : Field A) : bool :=
  match f with Absent => false | _ => true end.

Definition isNull {A : Type} (f : Field A) : bool :=
  match f with Null => true | _ => false end.

(** [.set({})]: no field is given, and the statement has no column to
    set. *)
Definition noColumn (update : UpdateDatasetDto) : bool :=
  negb (given (name update) || given (entity_type update)
        || given (tags update) || given (sources update)
        || given (schedule_cron update) || given (extractor update)
        || given (config update) || given (is_enabled update)).

(** A [null] for a column declared NOT NULL: every column of the DTO but
    [schedule_cron]. *)
Definition nullForRequired (update : UpdateDatasetDto) : bool :=
  isNull (name update) || isNull (entity_type update)
  || isNull (tags update) || isNull (sources update)
  || isNull (extractor update) || isNull (config update)
  || isNull (is_enabled update).

Definition orKeep {A : Type} (f : Field A) (old : A) : A :=
  match f with Value v => v | _ => old end.

(** [.set({...dto})] on one row: the given fields overwrite the column,
    the others are left out of the statement.  Only [schedule_cron] can
    take a [null]. *)
Definition set (update : UpdateDatasetDto) (d : Dataset) : Dataset :=
  {| DatasetsTable.id := DatasetsTable.id d;
     DatasetsTable.owner_tenant_id := DatasetsTable.owner_tenant_id d;
     DatasetsTable.name := orKeep (name update) (DatasetsTable.name d);
     DatasetsTable.entity_type :=
       orKeep (entity_type update) (DatasetsTable.entity_type d);
     DatasetsTable.tags := orKeep (tags update) (DatasetsTable.tags d);
     DatasetsTable.sources := orKeep (sources update) (DatasetsTable.sources d);
     DatasetsTable.schedule_cron :=
       match schedule_cron update with
       | Value c => Some c
       | Null => None
       | Absent => DatasetsTable.schedule_cron d
       end;
     DatasetsTable.extractor :=
       orKeep (extractor update) (DatasetsTable.extractor d);
     DatasetsTable.config := orKeep (config update) (DatasetsTable.config d);
     DatasetsTable.is_enabled :=
       orKeep (is_enabled update) (DatasetsTable.is_enabled d);
     DatasetsTable.created_at := DatasetsTable.created_at d;
     DatasetsTable.updated_at := DatasetsTable.updated_at d |}.

(** What the update makes of one row, and of the table. *)
Definition updatedRow (update : UpdateDatasetDto) (id : string) (d : Dataset)
  : Dataset :=
  if (DatasetsTable.id d =? id)%string then set update d else d.

Definition updatedRows (update : UpdateDatasetDto) (id : string)
  (ds : list Dataset) : list Dataset :=
  map (updatedRow update id) ds.

(** [updateTable('datasets').set(update).where('id', '=', id)]: the store
    rejects a statement that sets no column, and one that puts a NULL in
    a NOT NULL column of a row. *)
Definition updateTable (update : UpdateDatasetDto) (id : string)
  (ds : list Dataset) : Result (list Dataset) :=
  if noColumn update then Err DatabaseError
  else if nullForRequired update
          && existsb (fun d => (DatasetsTable.id d =? id)%string) ds
       then Err DatabaseError
       else Ok (updatedRows update id ds).

Definition withDatasets (db : Database) (ds : list Dataset) : Database :=
  {| tenants := tenants db; datasets := ds; jobs := jobs db; items := items db |}.

Section WithStore.
Variable uuid_in : string -> option string.
Variable array_in : string -> option (list (option string)).

Definition findAll (tenant : Tenant) (filters : Filters) (db : Database)
  : Result (list Dataset) :=
  let query := where_ (fun d => isVisible d tenant) (datasets db) in
  let query :=
    match truthy (entityType filters) with
    | Some e => where_ (fun d => (DatasetsTable.entity_type d =? e)%string) query
    | None => query
    end in
  let* query :=
    match truthy (tag filters) with
    | Some t =>
        let* elems := arrayParam array_in t in
        Ok (where_ (fun d => contains (DatasetsTable.tags d) elems) query)
    | None => Ok query
    end in
  let* query :=
    match truthy (source filters) with
    | Some s =>
        let* elems := arrayParam array_in s in
        Ok (where_ (fun d => contains (DatasetsTable.sources d) elems) query)
    | None => Ok query
    end in
  let query :=
    match mine filters with
    | Some true =>
        where_ (fun d =>
          match DatasetsTable.owner_tenant_id d with
          | Some o => (o =? TenantsTable.id tenant)%string
          | None => false
          end) query
    | _ => query
    end in
  Ok (map DatasetsTable.selected
        (orderBy (descDate DatasetsTable.created_at) query)).

Definition findOne (id : string) (tenant : Tenant) (db : Database)
  : Result Dataset :=
  let* id := uuidParam uuid_in id in
  let dataset :=
    executeTakeFirst
      (where_ (fun d => isVisible d tenant)
         (where_ (fun d => (DatasetsTable.id d =? id)%string) (datasets db))) in
  match dataset with
  | None => Err NotFoundException
  | Some d => Ok (DatasetsTable.selected d)
  end.

Definition update (id : string) (tenant : Tenant) (dto : UpdateDatasetDto)
  (db : Database) : Result (option Dataset * Database) :=
  let* existing := findOne id tenant db in
  let update := dto in
  let* id := uuidParam uuid_in id in
  let* ds := updateTable update id (datasets db) in
  let dataset :=
    executeTakeFirst (where_ (fun d => (DatasetsTable.id d =? id)%string) ds) in
  Ok (option_map DatasetsTable.selected dataset, withDatasets db ds).

End WithStore.

(** [create]: [fresh] and [now] are the id and the timestamps the store
    assigns to the new row.  An optional field is [None] when it is left
    out or [null]: [dto.tags || []] and [dto.sources || []] fall back in
    both cases (an array is truthy), [dto.schedule_cron || null] also on
    the empty string, and so does [dto.is_enabled ?? true].  The row
    comes back through [returningAll]. *)
Definition create (fresh : string) (now : Timestamp) (tenant : Tenant)
  (dto : CreateDatasetDto.dto) (db : Database) : Dataset * Database :=
  let newDataset : Dataset :=
    {| DatasetsTable.id := fresh;
       DatasetsTable.owner_tenant_id := Some (TenantsTable.id tenant);
       DatasetsTable.name := CreateDatasetDto.name dto;
       DatasetsTable.entity_type := CreateDatasetDto.entity_type dto;
       DatasetsTable.tags :=
         match CreateDatasetDto.tags dto with Some t => t | None => [] end;
       DatasetsTable.sources :=
         match CreateDatasetDto.sources dto with Some s => s | None => [] end;
       DatasetsTable.schedule_cron := truthy (CreateDatasetDto.schedule_cron dto);
       DatasetsTable.extractor := CreateDatasetDto.extractor dto;
       DatasetsTable.config := CreateDatasetDto.config dto;
       DatasetsTable.is_enabled :=
         match CreateDatasetDto.is_enabled dto with Some b => b | None => true end;
       DatasetsTable.created_at := now;
       DatasetsTable.updated_at := now |} in
  (DatasetsTable.selected newDataset,
   withDatasets db (datasets db ++ [newDataset])%list).

End DatasetsService.

(* ================================================================== *)
(** ** DatasetsController *)

Module DatasetsController.

(** [GET /v1/datasets]: the [mine] query parameter is a text; only the
    texts ["true"] and ["false"] are turned into a boolean. *)
Definition findAll (array_in : string -> option (list (option string)))
  (tenant : Tenant) (entityType tag source mineParam : option string)
  (db : Database) : Result (list Dataset) :=
  let mine :=
    match mineParam with
    | Some m =>
        if (m =? "true")%string then Some true
        else if (m =? "false")%string then Some false
        else None
    | None => None
    end in
  DatasetsService.findAll array_in tenant
    {| DatasetsService.entityType := entityType;
       DatasetsService.tag := tag;
       DatasetsService.source := source;
       DatasetsService.mine := mine |} db.

End DatasetsController.

(* ================================================================== *)
(** ** ApiKeyGuard *)

Module ApiKeyGuard.

(** The guard lets the request through with a tenant attached to it, or
    throws an [UnauthorizedException]. *)
Inductive Outcome : Type :=
| Activated (tenant : Tenant)
| UnauthorizedException (message : string).

(** [canActivate]: [apiKey] is [request.headers['x-api-key']]. *)
Definition canActivate (apiKey : option string) (db : Database) : Outcome :=
  match truthy apiKey with
  | None => UnauthorizedException "Missing X-API-Key header"
  | Some apiKey =>
      let tenant :=
        executeTakeFirst
          (where_ (fun t => Bool.eqb (TenantsTable.is_enabled t) true)
             (where_ (fun t => (TenantsTable.api_key t =? apiKey)%string)
                (tenants db))) in
      match tenant with
      | None => UnauthorizedException "Invalid or disabled API key"
      | Some tenant => Activated (TenantsTable.selected tenant)
      end
  end.

End ApiKeyGuard.

(* ================================================================== *)
(** ** Seed script (db/seed.ts) *)

Module Seed.

Definition withTenants (db : Database) (ts : list Tenant) : Database :=
  {| tenants := ts; datasets := datasets db; jobs := jobs db; items := items db |}.

Definition exampleConfig : json :=
  JObj [("start_urls", JArr [JStr "https://example.com/news"]);
        ("article_link_selector", JStr "a.article-link");
        ("title_selector", JStr "h1.article-title");
        ("date_selector", JStr "time.published-date");
        ("content_selector", JStr "div.article-content p")].

(** The rows the seed inserts; [fresh] and [now] are the id and the
    timestamp the store assigns. *)
Definition newTenant (fresh : string) (now : Timestamp) : Tenant :=
  {| TenantsTable.id := fresh;
     TenantsTable.name := "dev";
     TenantsTable.api_key := "dev-key";
     TenantsTable.is_enabled := true;
     TenantsTable.created_at := now;
     TenantsTable.updated_at := now |}.

Definition newDataset (fresh : string) (now : Timestamp) : Dataset :=
  {| DatasetsTable.id := fresh;
     DatasetsTable.owner_tenant_id := None;
     DatasetsTable.name := "Example News";
     DatasetsTable.entity_type := "article.v1";
     DatasetsTable.tags := ["news/world"; "en"];
     DatasetsTable.sources := ["example.com"];
     DatasetsTable.schedule_cron := None;
     DatasetsTable.extractor := "example_news_spider";
     DatasetsTable.config := exampleConfig;
     DatasetsTable.is_enabled := true;
     DatasetsTable.created_at := now;
     DatasetsTable.updated_at := now |}.

(** The two look-ups and inserts of [seed] on the store. *)
Definition seed (freshTenant freshDataset : string) (now : Timestamp)
  (db : Database) : Database :=
  let existingTenant :=
    executeTakeFirst
      (where_ (fun t => (TenantsTable.api_key t =? "dev-key")%string) (tenants db)) in
  let db :=
    match existingTenant with
    | Some _ => db
    | None => withTenants db (tenants db ++ [newTenant freshTenant now])%list
    end in
  let existingDataset :=
    executeTakeFirst
      (where_ (fun d => (DatasetsTable.extractor d =? "example_news_spider")%string)
         (where_ (fun d => (DatasetsTable.name d =? "Example News")%string)
            (datasets db))) in
  match existingDataset with
  | Some _ => db
  | None =>
      DatasetsService.withDatasets db
        (datasets db ++ [newDataset freshDataset now])%list
  end.

End Seed.

(* ================================================================== *)
(** ** Cursors *)

(** The keyset predicate both list endpoints build from a cursor:
    [col < date OR (col = date AND id < cursorId)], on the columns as the
    store holds them.  A cursor without a second component leaves [id]
    undefined, which is bound as NULL: the comparison with it is never
    satisfied. *)
Definition afterCursor (date : Timestamp) (id : option string)
  (k : Timestamp * string) : bool :=
  (fst k <? date)
  || ((fst k =? date)
      && match id with
         | Some i => String.ltb (snd k) i
         | None => false
         end).

Definition withJobs (db : Database) (js : list Job) : Database :=
  {| tenants := tenants db; datasets := datasets db; jobs := js; items := items db |}.

(* ================================================================== *)
(** ** JobsService and ItemsService *)

Section Services.

Variable uuid_in : string -> option string.

(** [Date.prototype.toISOString] and [new Date(string)]; [None] is an
    Invalid Date. *)
Variable toISOString : Date -> string.
Variable parseDate : string -> option Date.

(** A statement bound to an Invalid Date is rejected by the store. *)
Definition newDate (s : string) : Result Date :=
  match parseDate s with
  | Some d => Ok d
  | None => Err DatabaseError
  end.

Definition cursorText (d : Date) (id : string) : string :=
  toISOString d ++ String pipe id.

(** [const [date, id] = cursor.split('|')], as the statement binds the two
    parts: the first through [new Date], the second as a uuid. *)
Definition cursorParams (cursor : string)
  : Result (Timestamp * option string) :=
  let parts := split pipe cursor in
  let date := nth 0 parts "" in
  let id := nth_error parts 1 in
  let* date := newDate date in
  let* id :=
    match id with
    | Some i => let* u := uuidParam uuid_in i in Ok (Some u)
    | None => Ok None
    end in
  Ok (toTimestamp date, id).

End Services.

(** A client that calls a list endpoint with the [nextCursor] it was
    handed until there is none, and collects the pages; [None] when a
    call fails or the fuel runs out. *)
Fixpoint followCursors {A : Type}
  (call : option string -> Result (list A * option string))
  (fuel : nat) (cursor : option string) : option (list (list A)) :=
  match fuel with
  | O => None
  | S fuel =>
      match call cursor with
      | Ok (page, Some next) =>
          option_map (cons page) (followCursors call fuel (Some next))
      | Ok (page, None) => Some [page]
      | Err _ => None
      end
  end.

Module JobsService.

Record QueueJob : Type := {
  jobId : string;
  datasetId : string
}.

Record Filters : Type := {
  f_datasetId : option string;
  f_status : option string;
  f_limit : option number;
  f_cursor : option string
}.

Definition jobKey (j : Job) : Timestamp * string :=
  (JobsTable.created_at j, JobsTable.id j).

Section WithStore.
Variable uuid_in : string -> option string.
Variable toISOString : Date -> string.
Variable parseDate : string -> option Date.

(** [create]: [fresh] and [now] are the id and timestamp the store would
    assign to the new row.  The body reads [dto.mode], but [dto] is not
    among the parameters of [create] and nothing of that name is in
    scope: evaluating it is a ReferenceError, and the statements after it
    are never reached. *)
Definition create (fresh : string) (now : Timestamp)
  (tenant : Tenant) (datasetId : string)
  (st : Database * list QueueJob)
  : Result (Job * (Database * list QueueJob)) :=
  let '(db, queue) := st in
  let* dataset := DatasetsService.findOne uuid_in datasetId tenant db in
  let* dto := (Err ReferenceError : Result (option string)) in
  let mode := match truthy dto with Some v => v | None => "full" end in
  let* dataset_id := uuidParam uuid_in datasetId in
  let job : Job :=
    {| JobsTable.id := fresh;
       JobsTable.dataset_id := dataset_id;
       JobsTable.tenant_id := TenantsTable.id tenant;
       JobsTable.status := QUEUED;
       JobsTable.created_at := now;
       JobsTable.started_at := None;
       JobsTable.finished_at := None;
       JobsTable.progress := 0;
       JobsTable.stats := JObj [("mode", JStr mode)];
       JobsTable.error_message := None |} in
  let db := withJobs db (jobs db ++ [job])%list in
  let job := JobsTable.selected job in
  let queue :=
    (queue ++ [{| jobId := JobsTable.id job; datasetId := datasetId |}])%list in
  Ok (job, (db, queue)).

Definition findOne (id : string) (tenant : Tenant) (db : Database)
  : Result Job :=
  let* id := uuidParam uuid_in id in
  let job :=
    executeTakeFirst
      (where_ (fun j => (JobsTable.id j =? id)%string) (jobs db)) in
  match job with
  | None => Err NotFoundException
  | Some job =>
      let job := JobsTable.selected job in
      match DatasetsService.findOne uuid_in (JobsTable.dataset_id job) tenant db with
      | Ok _ => Ok job
      | Err _ => Err ForbiddenException
      end
  end.

(** The rows the statement of [findAll] selects, before [LIMIT], as the
    store holds them. *)
Definition findAllQuery (tenant : Tenant) (filters : Filters) (db : Database)
  : Result (list (Job * Dataset)) :=
  let query :=
    where_ (fun r => isVisible (snd r) tenant)
      (innerJoin (jobs db) JobsTable.dataset_id (datasets db)) in
  let* query :=
    match truthy (f_datasetId filters) with
    | Some d =>
        let* d := uuidParam uuid_in d in
        Ok (where_ (fun r => (JobsTable.dataset_id (fst r) =? d)%string) query)
    | None => Ok query
    end in
  let query :=
    match truthy (f_status filters) with
    | Some s =>
        where_ (fun r => (statusText (JobsTable.status (fst r)) =? s)%string) query
    | None => query
    end in
  let* query :=
    match truthy (f_cursor filters) with
    | Some cursor =>
        let* (createdAt, id) := cursorParams uuid_in parseDate cursor in
        Ok (where_ (fun r => afterCursor createdAt id (jobKey (fst r))) query)
    | None => Ok query
    end in
  Ok (orderBy (descKey (fun r => jobKey (fst r))) query).

Definition effectiveLimit (filters : Filters) : Z :=
  Math_min (orDefault (f_limit filters) 50) 100.

(** The rows the store hands back: [query.limit(limit + 1).execute()]. *)
Definition fetched (tenant : Tenant) (filters : Filters) (db : Database)
  : Result (list Job) :=
  let* query := findAllQuery tenant filters db in
  let limit := effectiveLimit filters in
  let* rows := limit_ (limit + 1) query in
  Ok (map (fun r => JobsTable.selected (fst r)) rows).

Definition findAll (tenant : Tenant) (filters : Filters) (db : Database)
  : Result (list Job * option string) :=
  let* jobs := fetched tenant filters db in
  let limit := effectiveLimit filters in
  if limit <? Z.of_nat (List.length jobs) then
    match at_ jobs (limit - 1) with
    | Some lastJob =>
        let nextCursor :=
          cursorText toISOString (toDate (JobsTable.created_at lastJob))
            (JobsTable.id lastJob) in
        Ok (pop jobs, Some nextCursor)
    | None => Err TypeError
    end
  else Ok (jobs, None).

Definition withCursor (filters : Filters) (cursor : option string) : Filters :=
  {| f_datasetId := f_datasetId filters;
     f_status := f_status filters;
     f_limit := f_limit filters;
     f_cursor := cursor |}.

(** The single unpaged fetch of jobs: the statement of [findAll] without
    cursor and without [LIMIT]. *)
Definition unpaged (tenant : Tenant) (filters : Filters) (db : Database)
  : Result (list Job) :=
  let* query := findAllQuery tenant (withCursor filters None) db in
  Ok (map (fun r => JobsTable.selected (fst r)) query).

(** A client paging through the job list, with no writes in between. *)
Definition fetchAllPages (fuel : nat) (tenant : Tenant) (filters : Filters)
  (cursor : option string) (db : Database) : option (list (list Job)) :=
  followCursors (fun cursor => findAll tenant (withCursor filters cursor) db)
    fuel cursor.

End WithStore.
End JobsService.

Module ItemsService.

Record Filters : Type := {
  f_datasetId : option string;
  f_entityType : option string;
  f_tag : option string;
  f_source : option string;
  f_since : option string;
  f_until : option string;
  f_limit : option number;
  f_cursor : option string
}.

Definition itemKey (i : Item) : Timestamp * string :=
  (ItemsTable.observed_at i, ItemsTable.id i).

Section WithStore.
Variable uuid_in : string -> option string.
Variable array_in : string -> option (list (option string)).
Variable toISOString : Date -> string.
Variable parseDate : string -> option Date.

Definition findOne (id : string) (tenant : Tenant) (db : Database)
  : Result Item :=
  let* id := uuidParam uuid_in id in
  let item :=
    executeTakeFirst
      (where_ (fun r => isVisible (snd r) tenant)
         (where_ (fun r => (ItemsTable.id (fst r) =? id)%string)
            (innerJoin (items db) ItemsTable.dataset_id (datasets db)))) in
  match item with
  | None => Err NotFoundException
  | Some r => Ok (ItemsTable.selected (fst r))
  end.

(** The filters of [findAll] other than the cursor. *)
Definition applyFilters (filters : Filters) (query : list (Item * Dataset))
  : Result (list (Item * Dataset)) :=
  let* query :=
    match truthy (f_datasetId filters) with
    | Some d =>
        let* d := uuidParam uuid_in d in
        Ok (where_ (fun r => (ItemsTable.dataset_id (fst r) =? d)%string) query)
    | None => Ok query
    end in
  let query :=
    match truthy (f_entityType filters) with
    | Some e => where_ (fun r => (ItemsTable.entity_type (fst r) =? e)%string) query
    | None => query
    end in
  let* query :=
    match truthy (f_tag filters) with
    | Some t =>
        let* elems := arrayParam array_in t in
        Ok (where_ (fun r => contains (ItemsTable.tags (fst r)) elems) query)
    | None => Ok query
    end in
  let query :=
    match truthy (f_source filters) with
    | Some s => where_ (fun r => (ItemsTable.source (fst r) =? s)%string) query
    | None => query
    end in
  let* query :=
    match truthy (f_since filters) with
    | Some since =>
        let* d := newDate parseDate since in
        Ok (where_ (fun r => toTimestamp d <=? ItemsTable.observed_at (fst r))
              query)
    | None => Ok query
    end in
  match truthy (f_until filters) with
  | Some until =>
      let* d := newDate parseDate until in
      Ok (where_ (fun r => ItemsTable.observed_at (fst r) <=? toTimestamp d)
            query)
  | None => Ok query
  end.

(** The rows the statement of [findAll] selects, before [LIMIT], as the
    store holds them. *)
Definition findAllQuery (tenant : Tenant) (filters : Filters) (db : Database)
  : Result (list (Item * Dataset)) :=
  let query :=
    where_ (fun r => isVisible (snd r) tenant)
      (innerJoin (items db) ItemsTable.dataset_id (datasets db)) in
  let* query := applyFilters filters query in
  let* query :=
    match truthy (f_cursor filters) with
    | Some cursor =>
        let* (observedAt, id) := cursorParams uuid_in parseDate cursor in
        Ok (where_ (fun r => afterCursor observedAt id (itemKey (fst r))) query)
    | None => Ok query
    end in
  Ok (orderBy (descKey (fun r => itemKey (fst r))) query).

Definition effectiveLimit (filters : Filters) : Z :=
  Math_min (orDefault (f_limit filters) 50) 100.

(** The rows the store hands back: [query.limit(limit + 1).execute()]. *)
Definition fetched (tenant : Tenant) (filters : Filters) (db : Database)
  : Result (list Item) :=
  let* query := findAllQuery tenant filters db in
  let limit := effectiveLimit filters in
  let* rows := limit_ (limit + 1) query in
  Ok (map (fun r => ItemsTable.selected (fst r)) rows).

Definition findAll (tenant : Tenant) (filters : Filters) (db : Database)
  : Result (list Item * option string) :=
  let* items := fetched tenant filters db in
  let limit := effectiveLimit filters in
  if limit <? Z.of_nat (List.length items) then
    match at_ items (limit - 1) with
    | Some lastItem =>
        let nextCursor :=
          cursorText toISOString (toDate (ItemsTable.observed_at lastItem))
            (ItemsTable.id lastItem) in
        Ok (pop items, Some nextCursor)
    | None => Err TypeError
    end
  else Ok (items, None).

Definition withCursor (filters : Filters) (cursor : option string) : Filters :=
  {| f_datasetId := f_datasetId filters;
     f_entityType := f_entityType filters;
     f_tag := f_tag filters;
     f_source := f_source filters;
     f_since := f_since filters;
     f_until := f_until filters;
     f_limit := f_limit filters;
     f_cursor := cursor |}.

(** The single unpaged fetch: the statement of [findAll] without cursor
    and without [LIMIT]. *)
Definition unpaged (tenant : Tenant) (filters : Filters) (db : Database)
  : Result (list Item) :=
  let* query := findAllQuery tenant (withCursor filters None) db in
  Ok (map (fun r => ItemsTable.selected (fst r)) query).

(** A client paging through the item list, with no writes in between. *)
Definition fetchAllPages (fuel : nat) (tenant : Tenant) (filters : Filters)
  (cursor : option string) (db : Database) : option (list (list Item)) :=
  followCursors (fun cursor => findAll tenant (withCursor filters cursor) db)
    fuel cursor.

End WithStore.

(** [ceil(count / k)]. *)
Definition ceilDiv (count k : Z) : Z := (count + k - 1) / k.

End ItemsService.

(* ================================================================== *)
(** ** The worker: job state machine, claim protocol, ingestion *)

Module Worker.

Inductive WorkerError : Type :=
| InvalidTransition.

Inductive Outcome (A : Type) : Type :=
| Done (a : A)
| Failed (e : WorkerError).
Arguments Done {A} a.
Arguments Failed {A} e.

Definition isQueued (j : Job) : bool :=
  match JobsTable.status j with QUEUED => true | _ => false end.

Definition withStatus (j : Job) (s : JobStatus) (started finished : option Timestamp)
  (progress : Z) (stats : json) (error : option string) : Job :=
  {| JobsTable.id := JobsTable.id j;
     JobsTable.dataset_id := JobsTable.dataset_id j;
     JobsTable.tenant_id := JobsTable.tenant_id j;
     JobsTable.status := s;
     JobsTable.created_at := JobsTable.created_at j;
     JobsTable.started_at := started;
     JobsTable.finished_at := finished;
     JobsTable.progress := progress;
     JobsTable.stats := stats;
     JobsTable.error_message := error |}.

(** Modelled from the spec: the worker's transition of a claimed row
    (services/worker is not among the sources).  QUEUED becomes RUNNING
    and [started_at] is set. *)
Definition markRunning (now : Timestamp) (j : Job) : Job :=
  withStatus j RUNNING (Some now) (JobsTable.finished_at j)
    (JobsTable.progress j) (JobsTable.stats j) (JobsTable.error_message j).

(** Modelled from the spec: the worker's [succeed] (services/worker is
    not among the sources).  RUNNING becomes SUCCEEDED with [finished_at]
    set and progress 100; a job already SUCCEEDED is left as it is; any
    other state is an InvalidTransition. *)
Definition succeed (now : Timestamp) (finalStats : json) (j : Job) : Outcome Job :=
  match JobsTable.status j with
  | RUNNING =>
      Done (withStatus j SUCCEEDED (JobsTable.started_at j) (Some now) 100
              finalStats (JobsTable.error_message j))
  | SUCCEEDED => Done j
  | _ => Failed InvalidTransition
  end.

(** Modelled from the spec: the worker's [fail] (services/worker is not
    among the sources).  RUNNING becomes FAILED with [finished_at] and
    [error_message] set; a job already FAILED is left as it is; any other
    state is an InvalidTransition. *)
Definition fail (now : Timestamp) (message : string) (j : Job) : Outcome Job :=
  match JobsTable.status j with
  | RUNNING =>
      Done (withStatus j FAILED (JobsTable.started_at j) (Some now)
              (JobsTable.progress j) (JobsTable.stats j) (Some message))
  | FAILED => Done j
  | _ => Failed InvalidTransition
  end.

(** Modelled from the spec: [cancel] (services/worker is not among the
    sources).  QUEUED and RUNNING become CANCELED; other states are an
    InvalidTransition.  The visibility check on the caller comes before
    the transition and is not part of it. *)
Definition cancel (now : Timestamp) (j : Job) : Outcome Job :=
  match JobsTable.status j with
  | QUEUED | RUNNING =>
      Done (withStatus j CANCELED (JobsTable.started_at j) (Some now)
              (JobsTable.progress j) (JobsTable.stats j)
              (JobsTable.error_message j))
  | _ => Failed InvalidTransition
  end.

(** Modelled from the spec: [reportProgress] (services/worker is not
    among the sources).  RUNNING only; a lower progress value is rejected;
    the status is not touched.  [merge] is the per-key merge of stats. *)
Definition reportProgress (merge : json -> json -> json) (progress : Z)
  (stats : json) (j : Job) : Outcome Job :=
  match JobsTable.status j with
  | RUNNING =>
      if progress <? JobsTable.progress j then Failed InvalidTransition
      else Done (withStatus j RUNNING (JobsTable.started_at j)
                   (JobsTable.finished_at j) progress
                   (merge (JobsTable.stats j) stats)
                   (JobsTable.error_message j))
  | _ => Failed InvalidTransition
  end.

(** Modelled from the spec: the transition a successful claim applies to
    one row (services/worker is not among the sources). *)
Definition claimRow (now : Timestamp) (j : Job) : Outcome Job :=
  match JobsTable.status j with
  | QUEUED => Done (markRunning now j)
  | _ => Failed InvalidTransition
  end.

(** The operations of the job lifecycle manager on one job. *)
Inductive Op : Type :=
| OpClaim (now : Timestamp)
| OpReportProgress (merge : json -> json -> json) (progress : Z) (stats : json)
| OpSucceed (now : Timestamp) (finalStats : json)
| OpFail (now : Timestamp) (message : string)
| OpCancel (now : Timestamp).

Definition apply (op : Op) (j : Job) : Outcome Job :=
  match op with
  | OpClaim now => claimRow now j
  | OpReportProgress merge p s => reportProgress merge p s j
  | OpSucceed now s => succeed now s j
  | OpFail now m => fail now m j
  | OpCancel now => cancel now j
  end.

(** The transitions of the state machine. *)
Definition forward (a b : JobStatus) : bool :=
  match a, b with
  | QUEUED, RUNNING => true
  | RUNNING, SUCCEEDED => true
  | RUNNING, FAILED => true
  | QUEUED, CANCELED => true
  | RUNNING, CANCELED => true
  | _, _ => false
  end.

Definition rank (s : JobStatus) : nat :=
  match s with
  | QUEUED => 0
  | RUNNING => 1
  | SUCCEEDED | FAILED | CANCELED => 2
  end.

(* ------------------------------------------------------------------ *)
(** *** Claim protocol *)

(** Modelled from the spec: the single conditional update of [claim]
    (services/worker is not among the sources):
    set status RUNNING and [started_at] where the id is the candidate's
    and the status is still QUEUED; the result carries the number of rows
    affected. *)
Definition claimUpdate (cand : string) (now : Timestamp) (js : list Job)
  : list Job * nat :=
  let hit (j : Job) := (JobsTable.id j =? cand)%string && isQueued j in
  (map (fun j => if hit j then markRunning now j else j) js,
   List.length (filter hit js)).

(** Modelled from the spec: the candidate of [claim] (services/worker is
    not among the sources): the QUEUED job with the oldest [created_at]. *)
Definition selectCandidate (js : list Job) : option string :=
  option_map JobsTable.id
    (executeTakeFirst
       (orderBy (fun a b : Job => JobsTable.created_at a <=? JobsTable.created_at b)
          (where_ isQueued js))).

(** The state of one claim operation. *)
Inductive Poller : Type :=
| Idle
| Selected (cand : string)
| Claimed (job : string)
| NoWork.

(** One attempted update as the poller observes it. *)
Record Attempt : Type := {
  a_poller : nat;
  a_job : string;
  a_rows : nat
}.

Record Config : Type := {
  store : list Job;
  pollers : nat -> Poller;
  log : list Attempt
}.

Definition setPoller (ps : nat -> Poller) (p : nat) (s : Poller) : nat -> Poller :=
  fun q => if Nat.eqb q p then s else ps q.

(** Modelled from the spec: one atomic step of the claim operation of
    poller [p] (services/worker is not among the sources).  An idle poller
    reads its candidate; a poller with a candidate runs the conditional
    update and, when no row was affected, goes back to look for another
    candidate; a finished poller does nothing. *)
Definition step (p : nat) (now : Timestamp) (c : Config) : Config :=
  match pollers c p with
  | Idle =>
      match selectCandidate (store c) with
      | Some cand =>
          {| store := store c;
             pollers := setPoller (pollers c) p (Selected cand);
             log := log c |}
      | None =>
          {| store := store c;
             pollers := setPoller (pollers c) p NoWork;
             log := log c |}
      end
  | Selected cand =>
      let '(js, rows) := claimUpdate cand now (store c) in
      {| store := js;
         pollers :=
           setPoller (pollers c) p
             (if Nat.ltb 0 rows then Claimed cand else Idle);
         log := (log c ++ [{| a_poller := p; a_job := cand; a_rows := rows |}])%list |}
  | Claimed _ => c
  | NoWork => c
  end.

(** An interleaving: which poller moves next, and the clock it reads. *)
Fixpoint run (schedule : list (nat * Timestamp)) (c : Config) : Config :=
  match schedule with
  | [] => c
  | (p, now) :: rest => run rest (step p now c)
  end.

Definition initial (js : list Job) : Config :=
  {| store := js; pollers := fun _ => Idle; log := [] |}.

Definition successes (job : string) (l : list Attempt) : list Attempt :=
  filter (fun a => (a_job a =? job)%string && Nat.ltb 0 (a_rows a)) l.

(** No row of the job is still waiting to be claimed. *)
Definition noQueuedRow (job : string) (js : list Job) : Prop :=
  forall j, In j js -> JobsTable.id j = job -> isQueued j = false.

(** A row of the job is RUNNING with [started_at] set. *)
Definition runningRow (job : string) (js : list Job) : Prop :=
  exists j, In j js /\ JobsTable.id j = job
            /\ JobsTable.status j = RUNNING /\ JobsTable.started_at j <> None.

(** What holds in every configuration the pollers can reach. *)
Record Inv (c : Config) : Prop := {
  inv_taken : forall p job, pollers c p = Claimed job -> noQueuedRow job (store c);
  inv_running : forall p job, pollers c p = Claimed job -> runningRow job (store c);
  inv_owner : forall a, In a (log c) -> (0 < a_rows a)%nat ->
                pollers c (a_poller a) = Claimed (a_job a);
  inv_logged : forall p job, pollers c p = Claimed job ->
                 exists a, In a (log c) /\ a_poller a = p /\ a_job a = job
                           /\ (0 < a_rows a)%nat;
  inv_once : forall job, (List.length (successes job (log c)) <= 1)%nat
}.

(* ------------------------------------------------------------------ *)
(** *** Ingestion *)

Record RawRecord : Type := {
  r_entity_type : string;
  r_tags : list string;
  r_source : string;
  r_url : string;
  r_canonical_url : option string;
  r_published_at : option Timestamp;
  r_payload : json
}.

Inductive IngestResult : Type :=
| created | updated | unchanged.

Section Ingest.
(** Normalisation of a payload and its content fingerprint. *)
Variable normalize : json -> json.
Variable fingerprint : json -> string.

Definition sameKey (datasetId url : string) (i : Item) : bool :=
  (ItemsTable.dataset_id i =? datasetId)%string && (ItemsTable.url i =? url)%string.

Definition candidate (fresh : string) (now : Timestamp) (datasetId : string)
  (raw : RawRecord) : Item :=
  let data := normalize (r_payload raw) in
  {| ItemsTable.id := fresh;
     ItemsTable.dataset_id := datasetId;
     ItemsTable.tenant_id := None;
     ItemsTable.entity_type := r_entity_type raw;
     ItemsTable.tags := r_tags raw;
     ItemsTable.source := r_source raw;
     ItemsTable.url := r_url raw;
     ItemsTable.canonical_url := r_canonical_url raw;
     ItemsTable.hash := fingerprint data;
     ItemsTable.published_at := r_published_at raw;
     ItemsTable.observed_at := now;
     ItemsTable.data := data;
     ItemsTable.created_at := now |}.

Definition touch (now : Timestamp) (i : Item) : Item :=
  {| ItemsTable.id := ItemsTable.id i;
     ItemsTable.dataset_id := ItemsTable.dataset_id i;
     ItemsTable.tenant_id := ItemsTable.tenant_id i;
     ItemsTable.entity_type := ItemsTable.entity_type i;
     ItemsTable.tags := ItemsTable.tags i;
     ItemsTable.source := ItemsTable.source i;
     ItemsTable.url := ItemsTable.url i;
     ItemsTable.canonical_url := ItemsTable.canonical_url i;
     ItemsTable.hash := ItemsTable.hash i;
     ItemsTable.published_at := ItemsTable.published_at i;
     ItemsTable.observed_at := now;
     ItemsTable.data := ItemsTable.data i;
     ItemsTable.created_at := ItemsTable.created_at i |}.

Definition rewrite_ (now : Timestamp) (c : Item) (i : Item) : Item :=
  {| ItemsTable.id := ItemsTable.id i;
     ItemsTable.dataset_id := ItemsTable.dataset_id i;
     ItemsTable.tenant_id := ItemsTable.tenant_id i;
     ItemsTable.entity_type := ItemsTable.entity_type i;
     ItemsTable.tags := ItemsTable.tags i;
     ItemsTable.source := ItemsTable.source i;
     ItemsTable.url := ItemsTable.url i;
     ItemsTable.canonical_url := ItemsTable.canonical_url i;
     ItemsTable.hash := ItemsTable.hash c;
     ItemsTable.published_at := ItemsTable.published_at c;
     ItemsTable.observed_at := now;
     ItemsTable.data := ItemsTable.data c;
     ItemsTable.created_at := ItemsTable.created_at i |}.

(** Modelled from the spec: [ingest] (services/worker is not among the
    sources).  Lookup by [(dataset_id, url)]: no row, insert ([created]);
    a row with the same hash, only [observed_at] is updated ([unchanged]);
    a row with another hash, [data], [hash], [published_at] and
    [observed_at] are updated ([updated]).  [fresh] and [now] are the id
    and the timestamp the store assigns. *)
Definition ingest (fresh : string) (now : Timestamp) (datasetId : string)
  (raw : RawRecord) (rows : list Item) : IngestResult * list Item :=
  let c := candidate fresh now datasetId raw in
  let hit := sameKey datasetId (r_url raw) in
  match executeTakeFirst (where_ hit rows) with
  | None => (created, (rows ++ [c])%list)
  | Some existing =>
      if (ItemsTable.hash existing =? ItemsTable.hash c)%string
      then (unchanged, map (fun i => if hit i then touch now i else i) rows)
      else (updated, map (fun i => if hit i then rewrite_ now c i else i) rows)
  end.

Definition rowsFor (datasetId url : string) (rows : list Item) : list Item :=
  filter (sameKey datasetId url) rows.

End Ingest.
End Worker.

(* ================================================================== *)
(** ** Sample data *)

Module Sample.

(** Three instants a minute apart, on whole milliseconds. *)
Definition d0 : Date := 1704067200000.
Definition d1 : Date := 1704067260000.
Definition d2 : Date := 1704067320000.

Definition t0 : Timestamp := toTimestamp d0.
Definition t1 : Timestamp := toTimestamp d1.
Definition t2 : Timestamp := toTimestamp d2.

(** A date codec on the sample dates. *)
Definition toISOString (d : Date) : string :=
  if d =? d0 then "2024-01-01T00:00:00.000Z"
  else if d =? d1 then "2024-01-01T00:01:00.000Z"
  else if d =? d2 then "2024-01-01T00:02:00.000Z"
  else "1970-01-01T00:00:00.000Z".

Definition parseDate (s : string) : option Date :=
  if (s =? "2024-01-01T00:00:00.000Z")%string then Some d0
  else if (s =? "2024-01-01T00:01:00.000Z")%string then Some d1
  else if (s =? "2024-01-01T00:02:00.000Z")%string then Some d2
  else if (s =? "1970-01-01T00:00:00.000Z")%string then Some 0
  else None.

(** A uuid reader for texts in the 8-4-4-4-12 form, in either case. *)
Definition isHex (c : ascii) : bool :=
  let n := nat_of_ascii c in
  ((48 <=? n) && (n <=? 57) || (97 <=? n) && (n <=? 102)
   || (65 <=? n) && (n <=? 70))%nat.

Definition lower (c : ascii) : ascii :=
  let n := nat_of_ascii c in
  if ((65 <=? n) && (n <=? 90))%nat then ascii_of_nat (n + 32) else c.

Fixpoint uuidShape (pos : nat) (s : string) : bool :=
  match s with
  | EmptyString => Nat.eqb pos 36
  | String c rest =>
      (if (Nat.eqb pos 8 || Nat.eqb pos 13 || Nat.eqb pos 18 || Nat.eqb pos 23)%bool
       then Ascii.eqb c "-"%char
       else isHex c)
      && uuidShape (S pos) rest
  end.

Fixpoint lowerCase (s : string) : string :=
  match s with
  | EmptyString => EmptyString
  | String c rest => String (lower c) (lowerCase rest)
  end.

Definition uuid_in (s : string) : option string :=
  if uuidShape 0 s then Some (lowerCase s) else None.

(** An array reader for literals of unquoted elements, [{a,b}]. *)
Fixpoint dropLast (s : string) : option (string * ascii) :=
  match s with
  | EmptyString => None
  | String c rest =>
      match dropLast rest with
      | None => Some (EmptyString, c)
      | Some (body, last) => Some (String c body, last)
      end
  end.

Definition array_in (s : string) : option (list (option string)) :=
  match s with
  | String "{"%char rest =>
      match dropLast rest with
      | Some (body, "}"%char) =>
          if (body =? "")%string then Some []
          else Some (map (fun e => if (e =? "NULL")%string then None else Some e)
                       (split ","%char body))
      | _ => None
      end
  | _ => None
  end.

Definition tenantA : Tenant :=
  {| TenantsTable.id := "11111111-1111-4111-8111-111111111111";
     TenantsTable.name := "tenant-a";
     TenantsTable.api_key := "key-a";
     TenantsTable.is_enabled := true;
     TenantsTable.created_at := t0;
     TenantsTable.updated_at := t0 |}.

Definition tenantB : Tenant :=
  {| TenantsTable.id := "22222222-2222-4222-8222-222222222222";
     TenantsTable.name := "tenant-b";
     TenantsTable.api_key := "key-b";
     TenantsTable.is_enabled := true;
     TenantsTable.created_at := t0;
     TenantsTable.updated_at := t0 |}.

Definition mkDataset (id : string) (owner : option string) (enabled : bool)
  : Dataset :=
  {| DatasetsTable.id := id;
     DatasetsTable.owner_tenant_id := owner;
     DatasetsTable.name := "Example News";
     DatasetsTable.entity_type := "article.v1";
     DatasetsTable.tags := ["news/world"; "en"];
     DatasetsTable.sources := ["example.com"];
     DatasetsTable.schedule_cron := None;
     DatasetsTable.extractor := "example_news_spider";
     DatasetsTable.config := JObj [];
     DatasetsTable.is_enabled := enabled;
     DatasetsTable.created_at := t0;
     DatasetsTable.updated_at := t0 |}.

Definition sharedDataset : Dataset :=
  mkDataset "d0000000-0000-4000-8000-000000000000" None true.
Definition datasetOfA : Dataset :=
  mkDataset "d0000000-0000-4000-8000-00000000000a"
    (Some (TenantsTable.id tenantA)) false.
Definition datasetOfB : Dataset :=
  mkDataset "d0000000-0000-4000-8000-00000000000b"
    (Some (TenantsTable.id tenantB)) true.

Definition mkJob (id datasetId tenantId : string) (s : JobStatus)
  (createdAt : Timestamp) : Job :=
  {| JobsTable.id := id;
     JobsTable.dataset_id := datasetId;
     JobsTable.tenant_id := tenantId;
     JobsTable.status := s;
     JobsTable.created_at := createdAt;
     JobsTable.started_at := None;
     JobsTable.finished_at := None;
     JobsTable.progress := 0;
     JobsTable.stats := JObj [];
     JobsTable.error_message := None |}.

Definition jobOfB : Job :=
  mkJob "70000000-0000-4000-8000-00000000000b" (DatasetsTable.id datasetOfB)
    (TenantsTable.id tenantB) QUEUED t0.
Definition jobShared1 : Job :=
  mkJob "70000000-0000-4000-8000-000000000001" (DatasetsTable.id sharedDataset)
    (TenantsTable.id tenantA) QUEUED t0.
Definition jobShared2 : Job :=
  mkJob "70000000-0000-4000-8000-000000000002" (DatasetsTable.id sharedDataset)
    (TenantsTable.id tenantA) QUEUED t1.
Definition jobShared3 : Job :=
  mkJob "70000000-0000-4000-8000-000000000003" (DatasetsTable.id sharedDataset)
    (TenantsTable.id tenantB) QUEUED t1.

Definition mkItem (id datasetId url : string) (observedAt : Timestamp) : Item :=
  {| ItemsTable.id := id;
     ItemsTable.dataset_id := datasetId;
     ItemsTable.tenant_id := None;
     ItemsTable.entity_type := "article.v1";
     ItemsTable.tags := ["news/world"];
     ItemsTable.source := "example.com";
     ItemsTable.url := url;
     ItemsTable.canonical_url := None;
     ItemsTable.hash := "abc123";
     ItemsTable.published_at := None;
     ItemsTable.observed_at := observedAt;
     ItemsTable.data := JObj [("title", JStr "Example Article")];
     ItemsTable.created_at := observedAt |}.

Definition itemOfB : Item :=
  mkItem "80000000-0000-4000-8000-00000000000b" (DatasetsTable.id datasetOfB)
    "https://example.com/article/b" t0.
Definition itemShared1 : Item :=
  mkItem "80000000-0000-4000-8000-000000000001" (DatasetsTable.id sharedDataset)
    "https://example.com/article/1" t0.
Definition itemShared2 : Item :=
  mkItem "80000000-0000-4000-8000-000000000002" (DatasetsTable.id sharedDataset)
    "https://example.com/article/2" t1.
Definition itemShared3 : Item :=
  mkItem "80000000-0000-4000-8000-000000000003" (DatasetsTable.id sharedDataset)
    "https://example.com/article/3" t1.

Definition db : Database :=
  {| tenants := [tenantA; tenantB];
     datasets := [sharedDataset; datasetOfA; datasetOfB];
     jobs := [jobOfB; jobShared1; jobShared2; jobShared3];
     items := [itemOfB; itemShared1; itemShared2; itemShared3] |}.

Definition noJobFilters : JobsService.Filters :=
  {| JobsService.f_datasetId := None;
     JobsService.f_status := None;
     JobsService.f_limit := None;
     JobsService.f_cursor := None |}.

Definition jobFilters (limit : option number) (cursor : option string)
  : JobsService.Filters :=
  {| JobsService.f_datasetId := None;
     JobsService.f_status := None;
     JobsService.f_limit := limit;
     JobsService.f_cursor := cursor |}.

Definition itemFilters (limit : option number) (cursor : option string)
  : ItemsService.Filters :=
  {| ItemsService.f_datasetId := None;
     ItemsService.f_entityType := None;
     ItemsService.f_tag := None;
     ItemsService.f_source := None;
     ItemsService.f_since := None;
     ItemsService.f_until := None;
     ItemsService.f_limit := limit;
     ItemsService.f_cursor := cursor |}.

Definition noDatasetFilters : DatasetsService.Filters :=
  {| DatasetsService.entityType := None;
     DatasetsService.tag := None;
     DatasetsService.source := None;
     DatasetsService.mine := None |}.

Definition disableDto : DatasetsService.UpdateDatasetDto :=
  {| DatasetsService.name := Absent;
     DatasetsService.entity_type := Absent;
     DatasetsService.tags := Absent;
     DatasetsService.sources := Absent;
     DatasetsService.schedule_cron := Absent;
     DatasetsService.extractor := Absent;
     DatasetsService.config := Absent;
     DatasetsService.is_enabled := Value false |}.

Definition emptyDto : DatasetsService.UpdateDatasetDto :=
  {| DatasetsService.name := Absent;
     DatasetsService.entity_type := Absent;
     DatasetsService.tags := Absent;
     DatasetsService.sources := Absent;
     DatasetsService.schedule_cron := Absent;
     DatasetsService.extractor := Absent;
     DatasetsService.config := Absent;
     DatasetsService.is_enabled := Absent |}.

Definition updatedDb : Database :=
  DatasetsService.withDatasets db
    (DatasetsService.updatedRows disableDto (DatasetsTable.id datasetOfA)
       (datasets db)).

Definition freshJobId : string := "70000000-0000-4000-8000-0000000000ff".

Definition failedJob : Job :=
  {| JobsTable.id := "70000000-0000-4000-8000-0000000000fa";
     JobsTable.dataset_id := DatasetsTable.id sharedDataset;
     JobsTable.tenant_id := TenantsTable.id tenantA;
     JobsTable.status := FAILED;
     JobsTable.created_at := t0;
     JobsTable.started_at := Some t1;
     JobsTable.finished_at := Some t2;
     JobsTable.progress := 40;
     JobsTable.stats := JObj [("items_scraped", JNum 3)];
     JobsTable.error_message := Some "timeout" |}.

Definition runningJob : Job :=
  {| JobsTable.id := "70000000-0000-4000-8000-0000000000aa";
     JobsTable.dataset_id := DatasetsTable.id sharedDataset;
     JobsTable.tenant_id := TenantsTable.id tenantA;
     JobsTable.status := RUNNING;
     JobsTable.created_at := t0;
     JobsTable.started_at := Some t1;
     JobsTable.finished_at := None;
     JobsTable.progress := 40;
     JobsTable.stats := JObj [];
     JobsTable.error_message := None |}.

Definition rawArticle : Worker.RawRecord :=
  {| Worker.r_entity_type := "article.v1";
     Worker.r_tags := ["news/world"];
     Worker.r_source := "example.com";
     Worker.r_url := "https://example.com/article/123";
     Worker.r_canonical_url := Some "https://example.com/article/123";
     Worker.r_published_at := Some t0;
     Worker.r_payload := JObj [("title", JStr "Example Article")] |}.

(** A stand-in fingerprint for the sample payloads. *)
Definition fingerprint (j : json) : string :=
  match j with
  | JObj (("title", JStr t) :: _) => t
  | _ => "none"
  end.

(** Two pollers racing for the two queued jobs of the shared dataset:
    both read the same candidate before either updates. *)
Definition race : list (nat * Timestamp) :=
  [(0%nat, t1); (1%nat, t1); (0%nat, t2); (1%nat, t2); (1%nat, t2); (1%nat, t2)].

Definition raceJobs : list Job := [jobShared2; jobShared1].

(** 101 items of the shared dataset, observed at the same instant. *)
Definition digit (n : nat) : string :=
  String (ascii_of_nat (48 + n mod 10)) "".

Definition itemNo (n : nat) : Item :=
  mkItem ("80000000-0000-4000-8000-000000000"
          ++ digit (n / 100) ++ digit (n / 10) ++ digit n)%string
    (DatasetsTable.id sharedDataset)
    ("https://example.com/a/" ++ digit (n / 100) ++ digit (n / 10) ++ digit n)%string
    t0.

Definition manyItems : list Item := map itemNo (seq 0 101).

Definition bigDb : Database :=
  {| tenants := [tenantA]; datasets := [sharedDataset]; jobs := [];
     items := manyItems |}.

Definition createDto : CreateDatasetDto.dto :=
  {| CreateDatasetDto.name := "My News Site";
     CreateDatasetDto.entity_type := "article.v1";
     CreateDatasetDto.tags := Some ["news/tech"; "en"];
     CreateDatasetDto.sources := None;
     CreateDatasetDto.schedule_cron := Some "";
     CreateDatasetDto.extractor := "example_news_spider";
     CreateDatasetDto.config := JObj [];
     CreateDatasetDto.is_enabled := None |}.

Definition freshDatasetId : string := "d0000000-0000-4000-8000-0000000000ff".

Definition disabledTenant : Tenant :=
  {| TenantsTable.id := "33333333-3333-4333-8333-333333333333";
     TenantsTable.name := "tenant-c";
     TenantsTable.api_key := "key-c";
     TenantsTable.is_enabled := false;
     TenantsTable.created_at := t0;
     TenantsTable.updated_at := t0 |}.

Definition dbWithDisabled : Database :=
  {| tenants := [tenantA; disabledTenant; tenantB];
     datasets := datasets db; jobs := jobs db; items := items db |}.

Definition emptyDb : Database :=
  {| tenants := []; datasets := []; jobs := []; items := [] |}.

(** Three items and three jobs of the shared dataset written within one
    millisecond, 100, 500 and 900 microseconds into it. *)
Definition burstItem1 : Item :=
  mkItem "80000000-0000-4000-8000-0000000000b1" (DatasetsTable.id sharedDataset)
    "https://example.com/burst/1" (t1 + 100).
Definition burstItem2 : Item :=
  mkItem "80000000-0000-4000-8000-0000000000b2" (DatasetsTable.id sharedDataset)
    "https://example.com/burst/2" (t1 + 500).
Definition burstItem3 : Item :=
  mkItem "80000000-0000-4000-8000-0000000000b3" (DatasetsTable.id sharedDataset)
    "https://example.com/burst/3" (t1 + 900).

Definition burstJob1 : Job :=
  mkJob "70000000-0000-4000-8000-0000000000b1" (DatasetsTable.id sharedDataset)
    (TenantsTable.id tenantA) QUEUED (t1 + 100).
Definition burstJob2 : Job :=
  mkJob "70000000-0000-4000-8000-0000000000b2" (DatasetsTable.id sharedDataset)
    (TenantsTable.id tenantA) QUEUED (t1 + 500).
Definition burstJob3 : Job :=
  mkJob "70000000-0000-4000-8000-0000000000b3" (DatasetsTable.id sharedDataset)
    (TenantsTable.id tenantA) QUEUED (t1 + 900).

Definition burstDb : Database :=
  {| tenants := [tenantA]; datasets := [sharedDataset];
     jobs := [burstJob1; burstJob2; burstJob3];
     items := [burstItem1; burstItem2; burstItem3] |}.

End Sample.


(* ================================================================== *)
(** ** Sanity checks of the model on the sample data *)

Example findAll_datasets_as_A :
  DatasetsService.findAll Sample.array_in Sample.tenantA Sample.noDatasetFilters
    Sample.db
  = Ok [Sample.sharedDataset; Sample.datasetOfA].
Proof. reflexivity. Qed.

Example findAll_jobs_first_page :
  JobsService.findAll Sample.uuid_in Sample.toISOString Sample.parseDate
    Sample.tenantA (Sample.jobFilters (Some (Num 2)) None) Sample.db
  = Ok ([Sample.jobShared3; Sample.jobShared2],
        Some "2024-01-01T00:01:00.000Z|70000000-0000-4000-8000-000000000002").
Proof. reflexivity. Qed.

Example findAll_jobs_second_page :
  JobsService.findAll Sample.uuid_in Sample.toISOString Sample.parseDate
    Sample.tenantA
    (Sample.jobFilters (Some (Num 2))
       (Some "2024-01-01T00:01:00.000Z|70000000-0000-4000-8000-000000000002"))
    Sample.db
  = Ok ([Sample.jobShared1], None).
Proof. reflexivity. Qed.

Example split_cursor :
  split pipe "2024-01-01T00:01:00.000Z|70000000-0000-4000-8000-000000000002"
  = ["2024-01-01T00:01:00.000Z"; "70000000-0000-4000-8000-000000000002"].
Proof. reflexivity. Qed.

Example findOne_dataset_other_spelling :
  DatasetsService.findOne Sample.uuid_in "D0000000-0000-4000-8000-00000000000A"
    Sample.tenantA Sample.db
  = Ok Sample.datasetOfA.
Proof. reflexivity. Qed.

Example findOne_dataset_not_a_uuid :
  DatasetsService.findOne Sample.uuid_in "42" Sample.tenantA Sample.db
  = Err DatabaseError.
Proof. reflexivity. Qed.

Example findAll_datasets_plain_tag :
  DatasetsService.findAll Sample.array_in Sample.tenantA
    {| DatasetsService.entityType := None;
       DatasetsService.tag := Some "en";
       DatasetsService.source := None;
       DatasetsService.mine := None |} Sample.db
  = Err DatabaseError.
Proof. reflexivity. Qed.

Example findAll_datasets_tag_literal :
  DatasetsService.findAll Sample.array_in Sample.tenantA
    {| DatasetsService.entityType := None;
       DatasetsService.tag := Some "{en,news/world}";
       DatasetsService.source := None;
       DatasetsService.mine := None |} Sample.db
  = Ok [Sample.sharedDataset; Sample.datasetOfA].
Proof. reflexivity. Qed.

Example selected_burst_item :
  ItemsTable.observed_at (ItemsTable.selected Sample.burstItem2) = Sample.t1
  /\ ItemsTable.observed_at Sample.burstItem2 = Sample.t1 + 500.
Proof. split; reflexivity. Qed.

(* ================================================================== *)
(** ** Timestamps as the driver reads them *)

Lemma asRead_le (t : Timestamp) : asRead t <= t.
Proof.
  unfold asRead, toTimestamp, toDate.
  pose proof (Z.mul_div_le t 1000). lia.
Qed.

Lemma asRead_mono (a b : Timestamp) : a <= b -> asRead a <= asRead b.
Proof.
  unfold asRead, toTimestamp, toDate. intros H.
  pose proof (Z.div_le_mono a b 1000). lia.
Qed.

Lemma toDate_toTimestamp (d : Date) : toDate (toTimestamp d) = d.
Proof. unfold toDate, toTimestamp. apply Z.div_mul. lia. Qed.

Lemma toDate_asRead (t : Timestamp) : toDate (asRead t) = toDate t.
Proof. unfold asRead. apply toDate_toTimestamp. Qed.

Lemma asRead_twice (t : Timestamp) : asRead (asRead t) = asRead t.
Proof. unfold asRead at 1 3. now rewrite toDate_asRead. Qed.

Lemma asRead_whole (t : Timestamp) : t mod 1000 = 0 -> asRead t = t.
Proof.
  unfold asRead, toTimestamp, toDate. intros H.
  pose proof (Z.div_mod t 1000). lia.
Qed.

(** A bound given as a [Date] is kept by the read. *)
Lemma asRead_lower (d : Date) (t : Timestamp) :
  toTimestamp d <= t -> toTimestamp d <= asRead t.
Proof.
  intros H. apply asRead_mono in H. unfold asRead at 1 in H.
  now rewrite toDate_toTimestamp in H.
Qed.

Lemma asRead_upper (d : Date) (t : Timestamp) :
  t <= toTimestamp d -> asRead t <= toTimestamp d.
Proof. pose proof (asRead_le t). lia. Qed.

Lemma tenant_selected_twice (t : Tenant) :
  TenantsTable.selected (TenantsTable.selected t) = TenantsTable.selected t.
Proof. unfold TenantsTable.selected. simpl. now rewrite !asRead_twice. Qed.

Lemma dataset_selected_twice (d : Dataset) :
  DatasetsTable.selected (DatasetsTable.selected d) = DatasetsTable.selected d.
Proof. unfold DatasetsTable.selected. simpl. now rewrite !asRead_twice. Qed.

(* ================================================================== *)
(** ** Lemmas on the query building blocks *)

Section SqlFacts.
Context {R : Type}.
Implicit Types (l q : list R) (x : R).

Lemma in_insertRow before x y l :
  In y (insertRow before x l) <-> y = x \/ In y l.
Proof.
  induction l as [|z tl IH]; simpl.
  - intuition (auto; congruence).
  - destruct (before x z); simpl; [intuition (auto; congruence)|].
    rewrite IH. intuition.
Qed.

Lemma in_orderBy before y l : In y (orderBy before l) <-> In y l.
Proof.
  induction l as [|z tl IH]; simpl; [tauto|].
  rewrite in_insertRow, IH. intuition (auto; congruence).
Qed.

Lemma length_insertRow before x l :
  List.length (insertRow before x l) = S (List.length l).
Proof.
  induction l as [|z tl IH]; simpl; [reflexivity|].
  destruct (before x z); simpl; congruence.
Qed.

Lemma length_orderBy before l : List.length (orderBy before l) = List.length l.
Proof.
  induction l as [|z tl IH]; simpl; [reflexivity|].
  rewrite length_insertRow. congruence.
Qed.

Lemma in_firstn n l x : In x (firstn n l) -> In x l.
Proof.
  revert l; induction n as [|n IH]; intros [|y tl]; simpl; try tauto.
  intros [H|H]; auto.
Qed.

Lemma in_limit n q rows x : limit_ n q = Ok rows -> In x rows -> In x q.
Proof.
  unfold limit_. destruct (n <? 0); [discriminate|].
  intros H; injection H as <-. apply in_firstn.
Qed.

Lemma length_limit n q rows :
  limit_ n q = Ok rows -> 0 <= n /\ Z.of_nat (List.length rows) <= n.
Proof.
  unfold limit_. destruct (Z.ltb_spec n 0); [discriminate|].
  intros H'; injection H' as <-. split; [assumption|].
  pose proof (firstn_le_length (Z.to_nat n) q). lia.
Qed.

Lemma in_pop l x : In x (pop l) -> In x l.
Proof.
  unfold pop. induction l as [|y tl IH]; simpl; [tauto|].
  destruct tl as [|z tl']; simpl in *; [tauto|].
  intros [H|H]; auto.
Qed.

Lemma pop_firstn l n :
  List.length l = S n -> pop l = firstn n l.
Proof.
  unfold pop. intros H.
  rewrite <- (firstn_all l) at 1. rewrite H.
  rewrite removelast_firstn by lia. reflexivity.
Qed.

Lemma executeTakeFirst_in q x : executeTakeFirst q = Some x -> In x q.
Proof. destruct q; simpl; [discriminate|]. intros H; injection H as <-. now left. Qed.

Lemma executeTakeFirst_none q : executeTakeFirst q = None <-> q = [].
Proof. destruct q; simpl; split; congruence. Qed.

End SqlFacts.

Lemma in_innerJoin {R : Type} (rows : list R) (fk : R -> string)
  (ds : list Dataset) (r : R) (d : Dataset) :
  In (r, d) (innerJoin rows fk ds)
  <-> In r rows /\ In d ds /\ DatasetsTable.id d = fk r.
Proof.
  unfold innerJoin. rewrite in_flat_map. split.
  - intros (r' & Hr & Hin). apply in_map_iff in Hin as (d' & Heq & Hd).
    injection Heq as -> ->. apply filter_In in Hd as [Hd Hid].
    apply String.eqb_eq in Hid. auto.
  - intros (Hr & Hd & Hid). exists r. split; [assumption|].
    apply in_map_iff. exists d. split; [reflexivity|].
    apply filter_In. split; [assumption|]. now apply String.eqb_eq.
Qed.

Lemma isVisible_spec (d : Dataset) (t : Tenant) :
  isVisible d t = true
  <-> DatasetsTable.owner_tenant_id d = None
      \/ DatasetsTable.owner_tenant_id d = Some (TenantsTable.id t).
Proof.
  unfold isVisible. destruct (DatasetsTable.owner_tenant_id d) as [o|].
  - rewrite String.eqb_eq. split.
    + intros ->. now right.
    + intros [H|H]; congruence.
  - split; auto.
Qed.

(** Primary key of [datasets]: two rows with the same id are one row. *)
Lemma dataset_pk (ds : list Dataset) (d d' : Dataset) :
  NoDup (map DatasetsTable.id ds) ->
  In d ds -> In d' ds -> DatasetsTable.id d = DatasetsTable.id d' -> d = d'.
Proof.
  induction ds as [|x tl IH]; simpl; [tauto|].
  intros Hnd [Hd|Hd] [Hd'|Hd'] Hid; inversion Hnd as [|? ? Hnot Htl]; subst.
  - reflexivity.
  - exfalso. apply Hnot. rewrite Hid. now apply in_map.
  - exfalso. apply Hnot. rewrite <- Hid. now apply in_map.
  - now apply IH.
Qed.

(* ================================================================== *)
(** ** DatasetsService *)

Lemma uuidParam_ok uuid_in (s u : string) :
  uuidParam uuid_in s = Ok u <-> uuid_in s = Some u.
Proof. unfold uuidParam. destruct (uuid_in s); split; congruence. Qed.

Lemma uuidParam_err uuid_in (s : string) (e : HttpError) :
  uuidParam uuid_in s = Err e <-> uuid_in s = None /\ e = DatabaseError.
Proof.
  unfold uuidParam. destruct (uuid_in s); split.
  - discriminate.
  - intros [H _]. discriminate.
  - intros H. injection H as <-. auto.
  - intros [_ ->]. reflexivity.
Qed.

(** The rows a dataset listing selects, before they are read. *)
Lemma datasets_findAll_rows array_in (T : Tenant) (f : DatasetsService.Filters)
  (db : Database) (l : list Dataset) :
  DatasetsService.findAll array_in T f db = Ok l ->
  exists rows,
    l = map DatasetsTable.selected rows
    /\ forall d, In d rows -> In d (datasets db) /\ isVisible d T = true.
Proof.
  unfold DatasetsService.findAll, arrayParam. intros H.
  destruct (truthy (DatasetsService.tag f)) as [t|];
    [destruct (array_in t) as [ta|]; [|discriminate]|];
    (destruct (truthy (DatasetsService.source f)) as [s|];
     [destruct (array_in s) as [sa|]; [|discriminate]|]);
    cbn [bind] in H; injection H as <-;
    (eexists; split; [reflexivity|]);
    intros d Hin; rewrite in_orderBy in Hin;
    destruct (DatasetsService.mine f) as [[|]|];
    destruct (truthy (DatasetsService.entityType f));
    unfold where_ in Hin; repeat (rewrite filter_In in Hin); tauto.
Qed.

Lemma datasets_findAll_in array_in (T : Tenant) (f : DatasetsService.Filters)
  (db : Database) (l : list Dataset) (d : Dataset) :
  DatasetsService.findAll array_in T f db = Ok l -> In d l ->
  exists d0, d = DatasetsTable.selected d0
             /\ In d0 (datasets db) /\ isVisible d0 T = true.
Proof.
  intros H Hin. apply datasets_findAll_rows in H as (rows & -> & Hrows).
  apply in_map_iff in Hin as (d0 & <- & Hin).
  exists d0. split; [reflexivity|]. now apply Hrows.
Qed.

(** [findOne], with the id text read. *)
Lemma datasets_findOne_unfold uuid_in (id : string) (T : Tenant) (db : Database) :
  DatasetsService.findOne uuid_in id T db
  = match uuid_in id with
    | None => Err DatabaseError
    | Some u =>
        match executeTakeFirst
                (where_ (fun d => isVisible d T)
                   (where_ (fun d => (DatasetsTable.id d =? u)%string)
                      (datasets db))) with
        | None => Err NotFoundException
        | Some d => Ok (DatasetsTable.selected d)
        end
    end.
Proof.
  unfold DatasetsService.findOne, uuidParam. destruct (uuid_in id); reflexivity.
Qed.

Lemma datasets_findOne_ok uuid_in (id : string) (T : Tenant) (db : Database)
  (d : Dataset) :
  DatasetsService.findOne uuid_in id T db = Ok d ->
  exists d0, d = DatasetsTable.selected d0
             /\ In d0 (datasets db)
             /\ uuid_in id = Some (DatasetsTable.id d0)
             /\ isVisible d0 T = true.
Proof.
  rewrite datasets_findOne_unfold. unfold where_.
  destruct (uuid_in id) as [u|]; [|discriminate].
  destruct (executeTakeFirst _) as [x|] eqn:E; [|discriminate].
  intros H; injection H as <-. apply executeTakeFirst_in in E.
  rewrite !filter_In in E. rewrite String.eqb_eq in E.
  exists x. destruct E as [[Hin <-] Hv]. auto.
Qed.

Lemma datasets_findOne_err uuid_in (id : string) (T : Tenant) (db : Database)
  (e : HttpError) :
  DatasetsService.findOne uuid_in id T db = Err e ->
  (e = NotFoundException /\ uuid_in id <> None)
  \/ (e = DatabaseError /\ uuid_in id = None).
Proof.
  rewrite datasets_findOne_unfold.
  destruct (uuid_in id) as [u|].
  - destruct (executeTakeFirst _); [discriminate|].
    intros H; injection H as <-. left. split; [reflexivity | discriminate].
  - intros H; injection H as <-. now right.
Qed.

Lemma datasets_findOne_hidden uuid_in (id u : string) (T : Tenant) (db : Database) :
  uuid_in id = Some u ->
  (forall d, In d (datasets db) -> DatasetsTable.id d = u -> isVisible d T = false) ->
  DatasetsService.findOne uuid_in id T db = Err NotFoundException.
Proof.
  intros Hu Hid. rewrite datasets_findOne_unfold, Hu. unfold where_.
  destruct (executeTakeFirst _) as [x|] eqn:E; [|reflexivity].
  apply executeTakeFirst_in in E. rewrite !filter_In in E.
  destruct E as [[Hin Heq] Hv]. apply String.eqb_eq in Heq.
  rewrite (Hid x Hin Heq) in Hv. discriminate.
Qed.

Lemma datasets_findOne_visible uuid_in (id : string) (T : Tenant) (db : Database)
  (d : Dataset) :
  In d (datasets db) -> uuid_in id = Some (DatasetsTable.id d) ->
  isVisible d T = true ->
  exists d', DatasetsService.findOne uuid_in id T db = Ok d'.
Proof.
  intros Hin Hid Hv. rewrite datasets_findOne_unfold, Hid. unfold where_.
  destruct (executeTakeFirst _) as [x|] eqn:E; [eauto|].
  apply executeTakeFirst_none in E.
  assert (In d (filter (fun d0 => isVisible d0 T)
                  (filter (fun d0 => (DatasetsTable.id d0 =? DatasetsTable.id d)%string)
                     (datasets db)))) as Hd.
  { rewrite !filter_In. rewrite String.eqb_eq. tauto. }
  rewrite E in Hd. destruct Hd.
Qed.

(* ================================================================== *)
(** ** Rows selected by the list endpoints *)

(** Peels the [where_] and [orderBy] layers off a membership hypothesis. *)
Ltac peel H :=
  repeat first
    [ rewrite in_orderBy in H
    | unfold where_ in H; rewrite filter_In in H ].

Lemma cursorParams_ok uuid_in parseDate (cursor : string) (t : Timestamp)
  (id : option string) :
  cursorParams uuid_in parseDate cursor = Ok (t, id) ->
  exists d,
    parseDate (nth 0 (split pipe cursor) "") = Some d
    /\ t = toTimestamp d
    /\ match nth_error (split pipe cursor) 1 with
       | Some i => exists u, uuid_in i = Some u /\ id = Some u
       | None => id = None
       end.
Proof.
  unfold cursorParams, newDate, uuidParam.
  destruct (parseDate _) as [d|]; [|discriminate]. cbn [bind].
  destruct (nth_error _ 1) as [i|].
  - destruct (uuid_in i) as [u|]; [|discriminate]. cbn [bind].
    intros H; injection H as <- <-. exists d. eauto.
  - cbn [bind]. intros H; injection H as <- <-. exists d. auto.
Qed.

(** The statement of the job list, one layer at a time. *)
Lemma jobs_query_unfold uuid_in parseDate (T : Tenant) (f : JobsService.Filters)
  (db : Database) (q : list (Job * Dataset)) :
  JobsService.findAllQuery uuid_in parseDate T f db = Ok q ->
  exists pd ps pc,
    q = orderBy (descKey (fun r => JobsService.jobKey (fst r)))
          (where_ pc (where_ ps (where_ pd
             (where_ (fun r => isVisible (snd r) T)
                (innerJoin (jobs db) JobsTable.dataset_id (datasets db))))))
    /\ match truthy (JobsService.f_datasetId f) with
       | Some d => exists u, uuid_in d = Some u
                             /\ pd = fun r => (JobsTable.dataset_id (fst r) =? u)%string
       | None => pd = fun _ => true
       end
    /\ match truthy (JobsService.f_status f) with
       | Some s => ps = fun r => (statusText (JobsTable.status (fst r)) =? s)%string
       | None => ps = fun _ => true
       end
    /\ match truthy (JobsService.f_cursor f) with
       | Some c => exists t id, cursorParams uuid_in parseDate c = Ok (t, id)
                                /\ pc = fun r => afterCursor t id (JobsService.jobKey (fst r))
       | None => pc = fun _ => true
       end.
Proof.
  assert (forall (A : Type) (l : list A), where_ (fun _ => true) l = l) as Htrue.
  { intros A l. unfold where_. induction l; simpl; congruence. }
  unfold JobsService.findAllQuery, uuidParam. intros H.
  destruct (truthy (JobsService.f_datasetId f)) as [d|];
    [destruct (uuid_in d) as [u|]; [|discriminate]|];
    cbn [bind] in H;
    (destruct (truthy (JobsService.f_cursor f)) as [c|];
     [destruct (cursorParams uuid_in parseDate c) as [[t id]|]; [|discriminate]|]);
    cbn [bind] in H; injection H as <-;
    destruct (truthy (JobsService.f_status f)) as [s|];
    do 3 eexists; (split; [|split; [|split]]);
    try (eexists; split; [reflexivity|]); try (do 2 eexists; split; [reflexivity|]);
    try reflexivity; rewrite ?Htrue; reflexivity.
Qed.

Lemma jobs_query_in uuid_in parseDate (T : Tenant) (f : JobsService.Filters)
  (db : Database) (q : list (Job * Dataset)) (r : Job * Dataset) :
  JobsService.findAllQuery uuid_in parseDate T f db = Ok q -> In r q ->
  In r (innerJoin (jobs db) JobsTable.dataset_id (datasets db))
  /\ isVisible (snd r) T = true.
Proof.
  intros Hq Hin. apply jobs_query_unfold in Hq as (pd & ps & pc & -> & _).
  peel Hin. tauto.
Qed.

Lemma where_true {A : Type} (l : list A) : where_ (fun _ => true) l = l.
Proof. unfold where_. induction l; simpl; congruence. Qed.

Lemma filter_none {A : Type} (p : A -> bool) (l : list A) :
  (forall x, In x l -> p x = false) -> filter p l = [].
Proof.
  induction l as [|y tl IH]; simpl; intros H; [reflexivity|].
  rewrite (H y) by now left. apply IH. intros x Hx. apply H. now right.
Qed.

Lemma unused_id {A : Type} (rid : A -> string) (x : string) (l : list A) :
  ~ In x (map rid l) -> filter (fun r => (rid r =? x)%string) l = [].
Proof.
  intros Hnot. apply filter_none. intros r Hr. apply String.eqb_neq.
  intros Heq. apply Hnot. rewrite <- Heq. now apply in_map.
Qed.

Lemma row_pk {A : Type} (rid : A -> string) (l : list A) (a b : A) :
  NoDup (map rid l) -> In a l -> In b l -> rid a = rid b -> a = b.
Proof.
  induction l as [|x tl IH]; simpl; [tauto|].
  intros Hnd [Ha|Ha] [Hb|Hb] Hid; inversion Hnd as [|? ? Hnot Htl]; subst.
  - reflexivity.
  - exfalso. apply Hnot. rewrite Hid. now apply in_map.
  - exfalso. apply Hnot. rewrite <- Hid. now apply in_map.
  - now apply IH.
Qed.

Lemma executeTakeFirst_some {A : Type} (l : list A) (x : A) :
  In x l -> exists y, executeTakeFirst l = Some y.
Proof. destruct l as [|y tl]; [intros []|]. intros _. now exists y. Qed.

(** The filters of the item list, one layer at a time. *)
Lemma items_applyFilters_unfold uuid_in array_in parseDate
  (f : ItemsService.Filters) (q q' : list (Item * Dataset)) :
  ItemsService.applyFilters uuid_in array_in parseDate f q = Ok q' ->
  exists pd pe pt ps plo phi,
    q' = where_ phi (where_ plo (where_ ps (where_ pt (where_ pe (where_ pd q)))))
    /\ match truthy (ItemsService.f_datasetId f) with
       | Some d => exists u, uuid_in d = Some u
                             /\ pd = fun r => (ItemsTable.dataset_id (fst r) =? u)%string
       | None => pd = fun _ => true
       end
    /\ match truthy (ItemsService.f_entityType f) with
       | Some e => pe = fun r => (ItemsTable.entity_type (fst r) =? e)%string
       | None => pe = fun _ => true
       end
    /\ match truthy (ItemsService.f_tag f) with
       | Some t => exists elems, array_in t = Some elems
                                 /\ pt = fun r => contains (ItemsTable.tags (fst r)) elems
       | None => pt = fun _ => true
       end
    /\ match truthy (ItemsService.f_source f) with
       | Some s => ps = fun r => (ItemsTable.source (fst r) =? s)%string
       | None => ps = fun _ => true
       end
    /\ match truthy (ItemsService.f_since f) with
       | Some s => exists d, parseDate s = Some d
                             /\ plo = fun r => toTimestamp d <=? ItemsTable.observed_at (fst r)
       | None => plo = fun _ => true
       end
    /\ match truthy (ItemsService.f_until f) with
       | Some s => exists d, parseDate s = Some d
                             /\ phi = fun r => ItemsTable.observed_at (fst r) <=? toTimestamp d
       | None => phi = fun _ => true
       end.
Proof.
  unfold ItemsService.applyFilters, uuidParam, arrayParam, newDate. intros H.
  destruct (truthy (ItemsService.f_datasetId f)) as [d|];
    [destruct (uuid_in d) as [u|]; [|discriminate]|];
    cbn [bind] in H;
    (destruct (truthy (ItemsService.f_tag f)) as [t|];
     [destruct (array_in t) as [ta|]; [|discriminate]|]);
    cbn [bind] in H;
    (destruct (truthy (ItemsService.f_since f)) as [s|];
     [destruct (parseDate s) as [ds|]; [|discriminate]|]);
    cbn [bind] in H;
    (destruct (truthy (ItemsService.f_until f)) as [un|];
     [destruct (parseDate un) as [du|]; [|discriminate]|]);
    cbn [bind] in H; injection H as <-;
    destruct (truthy (ItemsService.f_source f)) as [so|];
    destruct (truthy (ItemsService.f_entityType f)) as [e|];
    do 6 eexists; (split; [|split; [|split; [|split; [|split; [|split]]]]]);
    try (eexists; split; [reflexivity|]);
    try reflexivity; rewrite ?where_true; reflexivity.
Qed.

Lemma items_applyFilters_in uuid_in array_in parseDate (f : ItemsService.Filters)
  (q q' : list (Item * Dataset)) (r : Item * Dataset) :
  ItemsService.applyFilters uuid_in array_in parseDate f q = Ok q' ->
  In r q' -> In r q.
Proof.
  intros Hq Hin.
  apply items_applyFilters_unfold in Hq as (pd & pe & pt & ps & plo & phi & -> & _).
  peel Hin. tauto.
Qed.

Lemma items_query_unfold uuid_in array_in parseDate (T : Tenant)
  (f : ItemsService.Filters) (db : Database) (q : list (Item * Dataset)) :
  ItemsService.findAllQuery uuid_in array_in parseDate T f db = Ok q ->
  exists q0 pc,
    ItemsService.applyFilters uuid_in array_in parseDate f
      (where_ (fun r => isVisible (snd r) T)
         (innerJoin (items db) ItemsTable.dataset_id (datasets db))) = Ok q0
    /\ q = orderBy (descKey (fun r => ItemsService.itemKey (fst r))) (where_ pc q0)
    /\ match truthy (ItemsService.f_cursor f) with
       | Some c => exists t id, cursorParams uuid_in parseDate c = Ok (t, id)
                                /\ pc = fun r => afterCursor t id (ItemsService.itemKey (fst r))
       | None => pc = fun _ => true
       end.
Proof.
  unfold ItemsService.findAllQuery. intros H.
  destruct (ItemsService.applyFilters uuid_in array_in parseDate f _) as [q0|];
    [|discriminate].
  cbn [bind] in H. exists q0.
  destruct (truthy (ItemsService.f_cursor f)) as [c|];
    [destruct (cursorParams uuid_in parseDate c) as [[t id]|]; [|discriminate]|];
    cbn [bind] in H; injection H as <-; eexists;
    (split; [reflexivity|]); split;
    try (do 2 eexists; split; [reflexivity|]);
    try reflexivity; rewrite ?where_true; reflexivity.
Qed.

Lemma items_query_in uuid_in array_in parseDate (T : Tenant)
  (f : ItemsService.Filters) (db : Database) (q : list (Item * Dataset))
  (r : Item * Dataset) :
  ItemsService.findAllQuery uuid_in array_in parseDate T f db = Ok q -> In r q ->
  In r (innerJoin (items db) ItemsTable.dataset_id (datasets db))
  /\ isVisible (snd r) T = true.
Proof.
  intros Hq Hin. apply items_query_unfold in Hq as (q0 & pc & Hf & -> & _).
  peel Hin. destruct Hin as [Hin _].
  apply (items_applyFilters_in _ _ _ _ _ _ _ Hf) in Hin. peel Hin. tauto.
Qed.

(** What the store hands back is the head of the statement's rows, read. *)
Lemma jobs_fetched_unfold uuid_in parseDate (T : Tenant) (f : JobsService.Filters)
  (db : Database) (rows : list Job) :
  JobsService.fetched uuid_in parseDate T f db = Ok rows ->
  exists q,
    JobsService.findAllQuery uuid_in parseDate T f db = Ok q
    /\ 0 <= JobsService.effectiveLimit f + 1
    /\ rows = map (fun r => JobsTable.selected (fst r))
                (firstn (Z.to_nat (JobsService.effectiveLimit f + 1)) q).
Proof.
  unfold JobsService.fetched, limit_. intros H.
  destruct (JobsService.findAllQuery uuid_in parseDate T f db) as [q|]; [|discriminate].
  cbn [bind] in H.
  destruct (Z.ltb_spec (JobsService.effectiveLimit f + 1) 0); [discriminate|].
  cbn [bind] in H. injection H as <-. exists q. auto.
Qed.

Lemma items_fetched_unfold uuid_in array_in parseDate (T : Tenant)
  (f : ItemsService.Filters) (db : Database) (rows : list Item) :
  ItemsService.fetched uuid_in array_in parseDate T f db = Ok rows ->
  exists q,
    ItemsService.findAllQuery uuid_in array_in parseDate T f db = Ok q
    /\ 0 <= ItemsService.effectiveLimit f + 1
    /\ rows = map (fun r => ItemsTable.selected (fst r))
                (firstn (Z.to_nat (ItemsService.effectiveLimit f + 1)) q).
Proof.
  unfold ItemsService.fetched, limit_. intros H.
  destruct (ItemsService.findAllQuery uuid_in array_in parseDate T f db) as [q|];
    [|discriminate].
  cbn [bind] in H.
  destruct (Z.ltb_spec (ItemsService.effectiveLimit f + 1) 0); [discriminate|].
  cbn [bind] in H. injection H as <-. exists q. auto.
Qed.

Lemma jobs_fetched_in uuid_in parseDate (T : Tenant) (f : JobsService.Filters)
  (db : Database) (rows : list Job) (j : Job) :
  JobsService.fetched uuid_in parseDate T f db = Ok rows -> In j rows ->
  exists j0 d,
    j = JobsTable.selected j0 /\ In j0 (jobs db)
    /\ In d (datasets db)
    /\ DatasetsTable.id d = JobsTable.dataset_id j0
    /\ isVisible d T = true.
Proof.
  intros Hf Hin. apply jobs_fetched_unfold in Hf as (q & Hq & _ & ->).
  apply in_map_iff in Hin as ([j0 d] & <- & Hin). apply in_firstn in Hin.
  destruct (jobs_query_in _ _ _ _ _ _ _ Hq Hin) as [Hjoin Hv].
  apply in_innerJoin in Hjoin as (? & ? & ?). exists j0, d. auto.
Qed.

Lemma items_fetched_in uuid_in array_in parseDate (T : Tenant)
  (f : ItemsService.Filters) (db : Database) (rows : list Item) (i : Item) :
  ItemsService.fetched uuid_in array_in parseDate T f db = Ok rows -> In i rows ->
  exists i0 d,
    i = ItemsTable.selected i0 /\ In i0 (items db)
    /\ In d (datasets db)
    /\ DatasetsTable.id d = ItemsTable.dataset_id i0
    /\ isVisible d T = true.
Proof.
  intros Hf Hin. apply items_fetched_unfold in Hf as (q & Hq & _ & ->).
  apply in_map_iff in Hin as ([i0 d] & <- & Hin). apply in_firstn in Hin.
  destruct (items_query_in _ _ _ _ _ _ _ _ Hq Hin) as [Hjoin Hv].
  apply in_innerJoin in Hjoin as (? & ? & ?). exists i0, d. auto.
Qed.

Lemma jobs_findAll_page uuid_in toISOString parseDate (T : Tenant)
  (f : JobsService.Filters) (db : Database) (page : list Job) (c : option string) :
  JobsService.findAll uuid_in toISOString parseDate T f db = Ok (page, c) ->
  exists rows, JobsService.fetched uuid_in parseDate T f db = Ok rows
               /\ forall j, In j page -> In j rows.
Proof.
  unfold JobsService.findAll.
  destruct (JobsService.fetched uuid_in parseDate T f db) as [rows|]; [|discriminate].
  cbn [bind]. destruct (_ <? _).
  - destruct (at_ rows _); [|discriminate].
    intros H; injection H as <- <-. exists rows. split; [reflexivity|].
    intros x. apply in_pop.
  - intros H; injection H as <- <-. exists rows. auto.
Qed.

Lemma items_findAll_page uuid_in array_in toISOString parseDate (T : Tenant)
  (f : ItemsService.Filters) (db : Database) (page : list Item) (c : option string) :
  ItemsService.findAll uuid_in array_in toISOString parseDate T f db = Ok (page, c) ->
  exists rows, ItemsService.fetched uuid_in array_in parseDate T f db = Ok rows
               /\ forall i, In i page -> In i rows.
Proof.
  unfold ItemsService.findAll.
  destruct (ItemsService.fetched uuid_in array_in parseDate T f db) as [rows|];
    [|discriminate].
  cbn [bind]. destruct (_ <? _).
  - destruct (at_ rows _); [|discriminate].
    intros H; injection H as <- <-. exists rows. split; [reflexivity|].
    intros x. apply in_pop.
  - intros H; injection H as <- <-. exists rows. auto.
Qed.

(** [findOne] of jobs and items, with the id text read. *)
Lemma jobs_findOne_unfold uuid_in (id : string) (T : Tenant) (db : Database) :
  JobsService.findOne uuid_in id T db
  = match uuid_in id with
    | None => Err DatabaseError
    | Some u =>
        match executeTakeFirst
                (where_ (fun j => (JobsTable.id j =? u)%string) (jobs db)) with
        | None => Err NotFoundException
        | Some j =>
            match DatasetsService.findOne uuid_in (JobsTable.dataset_id j) T db with
            | Ok _ => Ok (JobsTable.selected j)
            | Err _ => Err ForbiddenException
            end
        end
    end.
Proof.
  unfold JobsService.findOne, uuidParam. destruct (uuid_in id); reflexivity.
Qed.

Lemma items_findOne_unfold uuid_in (id : string) (T : Tenant) (db : Database) :
  ItemsService.findOne uuid_in id T db
  = match uuid_in id with
    | None => Err DatabaseError
    | Some u =>
        match executeTakeFirst
                (where_ (fun r => isVisible (snd r) T)
                   (where_ (fun r => (ItemsTable.id (fst r) =? u)%string)
                      (innerJoin (items db) ItemsTable.dataset_id (datasets db)))) with
        | None => Err NotFoundException
        | Some r => Ok (ItemsTable.selected (fst r))
        end
    end.
Proof.
  unfold ItemsService.findOne, uuidParam. destruct (uuid_in id); reflexivity.
Qed.

Lemma jobs_findOne_ok uuid_in (id : string) (T : Tenant) (db : Database) (j : Job) :
  JobsService.findOne uuid_in id T db = Ok j ->
  exists j0 d,
    j = JobsTable.selected j0 /\ In j0 (jobs db)
    /\ uuid_in id = Some (JobsTable.id j0)
    /\ In d (datasets db)
    /\ uuid_in (JobsTable.dataset_id j0) = Some (DatasetsTable.id d)
    /\ isVisible d T = true.
Proof.
  rewrite jobs_findOne_unfold. unfold where_.
  destruct (uuid_in id) as [u|]; [|discriminate].
  destruct (executeTakeFirst _) as [x|] eqn:E; [|discriminate].
  destruct (DatasetsService.findOne uuid_in _ T db) as [d|] eqn:Hd; [|discriminate].
  intros H; injection H as <-.
  apply executeTakeFirst_in, filter_In in E as [Hin Hid].
  apply String.eqb_eq in Hid. subst u.
  apply datasets_findOne_ok in Hd as (d0 & _ & Hd0 & Hu & Hv).
  exists x, d0. repeat split; assumption.
Qed.

Lemma items_findOne_ok uuid_in (id : string) (T : Tenant) (db : Database) (i : Item) :
  ItemsService.findOne uuid_in id T db = Ok i ->
  exists i0 d,
    i = ItemsTable.selected i0 /\ In i0 (items db)
    /\ uuid_in id = Some (ItemsTable.id i0)
    /\ In d (datasets db)
    /\ DatasetsTable.id d = ItemsTable.dataset_id i0
    /\ isVisible d T = true.
Proof.
  rewrite items_findOne_unfold. unfold where_.
  destruct (uuid_in id) as [u|]; [|discriminate].
  destruct (executeTakeFirst _) as [[x d]|] eqn:E; [|discriminate].
  intros H; injection H as <-.
  apply executeTakeFirst_in in E. rewrite !filter_In in E.
  destruct E as [[Hjoin Hid] Hv]. simpl in *.
  apply String.eqb_eq in Hid. subst u.
  apply in_innerJoin in Hjoin as (? & ? & ?).
  exists x, d. repeat split; assumption.
Qed.

(* ================================================================== *)
(** ** Tenant isolation of the read paths *)

(** C1 - every read path over datasets, jobs and items (findAll and
    findOne of DatasetsService, JobsService and ItemsService), called as
    tenant [T], returns a dataset [D], or a job or item belonging to [D],
    only if [D.owner_tenant_id] is null or equals [T.id]; in particular a
    dataset owned by another tenant [T2], and any job or item of it, is
    never returned.  [datasets.id] is the primary key of its table, a
    uuid column. *)
Theorem read_paths_respect_visibility :
  forall (uuid_in : string -> option string)
         (array_in : string -> option (list (option string)))
         (toISOString : Date -> string) (parseDate : string -> option Date)
         (T : Tenant) (db : Database) (D : Dataset),
    NoDup (map DatasetsTable.id (datasets db)) ->
    canonicalIds uuid_in DatasetsTable.id (datasets db) ->
    In D (datasets db) ->
    let returned :=
      (exists f l d,
         DatasetsService.findAll array_in T f db = Ok l
         /\ In d l /\ DatasetsTable.id d = DatasetsTable.id D)
      \/ (exists id d,
            DatasetsService.findOne uuid_in id T db = Ok d
            /\ DatasetsTable.id d = DatasetsTable.id D)
      \/ (exists f page c j,
            JobsService.findAll uuid_in toISOString parseDate T f db = Ok (page, c)
            /\ In j page /\ JobsTable.dataset_id j = DatasetsTable.id D)
      \/ (exists id j,
            JobsService.findOne uuid_in id T db = Ok j
            /\ JobsTable.dataset_id j = DatasetsTable.id D)
      \/ (exists f page c i,
            ItemsService.findAll uuid_in array_in toISOString parseDate T f db
            = Ok (page, c)
            /\ In i page /\ ItemsTable.dataset_id i = DatasetsTable.id D)
      \/ (exists id i,
            ItemsService.findOne uuid_in id T db = Ok i
            /\ ItemsTable.dataset_id i = DatasetsTable.id D) in
    (returned ->
       DatasetsTable.owner_tenant_id D = None
       \/ DatasetsTable.owner_tenant_id D = Some (TenantsTable.id T))
    /\ (forall T2 : Tenant,
          DatasetsTable.owner_tenant_id D = Some (TenantsTable.id T2) ->
          TenantsTable.id T <> TenantsTable.id T2 ->
          ~ returned).
Proof.
  intros uuid_in array_in toISOString parseDate T db D Hpk Hcanon HD returned.
  assert (returned -> isVisible D T = true) as Hvis.
  { assert (forall d, In d (datasets db) ->
              DatasetsTable.id d = DatasetsTable.id D ->
              isVisible d T = true -> isVisible D T = true) as Hsame.
    { intros d Hd Hid Hv.
      rewrite <- (dataset_pk _ _ _ Hpk Hd HD Hid). exact Hv. }
    intros [(f & l & d & H & Hd & Hid) | [(id & d & H & Hid)
           | [(f & page & c & j & H & Hj & Hid)
           | [(id & j & H & Hid) | [(f & page & c & i & H & Hi & Hid)
           | (id & i & H & Hid)]]]]].
    - destruct (datasets_findAll_in _ _ _ _ _ _ H Hd) as (d0 & -> & Hd0 & Hv).
      now apply (Hsame d0).
    - apply datasets_findOne_ok in H as (d0 & -> & Hd0 & _ & Hv).
      now apply (Hsame d0).
    - apply jobs_findAll_page in H as (rows & Hf & Hsub).
      destruct (jobs_fetched_in _ _ _ _ _ _ _ Hf (Hsub j Hj))
        as (j0 & d & -> & _ & Hd & Hdid & Hv).
      apply (Hsame d); [assumption | | assumption]. now rewrite Hdid.
    - apply jobs_findOne_ok in H as (j0 & d & -> & _ & _ & Hd & Hu & Hv).
      apply (Hsame d); [assumption | | assumption].
      change (JobsTable.dataset_id (JobsTable.selected j0))
        with (JobsTable.dataset_id j0) in Hid.
      rewrite Hid, (Hcanon D HD) in Hu. congruence.
    - apply items_findAll_page in H as (rows & Hf & Hsub).
      destruct (items_fetched_in _ _ _ _ _ _ _ _ Hf (Hsub i Hi))
        as (i0 & d & -> & _ & Hd & Hdid & Hv).
      apply (Hsame d); [assumption | | assumption]. now rewrite Hdid.
    - apply items_findOne_ok in H as (i0 & d & -> & _ & _ & Hd & Hdid & Hv).
      apply (Hsame d); [assumption | | assumption]. now rewrite Hdid. }
  split.
  - intros H. now apply isVisible_spec, Hvis.
  - intros T2 Hown Hne H. apply Hvis, isVisible_spec in H.
    destruct H as [H|H]; congruence.
Qed.

Lemma read_paths_respect_visibility_witness :
  DatasetsTable.owner_tenant_id Sample.sharedDataset = None
  \/ DatasetsTable.owner_tenant_id Sample.sharedDataset
     = Some (TenantsTable.id Sample.tenantA).
Proof.
  assert (NoDup (map DatasetsTable.id (datasets Sample.db))) as Hpk.
  { repeat constructor; simpl; intuition discriminate. }
  assert (canonicalIds Sample.uuid_in DatasetsTable.id (datasets Sample.db)) as Hc.
  { intros d [<-|[<-|[<-|[]]]]; reflexivity. }
  assert (In Sample.sharedDataset (datasets Sample.db)) as Hin.
  { simpl. now left. }
  apply (proj1 (read_paths_respect_visibility Sample.uuid_in Sample.array_in
                  Sample.toISOString Sample.parseDate
                  Sample.tenantA Sample.db Sample.sharedDataset Hpk Hc Hin)).
  right. right. left.
  exists (Sample.jobFilters (Some (Num 2)) None).
  exists [Sample.jobShared3; Sample.jobShared2].
  exists (Some "2024-01-01T00:01:00.000Z|70000000-0000-4000-8000-000000000002").
  exists Sample.jobShared2.
  repeat split; simpl; auto.
Defined.

(* ================================================================== *)
(** ** Frame of the dataset update *)

Lemma where_map {A : Type} (p : A -> bool) (g : A -> A) (l : list A) :
  (forall x, p (g x) = p x) -> where_ p (map g l) = map g (where_ p l).
Proof.
  intros Hg. unfold where_. induction l as [|x tl IH]; simpl; [reflexivity|].
  rewrite Hg. destruct (p x); simpl; now rewrite IH.
Qed.

Lemma executeTakeFirst_map {A B : Type} (g : A -> B) (l : list A) :
  executeTakeFirst (map g l) = option_map g (executeTakeFirst l).
Proof. destruct l; reflexivity. Qed.

Lemma existsb_id_in (ds : list Dataset) (d : Dataset) :
  In d ds ->
  existsb (fun x => (DatasetsTable.id x =? DatasetsTable.id d)%string) ds = true.
Proof.
  intros Hin. apply existsb_exists. exists d.
  split; [assumption | apply String.eqb_refl].
Qed.

(** A successful update, step by step. *)
Lemma update_unfold uuid_in (id : string) (T : Tenant)
  (dto : DatasetsService.UpdateDatasetDto) (db db' : Database)
  (r : option Dataset) :
  DatasetsService.update uuid_in id T dto db = Ok (r, db') ->
  exists u d0,
    uuid_in id = Some u
    /\ DatasetsService.findOne uuid_in id T db = Ok (DatasetsTable.selected d0)
    /\ In d0 (datasets db) /\ DatasetsTable.id d0 = u /\ isVisible d0 T = true
    /\ DatasetsService.noColumn dto = false
    /\ DatasetsService.nullForRequired dto = false
    /\ db' = DatasetsService.withDatasets db
               (DatasetsService.updatedRows dto u (datasets db))
    /\ r = option_map DatasetsTable.selected
             (executeTakeFirst
                (where_ (fun d => (DatasetsTable.id d =? u)%string)
                   (DatasetsService.updatedRows dto u (datasets db)))).
Proof.
  unfold DatasetsService.update.
  destruct (DatasetsService.findOne uuid_in id T db) as [existing|] eqn:Hex;
    [|discriminate].
  cbn [bind]. pose proof Hex as Hex'.
  apply datasets_findOne_ok in Hex' as (d0 & -> & Hin & Hu & Hv).
  unfold uuidParam. rewrite Hu. cbn [bind]. unfold DatasetsService.updateTable.
  destruct (DatasetsService.noColumn dto); [discriminate|].
  rewrite (existsb_id_in _ _ Hin), andb_true_r.
  destruct (DatasetsService.nullForRequired dto); [discriminate|].
  cbn [bind]. intros H; injection H as <- <-.
  exists (DatasetsTable.id d0), d0. repeat split; assumption.
Qed.

(** C10 - for every tenant, dataset id and update payload admitted by the
    whitelisting validation pipe, a successful [DatasetsService.update]
    leaves [id], [owner_tenant_id] and [created_at] of every dataset row
    unchanged, as well as the other tables: each row is either untouched
    or its old self with the fields of [UpdateDatasetDto] (name,
    entity_type, tags, sources, schedule_cron, extractor, config,
    is_enabled) overwritten; the row handed back is the updated row as
    read from the store. *)
Theorem update_preserves_identity_columns :
  forall (uuid_in : string -> option string)
         (id : string) (T : Tenant) (dto : DatasetsService.UpdateDatasetDto)
         (db db' : Database) (r : option Dataset),
    DatasetsService.update uuid_in id T dto db = Ok (r, db') ->
    Forall2 (fun d d' =>
               DatasetsTable.id d' = DatasetsTable.id d
               /\ DatasetsTable.owner_tenant_id d' = DatasetsTable.owner_tenant_id d
               /\ DatasetsTable.created_at d' = DatasetsTable.created_at d
               /\ (d' = d \/ d' = DatasetsService.set dto d))
            (datasets db) (datasets db')
    /\ tenants db' = tenants db /\ jobs db' = jobs db /\ items db' = items db
    /\ (exists d, r = Some (DatasetsTable.selected (DatasetsService.set dto d))
                  /\ In d (datasets db)
                  /\ uuid_in id = Some (DatasetsTable.id d)).
Proof.
  intros uuid_in id T dto db db' r H.
  apply update_unfold in H
    as (u & d0 & Hu & _ & Hin & Hid & _ & _ & _ & -> & ->).
  cbn [datasets tenants jobs items DatasetsService.withDatasets].
  split; [|split; [reflexivity|split; [reflexivity|split; [reflexivity|]]]].
  - unfold DatasetsService.updatedRows, DatasetsService.updatedRow. clear Hin.
    induction (datasets db) as [|d tl IH]; simpl; constructor; [|exact IH].
    destruct (DatasetsTable.id d =? u)%string; simpl; auto.
  - unfold DatasetsService.updatedRows, DatasetsService.updatedRow, where_.
    clear T. induction (datasets db) as [|d tl IH]; [destruct Hin|].
    simpl. destruct (DatasetsTable.id d =? u)%string eqn:E.
    + simpl. rewrite E. simpl. exists d. apply String.eqb_eq in E.
      split; [reflexivity|]. split; [now left|]. now rewrite E.
    + simpl. rewrite E. destruct Hin as [->|Hin].
      * apply String.eqb_neq in E. contradiction.
      * destruct (IH Hin) as (d1 & ? & ? & ?). exists d1. auto.
Qed.

Lemma update_preserves_identity_columns_witness :
  DatasetsService.update Sample.uuid_in (DatasetsTable.id Sample.datasetOfA)
    Sample.tenantA Sample.disableDto Sample.db
  = Ok (Some (DatasetsTable.selected
                (DatasetsService.set Sample.disableDto Sample.datasetOfA)),
        Sample.updatedDb)
  /\ tenants Sample.updatedDb = tenants Sample.db
  /\ jobs Sample.updatedDb = jobs Sample.db
  /\ items Sample.updatedDb = items Sample.db.
Proof.
  assert (DatasetsService.update Sample.uuid_in (DatasetsTable.id Sample.datasetOfA)
            Sample.tenantA Sample.disableDto Sample.db
          = Ok (Some (DatasetsTable.selected
                        (DatasetsService.set Sample.disableDto Sample.datasetOfA)),
                Sample.updatedDb)) as Hu by reflexivity.
  split; [exact Hu|].
  destruct (update_preserves_identity_columns _ _ _ _ _ _ _ Hu)
    as (_ & Ht & Hj & Hi & _).
  exact (conj Ht (conj Hj Hi)).
Defined.

(* ================================================================== *)
(** ** Error signals of the read paths *)

Lemma datasets_findAll_err array_in (T : Tenant) (f : DatasetsService.Filters)
  (db : Database) (e : HttpError) :
  DatasetsService.findAll array_in T f db = Err e -> e = DatabaseError.
Proof.
  unfold DatasetsService.findAll, arrayParam.
  destruct (truthy (DatasetsService.tag f)) as [t|];
    [destruct (array_in t) as [ta|]|];
    (destruct (truthy (DatasetsService.source f)) as [so|];
     [destruct (array_in so) as [sa|]|]);
    cbn [bind]; congruence.
Qed.

Lemma cursorParams_err uuid_in parseDate (c : string) (e : HttpError) :
  cursorParams uuid_in parseDate c = Err e -> e = DatabaseError.
Proof.
  unfold cursorParams, newDate, uuidParam.
  destruct (parseDate _); cbn [bind]; [|congruence].
  destruct (nth_error _ 1) as [i|]; [destruct (uuid_in i)|]; cbn [bind]; congruence.
Qed.

Lemma jobs_query_err uuid_in parseDate (T : Tenant) (f : JobsService.Filters)
  (db : Database) (e : HttpError) :
  JobsService.findAllQuery uuid_in parseDate T f db = Err e -> e = DatabaseError.
Proof.
  unfold JobsService.findAllQuery, uuidParam.
  destruct (truthy (JobsService.f_datasetId f)) as [d|];
    [destruct (uuid_in d) as [ud|]|]; cbn [bind]; try congruence;
    (destruct (truthy (JobsService.f_cursor f)) as [c|];
     [destruct (cursorParams uuid_in parseDate c) as [[t id]|] eqn:E|]);
    cbn [bind]; try congruence;
    intros H; injection H as <-; now apply cursorParams_err in E.
Qed.

Lemma items_applyFilters_err uuid_in array_in parseDate
  (f : ItemsService.Filters) (q : list (Item * Dataset)) (e : HttpError) :
  ItemsService.applyFilters uuid_in array_in parseDate f q = Err e ->
  e = DatabaseError.
Proof.
  unfold ItemsService.applyFilters, uuidParam, arrayParam, newDate.
  destruct (truthy (ItemsService.f_datasetId f)) as [d|];
    [destruct (uuid_in d) as [ud|]|]; cbn [bind]; try congruence;
    (destruct (truthy (ItemsService.f_tag f)) as [t|];
     [destruct (array_in t) as [ta|]|]); cbn [bind]; try congruence;
    (destruct (truthy (ItemsService.f_since f)) as [s|];
     [destruct (parseDate s) as [ds|]|]); cbn [bind]; try congruence;
    (destruct (truthy (ItemsService.f_until f)) as [u|];
     [destruct (parseDate u) as [du|]|]); cbn [bind]; congruence.
Qed.

Lemma items_query_err uuid_in array_in parseDate (T : Tenant)
  (f : ItemsService.Filters) (db : Database) (e : HttpError) :
  ItemsService.findAllQuery uuid_in array_in parseDate T f db = Err e ->
  e = DatabaseError.
Proof.
  unfold ItemsService.findAllQuery.
  destruct (ItemsService.applyFilters uuid_in array_in parseDate f _) as [q0|e0] eqn:Hf;
    cbn [bind].
  - destruct (truthy (ItemsService.f_cursor f)) as [c|];
      [destruct (cursorParams uuid_in parseDate c) as [[t id]|] eqn:E|];
      cbn [bind]; try congruence.
    intros H; injection H as <-; now apply cursorParams_err in E.
  - intros H; injection H as <-. now apply items_applyFilters_err in Hf.
Qed.

Lemma jobs_findAll_err uuid_in toISOString parseDate (T : Tenant)
  (f : JobsService.Filters) (db : Database) (e : HttpError) :
  JobsService.findAll uuid_in toISOString parseDate T f db = Err e ->
  e = DatabaseError \/ e = TypeError.
Proof.
  unfold JobsService.findAll, JobsService.fetched, limit_.
  destruct (JobsService.findAllQuery uuid_in parseDate T f db) as [q|e0] eqn:Hq;
    cbn [bind].
  - destruct (_ <? 0); cbn [bind]; [intros H; injection H as <-; now left|].
    destruct (_ <? _); [|discriminate].
    destruct (at_ _ _); [discriminate|]. intros H; injection H as <-. now right.
  - intros H; injection H as <-. left. now apply jobs_query_err in Hq.
Qed.

Lemma items_findAll_err uuid_in array_in toISOString parseDate (T : Tenant)
  (f : ItemsService.Filters) (db : Database) (e : HttpError) :
  ItemsService.findAll uuid_in array_in toISOString parseDate T f db = Err e ->
  e = DatabaseError \/ e = TypeError.
Proof.
  unfold ItemsService.findAll, ItemsService.fetched, limit_.
  destruct (ItemsService.findAllQuery uuid_in array_in parseDate T f db)
    as [q|e0] eqn:Hq; cbn [bind].
  - destruct (_ <? 0); cbn [bind]; [intros H; injection H as <-; now left|].
    destruct (_ <? _); [|discriminate].
    destruct (at_ _ _); [discriminate|]. intros H; injection H as <-. now right.
  - intros H; injection H as <-. left. now apply items_query_err in Hq.
Qed.

(** C7, as stated, fails: a job that exists but whose parent dataset is
    not visible to the caller is answered with Forbidden, which differs
    from the NotFound of a missing job. *)
Lemma job_of_other_tenant_is_forbidden :
  isVisible Sample.datasetOfB Sample.tenantA = false
  /\ JobsService.findOne Sample.uuid_in (JobsTable.id Sample.jobOfB)
       Sample.tenantA Sample.db
     = Err ForbiddenException
  /\ JobsService.findOne Sample.uuid_in "70000000-0000-4000-8000-00000000dead"
       Sample.tenantA Sample.db
     = Err NotFoundException.
Proof. repeat split. Qed.

(** C7, amended - for every tenant and every id that the store reads as
    a uuid: [DatasetsService.findOne] and [ItemsService.findOne] report
    NotFound, and nothing else, when the entity is missing or its parent
    dataset is not visible; [JobsService.findOne] reports NotFound when
    the job is missing and Forbidden when the job exists and its parent
    dataset is not visible, and nothing else; the list endpoints report
    neither NotFound nor Forbidden. *)
Theorem hidden_entities_error_signal :
  forall (uuid_in : string -> option string)
         (array_in : string -> option (list (option string)))
         (toISOString : Date -> string) (parseDate : string -> option Date)
         (T : Tenant) (db : Database) (id u : string),
    uuid_in id = Some u ->
    ((forall d, In d (datasets db) -> DatasetsTable.id d = u ->
                isVisible d T = false) ->
     DatasetsService.findOne uuid_in id T db = Err NotFoundException)
    /\ (forall e, DatasetsService.findOne uuid_in id T db = Err e ->
                  e = NotFoundException)
    /\ ((forall i d, In i (items db) -> In d (datasets db) ->
                     ItemsTable.id i = u ->
                     DatasetsTable.id d = ItemsTable.dataset_id i ->
                     isVisible d T = false) ->
        ItemsService.findOne uuid_in id T db = Err NotFoundException)
    /\ (forall e, ItemsService.findOne uuid_in id T db = Err e ->
                  e = NotFoundException)
    /\ ((forall j, In j (jobs db) -> JobsTable.id j <> u) ->
        JobsService.findOne uuid_in id T db = Err NotFoundException)
    /\ ((exists j, In j (jobs db) /\ JobsTable.id j = u) ->
        canonicalIds uuid_in JobsTable.dataset_id (jobs db) ->
        (forall j d, In j (jobs db) -> In d (datasets db) ->
                     JobsTable.id j = u ->
                     DatasetsTable.id d = JobsTable.dataset_id j ->
                     isVisible d T = false) ->
        JobsService.findOne uuid_in id T db = Err ForbiddenException)
    /\ (forall e, JobsService.findOne uuid_in id T db = Err e ->
                  e = NotFoundException \/ e = ForbiddenException)
    /\ (forall f e, DatasetsService.findAll array_in T f db = Err e ->
                    e <> NotFoundException /\ e <> ForbiddenException)
    /\ (forall f e,
          JobsService.findAll uuid_in toISOString parseDate T f db = Err e ->
          e <> NotFoundException /\ e <> ForbiddenException)
    /\ (forall f e,
          ItemsService.findAll uuid_in array_in toISOString parseDate T f db = Err e ->
          e <> NotFoundException /\ e <> ForbiddenException).
Proof.
  intros uuid_in array_in toISOString parseDate T db id u Hu.
  split; [now apply datasets_findOne_hidden|].
  split.
  { intros e H. apply datasets_findOne_err in H as [[-> _]|[_ H]]; congruence. }
  split.
  { intros Hid. rewrite items_findOne_unfold, Hu. unfold where_.
    destruct (executeTakeFirst _) as [[i d]|] eqn:E; [|reflexivity].
    apply executeTakeFirst_in in E. rewrite !filter_In in E. simpl in E.
    destruct E as [[Hjoin Heq] Hv]. apply String.eqb_eq in Heq.
    apply in_innerJoin in Hjoin as (Hi & Hd & Hfk).
    rewrite (Hid i d Hi Hd Heq Hfk) in Hv. discriminate. }
  split.
  { intros e. rewrite items_findOne_unfold, Hu.
    destruct (executeTakeFirst _); [discriminate|]. congruence. }
  split.
  { intros Hno. rewrite jobs_findOne_unfold, Hu. unfold where_.
    destruct (executeTakeFirst _) as [j|] eqn:E; [|reflexivity].
    apply executeTakeFirst_in, filter_In in E as [Hin Heq].
    apply String.eqb_eq in Heq. destruct (Hno j Hin Heq). }
  split.
  { intros (j0 & Hj0 & Hid0) Hcanon Hhid.
    rewrite jobs_findOne_unfold, Hu. unfold where_.
    destruct (executeTakeFirst _) as [j|] eqn:E.
    - apply executeTakeFirst_in, filter_In in E as [Hin Heq].
      apply String.eqb_eq in Heq.
      rewrite (datasets_findOne_hidden uuid_in _ _ T db (Hcanon j Hin));
        [reflexivity|].
      intros d Hd Hdid. now apply (Hhid j d).
    - apply executeTakeFirst_none in E.
      assert (In j0 (filter (fun j => (JobsTable.id j =? u)%string) (jobs db))) as H.
      { apply filter_In. split; [assumption|]. now apply String.eqb_eq. }
      rewrite E in H. destruct H. }
  split.
  { intros e. rewrite jobs_findOne_unfold, Hu.
    destruct (executeTakeFirst _); [|intros H; injection H as <-; now left].
    destruct (DatasetsService.findOne _ _ _ _); [discriminate|].
    intros H; injection H as <-. now right. }
  split.
  { intros f e H. apply datasets_findAll_err in H. subst e.
    split; discriminate. }
  split.
  - intros f e H. apply jobs_findAll_err in H as [->| ->]; split; discriminate.
  - intros f e H. apply items_findAll_err in H as [->| ->]; split; discriminate.
Qed.

Lemma hidden_entities_error_signal_witness :
  DatasetsService.findOne Sample.uuid_in (DatasetsTable.id Sample.datasetOfB)
    Sample.tenantA Sample.db = Err NotFoundException
  /\ JobsService.findOne Sample.uuid_in (JobsTable.id Sample.jobOfB)
       Sample.tenantA Sample.db
     = Err ForbiddenException.
Proof.
  destruct (hidden_entities_error_signal Sample.uuid_in Sample.array_in
              Sample.toISOString Sample.parseDate
              Sample.tenantA Sample.db (DatasetsTable.id Sample.datasetOfB)
              (DatasetsTable.id Sample.datasetOfB) eq_refl)
    as (Hd & _).
  destruct (hidden_entities_error_signal Sample.uuid_in Sample.array_in
              Sample.toISOString Sample.parseDate
              Sample.tenantA Sample.db (JobsTable.id Sample.jobOfB)
              (JobsTable.id Sample.jobOfB) eq_refl)
    as (_ & _ & _ & _ & _ & Hj & _).
  split.
  - apply Hd. simpl. intros d [<-|[<-|[<-|[]]]]; simpl; intros H;
      first [discriminate H | reflexivity].
  - apply Hj.
    + exists Sample.jobOfB. simpl. auto.
    + intros j [<-|[<-|[<-|[<-|[]]]]]; reflexivity.
    + simpl. intros j d [<-|[<-|[<-|[<-|[]]]]] [<-|[<-|[<-|[]]]]; simpl;
        intros H1 H2; first [discriminate H1 | discriminate H2 | reflexivity].
Defined.

(* ================================================================== *)
(** ** Job creation *)

Lemma filter_same {A : Type} (p q : A -> bool) (l : list A) :
  (forall x, p x = q x) -> filter p l = filter q l.
Proof. intros H. induction l as [|x tl IH]; simpl; [reflexivity|]. now rewrite H, IH. Qed.

(** [create], with the dataset lookup done. *)
Lemma jobs_create_unfold uuid_in (fresh : string) (now : Timestamp) (T : Tenant)
  (datasetId : string) (db : Database) (queue : list JobsService.QueueJob) :
  JobsService.create uuid_in fresh now T datasetId (db, queue)
  = match DatasetsService.findOne uuid_in datasetId T db with
    | Ok _ => Err ReferenceError
    | Err e => Err e
    end.
Proof.
  unfold JobsService.create.
  destruct (DatasetsService.findOne uuid_in datasetId T db); reflexivity.
Qed.

(** Whether the dataset lookup finds a row does not depend on the
    [is_enabled] flags. *)
Lemma datasets_findOne_flags uuid_in (id : string) (T T' : Tenant)
  (db db' : Database) (g : Dataset -> bool) :
  TenantsTable.id T' = TenantsTable.id T ->
  datasets db' = map (fun d => DatasetsTable.withEnabled (g d) d) (datasets db) ->
  match DatasetsService.findOne uuid_in id T db with
  | Ok _ => exists d', DatasetsService.findOne uuid_in id T' db' = Ok d'
  | Err e => DatasetsService.findOne uuid_in id T' db' = Err e
  end.
Proof.
  intros HT Hds. rewrite !datasets_findOne_unfold, Hds.
  destruct (uuid_in id) as [u|]; [|reflexivity].
  rewrite (where_map _ (fun d => DatasetsTable.withEnabled (g d) d))
    by reflexivity.
  rewrite (where_map _ (fun d => DatasetsTable.withEnabled (g d) d))
    by reflexivity.
  rewrite executeTakeFirst_map.
  assert (forall l : list Dataset,
            where_ (fun d => isVisible d T') l = where_ (fun d => isVisible d T) l)
    as Hsame.
  { intros l. apply filter_same. intros d. unfold isVisible. now rewrite HT. }
  rewrite Hsame.
  destruct (executeTakeFirst _); simpl; eauto.
Qed.

(** C8, as stated, fails: for a disabled dataset, and for a disabled
    tenant, [create] does not fail with Disabled; it ends as it does for
    the same dataset and tenant enabled. *)
Lemma create_on_disabled_dataset_is_not_refused :
  DatasetsTable.is_enabled Sample.datasetOfA = false
  /\ JobsService.create Sample.uuid_in Sample.freshJobId Sample.t2 Sample.tenantA
       (DatasetsTable.id Sample.datasetOfA) (Sample.db, [])
     = JobsService.create Sample.uuid_in Sample.freshJobId Sample.t2 Sample.tenantA
         (DatasetsTable.id Sample.datasetOfA)
         (DatasetsService.withDatasets Sample.db
            (map (DatasetsTable.withEnabled true) (datasets Sample.db)), [])
  /\ JobsService.create Sample.uuid_in Sample.freshJobId Sample.t2 Sample.tenantA
       (DatasetsTable.id Sample.datasetOfA) (Sample.db, [])
     <> Err BadRequestException
  /\ TenantsTable.is_enabled Sample.disabledTenant = false
  /\ JobsService.create Sample.uuid_in Sample.freshJobId Sample.t2
       Sample.disabledTenant (DatasetsTable.id Sample.sharedDataset)
       (Sample.dbWithDisabled, [])
     <> Err BadRequestException
  /\ JobsService.create Sample.uuid_in Sample.freshJobId Sample.t2
       Sample.disabledTenant (DatasetsTable.id Sample.datasetOfA)
       (Sample.dbWithDisabled, [])
     = Err NotFoundException.
Proof. repeat split; discriminate. Qed.

(** C8, amended - for every tenant and every datasetId that the store
    reads as a uuid, [JobsService.create] fails with NotFound, and writes
    nothing, when the dataset is missing or not visible to the tenant;
    it has no Disabled failure: how it ends does not depend on the
    [is_enabled] flag of any dataset or of the tenant. *)
Theorem create_job_outcomes :
  forall (uuid_in : string -> option string)
         (fresh : string) (now : Timestamp)
         (T : Tenant) (datasetId u : string) (db : Database)
         (queue : list JobsService.QueueJob),
    uuid_in datasetId = Some u ->
    ((forall d, In d (datasets db) -> DatasetsTable.id d = u ->
                isVisible d T = false) ->
     JobsService.create uuid_in fresh now T datasetId (db, queue)
     = Err NotFoundException)
    /\ ((exists d, In d (datasets db) /\ DatasetsTable.id d = u
                   /\ isVisible d T = true) ->
        JobsService.create uuid_in fresh now T datasetId (db, queue)
        <> Err NotFoundException)
    /\ JobsService.create uuid_in fresh now T datasetId (db, queue)
       <> Err BadRequestException
    /\ (forall (T' : Tenant) (db' : Database) (g : Dataset -> bool)
               (fresh' : string) (now' : Timestamp)
               (queue' : list JobsService.QueueJob) (e : HttpError),
          TenantsTable.id T' = TenantsTable.id T ->
          datasets db'
          = map (fun d => DatasetsTable.withEnabled (g d) d) (datasets db) ->
          JobsService.create uuid_in fresh now T datasetId (db, queue) = Err e ->
          JobsService.create uuid_in fresh' now' T' datasetId (db', queue') = Err e).
Proof.
  intros uuid_in fresh now T datasetId u db queue Hu.
  rewrite jobs_create_unfold. split; [|split; [|split]].
  - intros Hhid. now rewrite (datasets_findOne_hidden _ _ _ _ _ Hu Hhid).
  - intros (d & Hin & Hid & Hv). subst u.
    destruct (datasets_findOne_visible _ _ _ _ _ Hin Hu Hv) as [d' ->].
    discriminate.
  - destruct (DatasetsService.findOne uuid_in datasetId T db) as [d|e] eqn:E;
      [discriminate|].
    apply datasets_findOne_err in E as [[-> _]|[-> _]]; discriminate.
  - intros T' db' g fresh' now' queue' e HT Hds. rewrite jobs_create_unfold.
    pose proof (datasets_findOne_flags uuid_in datasetId T T' db db' g HT Hds) as H.
    destruct (DatasetsService.findOne uuid_in datasetId T db) as [d|e0].
    + destruct H as [d' ->]. auto.
    + rewrite H. auto.
Qed.

Lemma create_job_outcomes_witness :
  JobsService.create Sample.uuid_in Sample.freshJobId Sample.t2 Sample.tenantB
    (DatasetsTable.id Sample.datasetOfA) (Sample.db, [])
  = Err NotFoundException.
Proof.
  destruct (create_job_outcomes Sample.uuid_in Sample.freshJobId Sample.t2
              Sample.tenantB (DatasetsTable.id Sample.datasetOfA)
              (DatasetsTable.id Sample.datasetOfA) Sample.db [] eq_refl)
    as [H _].
  apply H. simpl. intros d [<-|[<-|[<-|[]]]]; simpl; intros Hid;
    first [discriminate Hid | reflexivity].
Defined.

(* ================================================================== *)
(** ** Page size *)

(** C9, as stated, fails: a request for page size 0 is not rejected with
    InvalidArgument; it is answered with the default page size. *)
Lemma page_size_zero_is_served :
  JobsService.effectiveLimit (Sample.jobFilters (Some (Num 0)) None) = 50
  /\ JobsService.findAll Sample.uuid_in Sample.toISOString Sample.parseDate
       Sample.tenantA (Sample.jobFilters (Some (Num 0)) None) Sample.db
     = Ok ([Sample.jobShared3; Sample.jobShared2; Sample.jobShared1], None)
  /\ ItemsService.findAll Sample.uuid_in Sample.array_in Sample.toISOString
       Sample.parseDate Sample.tenantA
       (Sample.itemFilters (Some (Num 0)) None) Sample.db
     = Ok ([Sample.itemShared3; Sample.itemShared2; Sample.itemShared1], None).
Proof. repeat split. Qed.

(** C9, amended - for the list endpoints of jobs and items the effective
    page size is the requested limit capped at 100 when a non-zero limit
    is given, and 50 when the limit is absent, 0 or NaN; it lies between 1
    and 100 for every non-negative request; and a request for page size 0
    is not rejected: it is answered as one without a limit. *)
Theorem effective_page_size :
  forall (uuid_in : string -> option string)
         (array_in : string -> option (list (option string)))
         (toISOString : Date -> string) (parseDate : string -> option Date)
         (T : Tenant) (db : Database)
         (fj fj' : JobsService.Filters) (fi fi' : ItemsService.Filters),
    let clamp (l : option number) :=
      match l with
      | Some (Num z) => if z =? 0 then 50 else Z.min z 100
      | _ => 50
      end in
    let nonNegative (l : option number) :=
      match l with Some (Num z) => 0 <= z | _ => True end in
    JobsService.effectiveLimit fj = clamp (JobsService.f_limit fj)
    /\ ItemsService.effectiveLimit fi = clamp (ItemsService.f_limit fi)
    /\ (nonNegative (JobsService.f_limit fj) ->
        1 <= JobsService.effectiveLimit fj <= 100)
    /\ (nonNegative (ItemsService.f_limit fi) ->
        1 <= ItemsService.effectiveLimit fi <= 100)
    /\ (JobsService.f_limit fj = Some (Num 0) ->
        fj' = {| JobsService.f_datasetId := JobsService.f_datasetId fj;
                 JobsService.f_status := JobsService.f_status fj;
                 JobsService.f_limit := None;
                 JobsService.f_cursor := JobsService.f_cursor fj |} ->
        JobsService.findAll uuid_in toISOString parseDate T fj db
        = JobsService.findAll uuid_in toISOString parseDate T fj' db)
    /\ (ItemsService.f_limit fi = Some (Num 0) ->
        fi' = {| ItemsService.f_datasetId := ItemsService.f_datasetId fi;
                 ItemsService.f_entityType := ItemsService.f_entityType fi;
                 ItemsService.f_tag := ItemsService.f_tag fi;
                 ItemsService.f_source := ItemsService.f_source fi;
                 ItemsService.f_since := ItemsService.f_since fi;
                 ItemsService.f_until := ItemsService.f_until fi;
                 ItemsService.f_limit := None;
                 ItemsService.f_cursor := ItemsService.f_cursor fi |} ->
        ItemsService.findAll uuid_in array_in toISOString parseDate T fi db
        = ItemsService.findAll uuid_in array_in toISOString parseDate T fi' db).
Proof.
  intros uuid_in array_in toISOString parseDate T db fj fj' fi fi' clamp nonNegative.
  assert (forall l, Math_min (orDefault l 50) 100 = clamp l) as Hclamp.
  { intros [[|z]|]; simpl; try reflexivity.
    unfold Math_min. destruct (z =? 0); reflexivity. }
  assert (forall l, nonNegative l -> 1 <= clamp l <= 100) as Hrange.
  { intros [[|z]|]; simpl; try lia.
    destruct (Z.eqb_spec z 0); lia. }
  split; [apply Hclamp|]. split; [apply Hclamp|].
  split; [intros H; unfold JobsService.effectiveLimit; rewrite Hclamp; auto|].
  split; [intros H; unfold ItemsService.effectiveLimit; rewrite Hclamp; auto|].
  split.
  - intros H0 ->. destruct fj as [a b l c]. simpl in *. subst l. reflexivity.
  - intros H0 ->. destruct fi as [a b c d e f l g]. simpl in *. subst l. reflexivity.
Qed.

Lemma effective_page_size_witness :
  1 <= JobsService.effectiveLimit (Sample.jobFilters (Some (Num 250)) None) <= 100
  /\ JobsService.findAll Sample.uuid_in Sample.toISOString Sample.parseDate
       Sample.tenantA (Sample.jobFilters (Some (Num 0)) None) Sample.db
     = JobsService.findAll Sample.uuid_in Sample.toISOString Sample.parseDate
         Sample.tenantA (Sample.jobFilters None None) Sample.db.
Proof.
  destruct (effective_page_size Sample.uuid_in Sample.array_in
              Sample.toISOString Sample.parseDate
              Sample.tenantA Sample.db
              (Sample.jobFilters (Some (Num 250)) None) Sample.noJobFilters
              (Sample.itemFilters None None) (Sample.itemFilters None None))
    as (_ & _ & Hr & _).
  destruct (effective_page_size Sample.uuid_in Sample.array_in
              Sample.toISOString Sample.parseDate
              Sample.tenantA Sample.db
              (Sample.jobFilters (Some (Num 0)) None) (Sample.jobFilters None None)
              (Sample.itemFilters None None) (Sample.itemFilters None None))
    as (_ & _ & _ & _ & Hz & _).
  split.
  - apply Hr. simpl. lia.
  - apply Hz; reflexivity.
Defined.

(* ================================================================== *)
(** ** Job state machine *)

(** C3, as stated, fails: [fail] on a job that is not RUNNING but already
    FAILED is a no-op and not an InvalidTransition. *)
Lemma fail_on_failed_job_is_not_rejected :
  JobsTable.status Sample.failedJob <> RUNNING
  /\ Worker.fail Sample.t2 "again" Sample.failedJob = Worker.Done Sample.failedJob
  /\ Worker.fail Sample.t2 "again" Sample.failedJob
     <> Worker.Failed Worker.InvalidTransition.
Proof. repeat split; discriminate. Qed.

(** C3, amended - every operation on a job leaves the status as it is or
    moves it along one of QUEUED->RUNNING, RUNNING->SUCCEEDED,
    RUNNING->FAILED, QUEUED->CANCELED, RUNNING->CANCELED, never backwards,
    and each of these moves is made by some operation; [succeed] on a job
    that is neither RUNNING nor SUCCEEDED, and [fail] on a job that is
    neither RUNNING nor FAILED, fail with InvalidTransition; [succeed] on
    a RUNNING job makes it SUCCEEDED and [fail] makes it FAILED;
    [succeed] on a job already SUCCEEDED, and [fail] on one already
    FAILED, is a no-op: it is not an error and returns the job as it
    is. *)
Theorem job_status_moves_forward :
  forall (j : Job),
    (forall op j', Worker.apply op j = Worker.Done j' ->
       (JobsTable.status j' = JobsTable.status j
        \/ Worker.forward (JobsTable.status j) (JobsTable.status j') = true)
       /\ (Worker.rank (JobsTable.status j) <= Worker.rank (JobsTable.status j'))%nat)
    /\ (forall b, Worker.forward (JobsTable.status j) b = true ->
          exists op j', Worker.apply op j = Worker.Done j'
                        /\ JobsTable.status j' = b)
    /\ (forall now s,
          JobsTable.status j <> RUNNING -> JobsTable.status j <> SUCCEEDED ->
          Worker.succeed now s j = Worker.Failed Worker.InvalidTransition)
    /\ (forall now m,
          JobsTable.status j <> RUNNING -> JobsTable.status j <> FAILED ->
          Worker.fail now m j = Worker.Failed Worker.InvalidTransition)
    /\ (forall now s,
          JobsTable.status j = RUNNING ->
          exists j', Worker.succeed now s j = Worker.Done j'
                     /\ JobsTable.status j' = SUCCEEDED
                     /\ JobsTable.finished_at j' = Some now
                     /\ JobsTable.progress j' = 100
                     /\ JobsTable.id j' = JobsTable.id j)
    /\ (forall now m,
          JobsTable.status j = RUNNING ->
          exists j', Worker.fail now m j = Worker.Done j'
                     /\ JobsTable.status j' = FAILED
                     /\ JobsTable.finished_at j' = Some now
                     /\ JobsTable.error_message j' = Some m
                     /\ JobsTable.id j' = JobsTable.id j)
    /\ (forall now s,
          JobsTable.status j = SUCCEEDED -> Worker.succeed now s j = Worker.Done j)
    /\ (forall now m,
          JobsTable.status j = FAILED -> Worker.fail now m j = Worker.Done j)
    /\ (forall now s j1,
          Worker.succeed now s j = Worker.Done j1 ->
          JobsTable.status j1 = SUCCEEDED
          /\ forall now' s', Worker.succeed now' s' j1 = Worker.Done j1)
    /\ (forall now m j1,
          Worker.fail now m j = Worker.Done j1 ->
          JobsTable.status j1 = FAILED
          /\ forall now' m', Worker.fail now' m' j1 = Worker.Done j1).
Proof.
  intros j. repeat match goal with |- _ /\ _ => split end.
  - intros op j' H.
    destruct op; simpl in H;
      unfold Worker.claimRow, Worker.reportProgress, Worker.succeed,
        Worker.fail, Worker.cancel in H;
      destruct (JobsTable.status j) eqn:Es; try discriminate;
      try (destruct (_ <? _); try discriminate);
      injection H as <-; simpl; rewrite ?Es; simpl; auto.
  - intros b Hb. destruct (JobsTable.status j) eqn:Es, b; try discriminate Hb.
    + exists (Worker.OpClaim 0). eexists. simpl. unfold Worker.claimRow.
      rewrite Es. split; reflexivity.
    + exists (Worker.OpCancel 0). eexists. simpl. unfold Worker.cancel.
      rewrite Es. split; reflexivity.
    + exists (Worker.OpSucceed 0 JNull). eexists. simpl. unfold Worker.succeed.
      rewrite Es. split; reflexivity.
    + exists (Worker.OpFail 0 ""). eexists. simpl. unfold Worker.fail.
      rewrite Es. split; reflexivity.
    + exists (Worker.OpCancel 0). eexists. simpl. unfold Worker.cancel.
      rewrite Es. split; reflexivity.
  - intros now s Hr Hs. unfold Worker.succeed.
    destruct (JobsTable.status j); congruence.
  - intros now m Hr Hf. unfold Worker.fail.
    destruct (JobsTable.status j); congruence.
  - intros now s Es. unfold Worker.succeed. rewrite Es. eexists.
    split; [reflexivity|]. repeat split.
  - intros now m Es. unfold Worker.fail. rewrite Es. eexists.
    split; [reflexivity|]. repeat split.
  - intros now s Es. unfold Worker.succeed. now rewrite Es.
  - intros now m Es. unfold Worker.fail. now rewrite Es.
  - intros now s j1. unfold Worker.succeed.
    destruct (JobsTable.status j) eqn:Es; try discriminate;
      intros H; injection H as <-; simpl; rewrite ?Es; auto.
  - intros now m j1. unfold Worker.fail.
    destruct (JobsTable.status j) eqn:Es; try discriminate;
      intros H; injection H as <-; simpl; rewrite ?Es; auto.
Qed.

Lemma job_status_moves_forward_witness :
  Worker.succeed Sample.t2 (JObj []) Sample.jobShared1
  = Worker.Failed Worker.InvalidTransition
  /\ Worker.fail Sample.t2 "again" Sample.failedJob = Worker.Done Sample.failedJob
  /\ (exists j', Worker.succeed Sample.t2 (JObj []) Sample.runningJob = Worker.Done j'
                 /\ JobsTable.status j' = SUCCEEDED).
Proof.
  destruct (job_status_moves_forward Sample.jobShared1) as (_ & _ & Hs & _).
  destruct (job_status_moves_forward Sample.failedJob)
    as (_ & _ & _ & _ & _ & _ & _ & Hf & _).
  destruct (job_status_moves_forward Sample.runningJob)
    as (_ & _ & _ & _ & Hr & _).
  split; [apply Hs; discriminate|].
  split; [apply Hf; reflexivity|].
  destruct (Hr Sample.t2 (JObj []) eq_refl) as (j' & H & Hst & _).
  exists j'. auto.
Defined.

(* ================================================================== *)
(** ** Ingestion *)

Section IngestFacts.
Variable normalize : json -> json.
Variable fingerprint : json -> string.

Lemma sameKey_candidate fresh now datasetId raw :
  Worker.sameKey datasetId (Worker.r_url raw)
    (Worker.candidate normalize fingerprint fresh now datasetId raw) = true.
Proof. unfold Worker.sameKey. simpl. now rewrite !String.eqb_refl. Qed.

(** An update of the rows under a key commutes with selecting them, as
    long as it leaves the key columns alone. *)
Lemma rowsFor_map datasetId url (g : Item -> Item) (rows : list Item) :
  (forall i, Worker.sameKey datasetId url (g i) = Worker.sameKey datasetId url i) ->
  Worker.rowsFor datasetId url
    (map (fun i => if Worker.sameKey datasetId url i then g i else i) rows)
  = map g (Worker.rowsFor datasetId url rows).
Proof.
  intros Hg. unfold Worker.rowsFor.
  induction rows as [|i tl IH]; simpl; [reflexivity|].
  destruct (Worker.sameKey datasetId url i) eqn:E.
  - rewrite Hg, E. simpl. now rewrite IH.
  - rewrite E. exact IH.
Qed.

Lemma ingest_fresh fresh now datasetId raw rows :
  Worker.rowsFor datasetId (Worker.r_url raw) rows = [] ->
  Worker.ingest normalize fingerprint fresh now datasetId raw rows
  = (Worker.created,
     rows ++ [Worker.candidate normalize fingerprint fresh now datasetId raw])%list.
Proof.
  unfold Worker.rowsFor, Worker.ingest, where_. intros ->. reflexivity.
Qed.

Lemma ingest_same_hash fresh now datasetId raw rows existing rest :
  Worker.rowsFor datasetId (Worker.r_url raw) rows = existing :: rest ->
  ItemsTable.hash existing = fingerprint (normalize (Worker.r_payload raw)) ->
  Worker.ingest normalize fingerprint fresh now datasetId raw rows
  = (Worker.unchanged,
     map (fun i => if Worker.sameKey datasetId (Worker.r_url raw) i
                   then Worker.touch now i else i) rows).
Proof.
  unfold Worker.rowsFor, Worker.ingest, where_. intros -> Hh. simpl.
  rewrite Hh, String.eqb_refl. reflexivity.
Qed.

End IngestFacts.

(** C4 - for every dataset and URL not yet stored, ingesting the same
    RawRecord twice, the second time at a later instant, yields [created]
    on the first call and [unchanged] on the second; the number of item
    rows for that [(dataset_id, url)] is 1 after each call; the second
    call leaves [created_at] (and the id) unchanged and advances
    [observed_at]. *)
Theorem ingest_twice_is_idempotent :
  forall (normalize : json -> json) (fingerprint : json -> string)
         (rows : list Item) (datasetId : string) (raw : Worker.RawRecord)
         (id1 id2 : string) (t1 t2 : Timestamp),
    Worker.rowsFor datasetId (Worker.r_url raw) rows = [] ->
    t1 < t2 ->
    exists rows1 rows2 row1 row2,
      Worker.ingest normalize fingerprint id1 t1 datasetId raw rows
      = (Worker.created, rows1)
      /\ Worker.ingest normalize fingerprint id2 t2 datasetId raw rows1
         = (Worker.unchanged, rows2)
      /\ Worker.rowsFor datasetId (Worker.r_url raw) rows1 = [row1]
      /\ Worker.rowsFor datasetId (Worker.r_url raw) rows2 = [row2]
      /\ List.length rows2 = List.length rows1
      /\ ItemsTable.id row2 = ItemsTable.id row1
      /\ ItemsTable.created_at row2 = ItemsTable.created_at row1
      /\ ItemsTable.data row2 = ItemsTable.data row1
      /\ ItemsTable.observed_at row1 < ItemsTable.observed_at row2.
Proof.
  intros normalize fingerprint rows datasetId raw id1 id2 t1 t2 Hfresh Hlt.
  set (c := Worker.candidate normalize fingerprint id1 t1 datasetId raw).
  assert (Worker.rowsFor datasetId (Worker.r_url raw) (rows ++ [c]) = [c]) as Hone.
  { unfold Worker.rowsFor in *. rewrite filter_app, Hfresh. simpl.
    unfold c. now rewrite sameKey_candidate. }
  exists (rows ++ [c])%list.
  exists (map (fun i => if Worker.sameKey datasetId (Worker.r_url raw) i
                        then Worker.touch t2 i else i) (rows ++ [c])).
  exists c, (Worker.touch t2 c).
  split; [now apply ingest_fresh|].
  split; [apply ingest_same_hash with (existing := c) (rest := []);
          [exact Hone | reflexivity]|].
  split; [exact Hone|].
  split; [rewrite rowsFor_map by reflexivity; now rewrite Hone|].
  split; [now rewrite length_map|].
  simpl. auto.
Qed.

Lemma ingest_twice_is_idempotent_witness :
  exists rows1 rows2,
    Worker.ingest (fun j => j) Sample.fingerprint
      "80000000-0000-4000-8000-0000000000f1" Sample.t1
      (DatasetsTable.id Sample.sharedDataset) Sample.rawArticle (items Sample.db)
    = (Worker.created, rows1)
    /\ Worker.ingest (fun j => j) Sample.fingerprint
         "80000000-0000-4000-8000-0000000000f2" Sample.t2
         (DatasetsTable.id Sample.sharedDataset) Sample.rawArticle rows1
       = (Worker.unchanged, rows2)
    /\ List.length rows2 = List.length rows1.
Proof.
  destruct (ingest_twice_is_idempotent (fun j => j) Sample.fingerprint
              (items Sample.db) (DatasetsTable.id Sample.sharedDataset)
              Sample.rawArticle
              "80000000-0000-4000-8000-0000000000f1"
              "80000000-0000-4000-8000-0000000000f2"
              Sample.t1 Sample.t2)
    as (rows1 & rows2 & row1 & row2 & H1 & H2 & _ & _ & Hl & _).
  - reflexivity.
  - reflexivity.
  - exists rows1, rows2. auto.
Defined.


(* ================================================================== *)
(** ** Order of the rows of a statement *)

(** *** The order on sort keys *)

Lemma string_compare_refl a : String.compare a a = Eq.
Proof. now apply String_as_OT.cmp_eq. Qed.

Lemma string_ltb_lt a b : String.ltb a b = true <-> String_as_OT.lt a b.
Proof.
  rewrite <- String_as_OT.cmp_lt. unfold String.ltb, String_as_OT.cmp.
  destruct (String.compare a b); split; congruence.
Qed.

Lemma string_ltb_irrefl a : String.ltb a a = false.
Proof. unfold String.ltb. now rewrite string_compare_refl. Qed.

Lemma string_ltb_asym a b : String.ltb a b = true -> String.ltb b a = false.
Proof.
  unfold String.ltb. rewrite (String.compare_antisym b a).
  destruct (String.compare a b); simpl; congruence.
Qed.

Lemma string_ltb_trans a b c :
  String.ltb a b = true -> String.ltb b c = true -> String.ltb a c = true.
Proof. rewrite !string_ltb_lt. apply String_as_OT.lt_trans. Qed.

Lemma string_leb_iff a b :
  String.leb a b = true <-> a = b \/ String.ltb a b = true.
Proof.
  unfold String.leb, String.ltb. destruct (String.compare a b) eqn:E.
  - apply String.compare_eq_iff in E. tauto.
  - tauto.
  - split; [discriminate|]. intros [->|H]; [|discriminate].
    rewrite string_compare_refl in E. discriminate.
Qed.

Lemma string_leb_total a b : String.leb a b = false -> String.leb b a = true.
Proof. destruct (String.leb_total a b); congruence. Qed.

Lemma string_leb_trans a b c :
  String.leb a b = true -> String.leb b c = true -> String.leb a c = true.
Proof.
  rewrite !string_leb_iff. intros [->|Hab] [->|Hbc]; auto.
  right. eapply string_ltb_trans; eassumption.
Qed.

Lemma keyLe_total a b : keyLe a b = false -> keyLe b a = true.
Proof.
  unfold keyLe. destruct a as [d1 i1], b as [d2 i2]; simpl.
  destruct (Z.ltb_spec d1 d2), (Z.ltb_spec d2 d1), (Z.eqb_spec d1 d2),
    (Z.eqb_spec d2 d1); simpl; try lia; try congruence.
  apply string_leb_total.
Qed.

Lemma keyLe_trans a b c : keyLe a b = true -> keyLe b c = true -> keyLe a c = true.
Proof.
  unfold keyLe. destruct a as [d1 i1], b as [d2 i2], c as [d3 i3]; simpl.
  destruct (Z.ltb_spec d1 d2), (Z.ltb_spec d2 d3), (Z.ltb_spec d1 d3),
    (Z.eqb_spec d1 d2), (Z.eqb_spec d2 d3), (Z.eqb_spec d1 d3);
    simpl; try lia; try congruence.
  apply string_leb_trans.
Qed.

Lemma keyLt_irrefl a : keyLt a a = false.
Proof.
  unfold keyLt. rewrite Z.ltb_irrefl, Z.eqb_refl, string_ltb_irrefl. reflexivity.
Qed.

Lemma keyLt_asym a b : keyLt a b = true -> keyLt b a = false.
Proof.
  unfold keyLt. destruct a as [d1 i1], b as [d2 i2]; simpl.
  destruct (Z.ltb_spec d1 d2), (Z.ltb_spec d2 d1), (Z.eqb_spec d1 d2),
    (Z.eqb_spec d2 d1); simpl; try lia; try congruence.
  apply string_ltb_asym.
Qed.

Lemma keyLe_strict a b : keyLe a b = true -> snd a <> snd b -> keyLt a b = true.
Proof.
  unfold keyLe, keyLt. destruct a as [d1 i1], b as [d2 i2]; simpl.
  destruct (d1 <? d2); simpl; [reflexivity|].
  destruct (d1 =? d2); simpl; [|discriminate].
  rewrite string_leb_iff. intros [H|H] Hne; congruence.
Qed.

Lemma afterCursor_keyLt date id k :
  afterCursor date (Some id) k = keyLt k (date, id).
Proof. reflexivity. Qed.

(** *** ORDER BY *)

Section OrderBy.
Context {R : Type} (before : R -> R -> bool).
Hypothesis before_total : forall a b, before a b = false -> before b a = true.
Hypothesis before_trans :
  forall a b c, before a b = true -> before b c = true -> before a c = true.

Let ordered (a b : R) : Prop := before a b = true.

Lemma insertRow_sorted x l :
  StronglySorted ordered l -> StronglySorted ordered (insertRow before x l).
Proof.
  induction 1 as [|y tl Hs IH Hall]; simpl.
  - repeat constructor.
  - destruct (before x y) eqn:E.
    + constructor; [now constructor|]. constructor; [exact E|].
      eapply Forall_impl; [|exact Hall]. intros z Hz. eapply before_trans; eassumption.
    + constructor; [exact IH|].
      apply Forall_forall. intros z Hz. apply in_insertRow in Hz as [->|Hz].
      * now apply before_total.
      * rewrite Forall_forall in Hall. now apply Hall.
Qed.

Lemma orderBy_sorted l : StronglySorted ordered (orderBy before l).
Proof.
  induction l as [|x tl IH]; simpl; [constructor|]. now apply insertRow_sorted.
Qed.

Lemma insertRow_front x l :
  Forall (fun y => before x y = true) l -> insertRow before x l = x :: l.
Proof. intros H. destruct H as [|y tl Hy _]; simpl; [reflexivity|]. now rewrite Hy. Qed.

Lemma filter_insertRow (p : R -> bool) x l :
  StronglySorted ordered l ->
  filter p (insertRow before x l)
  = if p x then insertRow before x (filter p l) else filter p l.
Proof.
  induction 1 as [|y tl Hs IH Hall]; simpl.
  - destruct (p x); reflexivity.
  - destruct (before x y) eqn:E; simpl.
    + assert (insertRow before x (filter p (y :: tl)) = x :: filter p (y :: tl))
        as Hfront.
      { apply insertRow_front, Forall_forall. intros z Hz.
        apply filter_In in Hz as [[->|Hz] _]; [exact E|].
        rewrite Forall_forall in Hall. eapply before_trans; [exact E|]. now apply Hall. }
      simpl in Hfront. rewrite Hfront. reflexivity.
    + rewrite IH. destruct (p y) eqn:Py, (p x) eqn:Px; simpl; rewrite ?E; reflexivity.
Qed.

Lemma filter_orderBy (p : R -> bool) l :
  filter p (orderBy before l) = orderBy before (filter p l).
Proof.
  induction l as [|x tl IH]; simpl; [reflexivity|].
  rewrite filter_insertRow by apply orderBy_sorted.
  destruct (p x); simpl; now rewrite IH.
Qed.

End OrderBy.

Lemma insertRow_perm {R : Type} (before : R -> R -> bool) x l :
  Permutation (insertRow before x l) (x :: l).
Proof.
  induction l as [|y tl IH]; simpl; [reflexivity|].
  destruct (before x y); [reflexivity|].
  rewrite IH. apply perm_swap.
Qed.

Lemma orderBy_perm {R : Type} (before : R -> R -> bool) l :
  Permutation (orderBy before l) l.
Proof.
  induction l as [|x tl IH]; simpl; [reflexivity|].
  rewrite insertRow_perm. now constructor.
Qed.

(** *** Cursor text *)

Lemma split_noPipe s : noPipe s = true -> split pipe s = [s].
Proof.
  induction s as [|c rest IH]; simpl; [reflexivity|].
  intros H. apply andb_true_iff in H as [Hc Hrest].
  apply negb_true_iff in Hc. rewrite Hc, (IH Hrest). reflexivity.
Qed.

Lemma split_cursorText toISOString d id :
  noPipe (toISOString d) = true -> noPipe id = true ->
  split pipe (cursorText toISOString d id) = [toISOString d; id].
Proof.
  unfold cursorText. intros Hd Hid.
  induction (toISOString d) as [|c rest IH]; simpl.
  - unfold pipe at 1. simpl. now rewrite split_noPipe.
  - simpl in Hd. apply andb_true_iff in Hd as [Hc Hrest].
    apply negb_true_iff in Hc. rewrite Hc, (IH Hrest). reflexivity.
Qed.

Lemma truthy_cursorText toISOString d id :
  truthy (Some (cursorText toISOString d id))
  = Some (cursorText toISOString d id).
Proof.
  unfold truthy, cursorText. destruct (toISOString d); reflexivity.
Qed.

(** *** Strictly descending lists of rows *)

Section Keyed.
Context {R : Type} (key : R -> Timestamp * string).

Let desc (a b : R) : Prop := descKey key a b = true.
Let sdesc (a b : R) : Prop := keyLt (key b) (key a) = true.

Lemma descKey_total a b : descKey key a b = false -> descKey key b a = true.
Proof. unfold descKey. apply keyLe_total. Qed.

Lemma descKey_trans a b c :
  descKey key a b = true -> descKey key b c = true -> descKey key a c = true.
Proof. unfold descKey. intros H1 H2. eapply keyLe_trans; eassumption. Qed.

Lemma orderBy_desc l : StronglySorted desc (orderBy (descKey key) l).
Proof. apply orderBy_sorted; [apply descKey_total | apply descKey_trans]. Qed.

Lemma where_orderBy (p : R -> bool) l :
  where_ p (orderBy (descKey key) l) = orderBy (descKey key) (where_ p l).
Proof. apply filter_orderBy; [apply descKey_total | apply descKey_trans]. Qed.

Lemma desc_strict l :
  NoDup (map (fun r => snd (key r)) l) ->
  StronglySorted desc l -> StronglySorted sdesc l.
Proof.
  induction 2 as [|x tl Hs IH Hall]; [constructor|].
  inversion H as [|? ? Hnot Hnd]; subst. constructor; [now apply IH|].
  apply Forall_forall. intros y Hy. rewrite Forall_forall in Hall.
  apply keyLe_strict; [now apply Hall|].
  intros Heq. apply Hnot. rewrite <- Heq.
  now apply (in_map (fun r => snd (key r))).
Qed.

Lemma sdesc_app_inv l1 l2 :
  StronglySorted sdesc (l1 ++ l2) ->
  StronglySorted sdesc l2 /\ forall a b, In a l1 -> In b l2 -> sdesc a b.
Proof.
  induction l1 as [|x tl IH]; simpl; intros H.
  - split; [exact H | intros a b []].
  - inversion H as [|? ? Hs Hall]; subst. destruct (IH Hs) as [H2 Hrel].
    split; [exact H2|]. intros a b [->|Ha] Hb.
    + rewrite Forall_forall in Hall. apply Hall, in_or_app. now right.
    + now apply Hrel.
Qed.

(** The rows strictly after a row of a strictly descending list are the
    rows that follow it. *)
Lemma after_row pre x post :
  StronglySorted sdesc (pre ++ x :: post) ->
  filter (fun r => keyLt (key r) (key x)) (pre ++ x :: post) = post.
Proof.
  intros H. destruct (sdesc_app_inv _ _ H) as [Hpost Hrel].
  rewrite filter_app.
  assert (filter (fun r => keyLt (key r) (key x)) pre = []) as ->.
  { clear H Hpost. induction pre as [|y tl IH]; simpl; [reflexivity|].
    rewrite keyLt_asym.
    - apply IH. intros a b Ha Hb. apply Hrel; simpl; auto.
    - apply (Hrel y x); simpl; auto. }
  simpl. rewrite keyLt_irrefl.
  inversion Hpost as [|? ? _ Hall]; subst. clear - Hall.
  induction Hall as [|y tl Hy _ IH]; simpl; [reflexivity|].
  unfold sdesc in Hy. now rewrite Hy, IH.
Qed.

End Keyed.

(** *** Primary keys through the join *)

Lemma match_unique (ds : list Dataset) (x : string) :
  NoDup (map DatasetsTable.id ds) ->
  (List.length (filter (fun d => (DatasetsTable.id d =? x)%string) ds) <= 1)%nat.
Proof.
  induction ds as [|d tl IH]; simpl; intros Hnd; [lia|].
  inversion Hnd as [|? ? Hnot Htl]; subst.
  destruct (String.eqb_spec (DatasetsTable.id d) x) as [<-|Hne]; [|auto].
  assert (filter (fun d0 => (DatasetsTable.id d0 =? DatasetsTable.id d)%string) tl = [])
    as ->; [|simpl; lia].
  clear - Hnot. induction tl as [|e tl IH]; simpl; [reflexivity|].
  destruct (String.eqb_spec (DatasetsTable.id e) (DatasetsTable.id d)) as [Heq|_].
  - exfalso. apply Hnot. simpl. now left.
  - apply IH. intros H. apply Hnot. simpl. now right.
Qed.

Lemma innerJoin_pk {R : Type} (rid fk : R -> string) (rows : list R)
  (ds : list Dataset) :
  NoDup (map rid rows) -> NoDup (map DatasetsTable.id ds) ->
  NoDup (map (fun r => rid (fst r)) (innerJoin rows fk ds)).
Proof.
  intros Hrows Hds. induction rows as [|r tl IH]; simpl; [constructor|].
  inversion Hrows as [|? ? Hnot Htl]; subst.
  rewrite map_app. apply NoDup_app.
  - rewrite map_map. simpl.
    pose proof (match_unique ds (fk r) Hds) as Hone.
    destruct (filter (fun d => (DatasetsTable.id d =? fk r)%string) ds)
      as [|d [|d' rest]]; simpl in *; try lia;
      repeat constructor; simpl; tauto.
  - now apply IH.
  - intros a Ha Hb. rewrite map_map in Ha. simpl in Ha.
    apply in_map_iff in Ha as (d & <- & _).
    apply in_map_iff in Hb as ([r' d'] & Heq & Hin). simpl in Heq.
    apply in_innerJoin in Hin as (Hin & _). apply Hnot.
    rewrite <- Heq. now apply in_map.
Qed.

Section Distinct.
Context {A B : Type} (g : A -> B).

(** A [WHERE] clause keeps a column free of duplicates. *)
Lemma where_distinct (keep : A -> bool) (rows : list A) :
  NoDup (map g rows) -> NoDup (map g (where_ keep rows)).
Proof.
  unfold where_. induction rows as [|r rest IH]; simpl; intros Hd; [constructor|].
  apply NoDup_cons_iff in Hd as [Hfresh Hrest].
  destruct (keep r); simpl; [|now apply IH].
  apply NoDup_cons; [|now apply IH].
  intros Hin. apply Hfresh, in_map_iff.
  apply in_map_iff in Hin as (r' & Heq & Hin).
  exists r'. split; [exact Heq|]. now apply filter_In in Hin.
Qed.

End Distinct.

(* ================================================================== *)
(** ** Shape of a page *)

Lemma effectiveLimit_nonzero (l : option number) :
  Math_min (orDefault l 50) 100 <> 0.
Proof.
  unfold Math_min. destruct l as [[|z]|]; simpl; try lia.
  destruct (Z.eqb_spec z 0); lia.
Qed.

Lemma afterCursor_spec (date : Timestamp) (id : string) (k : Timestamp * string) :
  afterCursor date (Some id) k = true
  <-> fst k < date \/ (fst k = date /\ String.ltb (snd k) id = true).
Proof.
  unfold afterCursor.
  rewrite orb_true_iff, andb_true_iff, Z.ltb_lt, Z.eqb_eq. tauto.
Qed.


(** The statement with a cursor selects, of the rows of the statement
    without one, those the keyset predicate keeps. *)
Lemma jobs_query_with_cursor uuid_in parseDate (T : Tenant)
  (f : JobsService.Filters) (db : Database) (cur : option string)
  (uncut : list (Job * Dataset)) :
  JobsService.findAllQuery uuid_in parseDate T (JobsService.withCursor f None) db
  = Ok uncut ->
  JobsService.findAllQuery uuid_in parseDate T (JobsService.withCursor f cur) db
  = match truthy cur with
    | Some c =>
        let* (t, id) := cursorParams uuid_in parseDate c in
        Ok (filter (fun r => afterCursor t id (JobsService.jobKey (fst r))) uncut)
    | None => Ok uncut
    end.
Proof.
  unfold JobsService.findAllQuery.
  cbn [JobsService.f_cursor JobsService.f_status JobsService.f_datasetId
       JobsService.withCursor].
  change (truthy None) with (@None string).
  destruct (truthy (JobsService.f_datasetId f)) as [d|];
    [destruct (uuidParam uuid_in d) as [u|]; [|discriminate]|];
    cbn [bind]; intros H; injection H as <-;
    (destruct (truthy cur) as [c|]; [|reflexivity]);
    (destruct (cursorParams uuid_in parseDate c) as [[t id]|]; [|reflexivity]);
    cbn [bind];
    rewrite <- (where_orderBy (fun r : Job * Dataset => JobsService.jobKey (fst r)));
    reflexivity.
Qed.

Lemma jobs_query_uncut uuid_in parseDate (T : Tenant)
  (f : JobsService.Filters) (db : Database) (q : list (Job * Dataset)) :
  JobsService.findAllQuery uuid_in parseDate T f db = Ok q ->
  exists uncut,
    JobsService.findAllQuery uuid_in parseDate T (JobsService.withCursor f None) db
    = Ok uncut.
Proof.
  unfold JobsService.findAllQuery.
  cbn [JobsService.f_cursor JobsService.f_status JobsService.f_datasetId
       JobsService.withCursor].
  change (truthy None) with (@None string).
  destruct (truthy (JobsService.f_datasetId f)) as [d|];
    [destruct (uuidParam uuid_in d) as [u|]; [|discriminate]|];
    cbn [bind]; intros _; eexists; reflexivity.
Qed.

Lemma jobs_withCursor_same (f : JobsService.Filters) :
  JobsService.withCursor f (JobsService.f_cursor f) = f.
Proof. now destruct f. Qed.

Lemma items_query_with_cursor uuid_in array_in parseDate (T : Tenant)
  (f : ItemsService.Filters) (db : Database) (cur : option string)
  (uncut : list (Item * Dataset)) :
  ItemsService.findAllQuery uuid_in array_in parseDate T
    (ItemsService.withCursor f None) db = Ok uncut ->
  ItemsService.findAllQuery uuid_in array_in parseDate T
    (ItemsService.withCursor f cur) db
  = match truthy cur with
    | Some c =>
        let* (t, id) := cursorParams uuid_in parseDate c in
        Ok (filter (fun r => afterCursor t id (ItemsService.itemKey (fst r))) uncut)
    | None => Ok uncut
    end.
Proof.
  unfold ItemsService.findAllQuery.
  change (ItemsService.applyFilters uuid_in array_in parseDate
            (ItemsService.withCursor f ?c) ?q)
    with (ItemsService.applyFilters uuid_in array_in parseDate f q).
  cbn [ItemsService.f_cursor ItemsService.withCursor].
  change (truthy None) with (@None string).
  destruct (ItemsService.applyFilters uuid_in array_in parseDate f _) as [q0|];
    [|discriminate].
  cbn [bind]. intros H; injection H as <-.
  destruct (truthy cur) as [c|]; [|reflexivity].
  destruct (cursorParams uuid_in parseDate c) as [[t id]|]; [|reflexivity].
  cbn [bind].
  rewrite <- (where_orderBy (fun r : Item * Dataset => ItemsService.itemKey (fst r))).
  reflexivity.
Qed.

Lemma items_query_uncut uuid_in array_in parseDate (T : Tenant)
  (f : ItemsService.Filters) (db : Database) (q : list (Item * Dataset)) :
  ItemsService.findAllQuery uuid_in array_in parseDate T f db = Ok q ->
  exists uncut,
    ItemsService.findAllQuery uuid_in array_in parseDate T
      (ItemsService.withCursor f None) db = Ok uncut.
Proof.
  unfold ItemsService.findAllQuery.
  change (ItemsService.applyFilters uuid_in array_in parseDate
            (ItemsService.withCursor f ?c) ?q)
    with (ItemsService.applyFilters uuid_in array_in parseDate f q).
  cbn [ItemsService.f_cursor ItemsService.withCursor].
  change (truthy None) with (@None string).
  destruct (ItemsService.applyFilters uuid_in array_in parseDate f _) as [q0|];
    [|discriminate].
  cbn [bind]. intros _. eexists. reflexivity.
Qed.

Lemma items_withCursor_same (f : ItemsService.Filters) :
  ItemsService.withCursor f (ItemsService.f_cursor f) = f.
Proof. now destruct f. Qed.

(** A cursor of two parts, as the statement binds it. *)
Lemma cursorParams_two uuid_in parseDate (cursor c1text c2text : string)
  (rest : list string) (c1 : Date) (c2 : string) :
  split pipe cursor = c1text :: c2text :: rest ->
  parseDate c1text = Some c1 -> uuid_in c2text = Some c2 ->
  cursorParams uuid_in parseDate cursor = Ok (toTimestamp c1, Some c2).
Proof.
  intros Hs Hd Hu. unfold cursorParams, newDate, uuidParam. rewrite Hs.
  cbn [nth nth_error]. rewrite Hd. cbn [bind]. rewrite Hu. reflexivity.
Qed.

(** What the post-processing of a list endpoint makes of the fetched
    rows, for a page size [n >= 1]. *)
Lemma page_of_fetched {R : Type} (rows : list R) (n : Z) :
  1 <= n -> Z.of_nat (List.length rows) <= n + 1 ->
  (Z.of_nat (List.length rows) = n + 1 ->
     (n <? Z.of_nat (List.length rows)) = true
     /\ pop rows = firstn (Z.to_nat n) rows
     /\ exists last, at_ rows (n - 1) = Some last
                     /\ nth_error rows (Z.to_nat (n - 1)) = Some last)
  /\ (Z.of_nat (List.length rows) <= n ->
      (n <? Z.of_nat (List.length rows)) = false).
Proof.
  intros Hn Hlen. split.
  - intros Heq. split; [apply Z.ltb_lt; lia|]. split.
    + apply pop_firstn. lia.
    + unfold at_. destruct (Z.ltb_spec (n - 1) 0); [lia|].
      destruct (nth_error rows (Z.to_nat (n - 1))) as [x|] eqn:E; [eauto|].
      apply nth_error_None in E. lia.
  - intros Hle. apply Z.ltb_ge. lia.
Qed.

(** C6 - for the list endpoints of jobs and items with effective page
    size [n]: the statement fetches at most [n + 1] rows; when exactly
    [n + 1] rows come back the page is the first [n] of them and the next
    cursor is the text ["<primary>|<id>"] of the [n]-th row's sort key
    (when fewer come back the page is all of them and there is no next
    cursor); and with a cursor [(c1, c2)] the rows fetched are the first
    [n + 1] of those rows of the statement without the cursor whose
    stored sort key has [primary < c1], or [primary = c1] and
    [id < c2] - these rows, all of them and no other. *)
Theorem keyset_page_shape :
  forall (uuid_in : string -> option string)
         (array_in : string -> option (list (option string)))
         (toISOString : Date -> string) (parseDate : string -> option Date)
         (T : Tenant) (db : Database)
         (fj : JobsService.Filters) (fi : ItemsService.Filters),
    (forall rows n,
       JobsService.fetched uuid_in parseDate T fj db = Ok rows ->
       n = JobsService.effectiveLimit fj -> 0 <= n ->
       Z.of_nat (List.length rows) <= n + 1
       /\ (Z.of_nat (List.length rows) = n + 1 ->
           exists last,
             nth_error rows (Z.to_nat (n - 1)) = Some last
             /\ JobsService.findAll uuid_in toISOString parseDate T fj db
                = Ok (firstn (Z.to_nat n) rows,
                      Some (toISOString (toDate (JobsTable.created_at last))
                            ++ "|" ++ JobsTable.id last)%string))
       /\ (Z.of_nat (List.length rows) <= n ->
           JobsService.findAll uuid_in toISOString parseDate T fj db
           = Ok (rows, None))
       /\ (forall cursor c1text c2text rest c1 c2,
             truthy (JobsService.f_cursor fj) = Some cursor ->
             split pipe cursor = c1text :: c2text :: rest ->
             parseDate c1text = Some c1 -> uuid_in c2text = Some c2 ->
             exists uncut,
               JobsService.findAllQuery uuid_in parseDate T
                 (JobsService.withCursor fj None) db = Ok uncut
               /\ rows
                  = map (fun r => JobsTable.selected (fst r))
                      (firstn (Z.to_nat (n + 1))
                         (filter
                            (fun r =>
                               (JobsTable.created_at (fst r) <? toTimestamp c1)
                               || ((JobsTable.created_at (fst r) =? toTimestamp c1)
                                   && String.ltb (JobsTable.id (fst r)) c2))
                            uncut))))
    /\ (forall rows n,
          ItemsService.fetched uuid_in array_in parseDate T fi db = Ok rows ->
          n = ItemsService.effectiveLimit fi -> 0 <= n ->
          Z.of_nat (List.length rows) <= n + 1
          /\ (Z.of_nat (List.length rows) = n + 1 ->
              exists last,
                nth_error rows (Z.to_nat (n - 1)) = Some last
                /\ ItemsService.findAll uuid_in array_in toISOString parseDate T fi db
                   = Ok (firstn (Z.to_nat n) rows,
                         Some (toISOString (toDate (ItemsTable.observed_at last))
                               ++ "|" ++ ItemsTable.id last)%string))
          /\ (Z.of_nat (List.length rows) <= n ->
              ItemsService.findAll uuid_in array_in toISOString parseDate T fi db
              = Ok (rows, None))
          /\ (forall cursor c1text c2text rest c1 c2,
                truthy (ItemsService.f_cursor fi) = Some cursor ->
                split pipe cursor = c1text :: c2text :: rest ->
                parseDate c1text = Some c1 -> uuid_in c2text = Some c2 ->
                exists uncut,
                  ItemsService.findAllQuery uuid_in array_in parseDate T
                    (ItemsService.withCursor fi None) db = Ok uncut
                  /\ rows
                     = map (fun r => ItemsTable.selected (fst r))
                         (firstn (Z.to_nat (n + 1))
                            (filter
                               (fun r =>
                                  (ItemsTable.observed_at (fst r) <? toTimestamp c1)
                                  || ((ItemsTable.observed_at (fst r) =? toTimestamp c1)
                                      && String.ltb (ItemsTable.id (fst r)) c2))
                               uncut)))).
Proof.
  intros uuid_in array_in toISOString parseDate T db fj fi. split.
  - intros rows n Hf -> Hn.
    assert (1 <= JobsService.effectiveLimit fj) as Hn1.
    { pose proof (effectiveLimit_nonzero (JobsService.f_limit fj)).
      unfold JobsService.effectiveLimit in *. lia. }
    pose proof Hf as Hf'.
    apply jobs_fetched_unfold in Hf' as (q & Hq & _ & Hrows).
    assert (Z.of_nat (List.length rows) <= JobsService.effectiveLimit fj + 1) as Hlen.
    { rewrite Hrows, length_map.
      pose proof (firstn_le_length (Z.to_nat (JobsService.effectiveLimit fj + 1)) q).
      unfold Job, Item, Dataset in *. lia. }
    destruct (page_of_fetched rows _ Hn1 Hlen) as [Hfull Hshort].
    split; [exact Hlen|]. split; [|split].
    + intros Heq. destruct (Hfull Heq) as (Hlt & Hpop & last & Hat & Hnth).
      exists last. split; [exact Hnth|].
      unfold JobsService.findAll. rewrite Hf. cbn [bind]. rewrite Hlt, Hat, Hpop.
      reflexivity.
    + intros Hle. unfold JobsService.findAll. rewrite Hf. cbn [bind].
      now rewrite (Hshort Hle).
    + intros cursor c1text c2text rest c1 c2 Hc Hsplit Hparse Hid.
      destruct (jobs_query_uncut _ _ _ _ _ _ Hq) as [uncut Hun].
      exists uncut. split; [exact Hun|]. rewrite Hrows. do 2 f_equal.
      pose proof (jobs_query_with_cursor _ _ _ _ _ (JobsService.f_cursor fj) _ Hun)
        as Hcut.
      rewrite jobs_withCursor_same, Hq, Hc in Hcut.
      rewrite (cursorParams_two _ _ _ _ _ _ _ _ Hsplit Hparse Hid) in Hcut.
      cbn [bind] in Hcut. now injection Hcut as ->.
  - intros rows n Hf -> Hn.
    assert (1 <= ItemsService.effectiveLimit fi) as Hn1.
    { pose proof (effectiveLimit_nonzero (ItemsService.f_limit fi)).
      unfold ItemsService.effectiveLimit in *. lia. }
    pose proof Hf as Hf'.
    apply items_fetched_unfold in Hf' as (q & Hq & _ & Hrows).
    assert (Z.of_nat (List.length rows) <= ItemsService.effectiveLimit fi + 1) as Hlen.
    { rewrite Hrows, length_map.
      pose proof (firstn_le_length (Z.to_nat (ItemsService.effectiveLimit fi + 1)) q).
      unfold Job, Item, Dataset in *. lia. }
    destruct (page_of_fetched rows _ Hn1 Hlen) as [Hfull Hshort].
    split; [exact Hlen|]. split; [|split].
    + intros Heq. destruct (Hfull Heq) as (Hlt & Hpop & last & Hat & Hnth).
      exists last. split; [exact Hnth|].
      unfold ItemsService.findAll. rewrite Hf. cbn [bind]. rewrite Hlt, Hat, Hpop.
      reflexivity.
    + intros Hle. unfold ItemsService.findAll. rewrite Hf. cbn [bind].
      now rewrite (Hshort Hle).
    + intros cursor c1text c2text rest c1 c2 Hc Hsplit Hparse Hid.
      destruct (items_query_uncut _ _ _ _ _ _ _ Hq) as [uncut Hun].
      exists uncut. split; [exact Hun|]. rewrite Hrows. do 2 f_equal.
      pose proof (items_query_with_cursor _ _ _ _ _ _ (ItemsService.f_cursor fi) _ Hun)
        as Hcut.
      rewrite items_withCursor_same, Hq, Hc in Hcut.
      rewrite (cursorParams_two _ _ _ _ _ _ _ _ Hsplit Hparse Hid) in Hcut.
      cbn [bind] in Hcut. now injection Hcut as ->.
Qed.

Lemma keyset_page_shape_witness :
  JobsService.findAll Sample.uuid_in Sample.toISOString Sample.parseDate
    Sample.tenantA (Sample.jobFilters (Some (Num 2)) None) Sample.db
  = Ok ([Sample.jobShared3; Sample.jobShared2],
        Some "2024-01-01T00:01:00.000Z|70000000-0000-4000-8000-000000000002")
  /\ (exists uncut,
        JobsService.findAllQuery Sample.uuid_in Sample.parseDate Sample.tenantA
          (Sample.jobFilters (Some (Num 2)) None) Sample.db = Ok uncut
        /\ [Sample.jobShared1]
           = map (fun r => JobsTable.selected (fst r))
               (firstn 3
                  (filter
                     (fun r =>
                        (JobsTable.created_at (fst r) <? Sample.t1)
                        || ((JobsTable.created_at (fst r) =? Sample.t1)
                            && String.ltb (JobsTable.id (fst r))
                                 "70000000-0000-4000-8000-000000000002"))
                     uncut))).
Proof.
  destruct (keyset_page_shape Sample.uuid_in Sample.array_in Sample.toISOString
              Sample.parseDate Sample.tenantA
              Sample.db (Sample.jobFilters (Some (Num 2)) None)
              (Sample.itemFilters None None)) as [Hj _].
  destruct (keyset_page_shape Sample.uuid_in Sample.array_in Sample.toISOString
              Sample.parseDate Sample.tenantA Sample.db
              (Sample.jobFilters (Some (Num 2))
                 (Some "2024-01-01T00:01:00.000Z|70000000-0000-4000-8000-000000000002"))
              (Sample.itemFilters None None)) as [Hc _].
  split.
  - destruct (Hj [Sample.jobShared3; Sample.jobShared2; Sample.jobShared1] 2)
      as (_ & Hfull & _); [reflexivity | reflexivity | lia |].
    destruct Hfull as (last & Hnth & Hpage); [reflexivity|].
    injection Hnth as <-. exact Hpage.
  - destruct (Hc [Sample.jobShared1] 2) as (_ & _ & _ & Hcut);
      [reflexivity | reflexivity | lia |].
    exact (Hcut _ "2024-01-01T00:01:00.000Z" "70000000-0000-4000-8000-000000000002"
             [] Sample.d1 "70000000-0000-4000-8000-000000000002"
             eq_refl eq_refl eq_refl eq_refl).
Defined.

(* ================================================================== *)
(** ** The claim protocol under interleaving *)

Example race_has_one_winner_per_job :
  let c := Worker.run Sample.race (Worker.initial Sample.raceJobs) in
  Worker.pollers c 0%nat = Worker.Claimed (JobsTable.id Sample.jobShared1)
  /\ Worker.pollers c 1%nat = Worker.Claimed (JobsTable.id Sample.jobShared2)
  /\ map Worker.a_rows (Worker.log c) = [1%nat; 0%nat; 1%nat]
  /\ map JobsTable.status (Worker.store c) = [RUNNING; RUNNING].
Proof. repeat split. Qed.

Lemma isQueued_markRunning now j : Worker.isQueued (Worker.markRunning now j) = false.
Proof. reflexivity. Qed.

Lemma claimUpdate_store cand now js :
  fst (Worker.claimUpdate cand now js)
  = map (fun j => if (JobsTable.id j =? cand)%string && Worker.isQueued j
                  then Worker.markRunning now j else j) js.
Proof. reflexivity. Qed.

Lemma claimUpdate_rows cand now js :
  snd (Worker.claimUpdate cand now js)
  = List.length (filter (fun j => (JobsTable.id j =? cand)%string && Worker.isQueued j) js).
Proof. reflexivity. Qed.

(** The update never puts a row back in the queue. *)
Lemma noQueuedRow_claimUpdate job cand now js :
  Worker.noQueuedRow job js ->
  Worker.noQueuedRow job (fst (Worker.claimUpdate cand now js)).
Proof.
  intros H j Hin Hid. rewrite claimUpdate_store in Hin.
  apply in_map_iff in Hin as (j0 & Hj & Hin0).
  destruct (_ && _); subst j; [reflexivity|]. now apply H.
Qed.

(** After the update no row of the candidate is queued. *)
Lemma noQueuedRow_candidate cand now js :
  Worker.noQueuedRow cand (fst (Worker.claimUpdate cand now js)).
Proof.
  intros j Hin Hid. rewrite claimUpdate_store in Hin.
  apply in_map_iff in Hin as (j0 & Hj & Hin0).
  destruct ((JobsTable.id j0 =? cand)%string && Worker.isQueued j0) eqn:E;
    subst j; [reflexivity|].
  apply andb_false_iff in E as [E|E]; [|exact E].
  apply String.eqb_neq in E. contradiction.
Qed.

Lemma runningRow_claimUpdate job cand now js :
  Worker.runningRow job js ->
  Worker.runningRow job (fst (Worker.claimUpdate cand now js)).
Proof.
  intros (j & Hin & Hid & Hs & Hst). exists j. repeat split; try assumption.
  rewrite claimUpdate_store. apply in_map_iff. exists j. split; [|assumption].
  unfold Worker.isQueued. rewrite Hs, andb_false_r. reflexivity.
Qed.

(** A positive row count means a queued row of the candidate was there
    and is RUNNING afterwards. *)
Lemma claimUpdate_hit cand now js :
  (0 < snd (Worker.claimUpdate cand now js))%nat ->
  ~ Worker.noQueuedRow cand js
  /\ Worker.runningRow cand (fst (Worker.claimUpdate cand now js)).
Proof.
  rewrite claimUpdate_rows. intros Hpos.
  set (hit := fun j => (JobsTable.id j =? cand)%string && Worker.isQueued j) in *.
  destruct (filter hit js) as [|j tl] eqn:E; [simpl in Hpos; lia|].
  assert (In j (filter hit js)) as Hj by (rewrite E; now left).
  apply filter_In in Hj as [Hin Hhit].
  apply andb_true_iff in Hhit as [Hid Hq]. apply String.eqb_eq in Hid.
  split.
  - intros Hno. rewrite (Hno j Hin Hid) in Hq. discriminate.
  - exists (Worker.markRunning now j). repeat split; try assumption.
    + rewrite claimUpdate_store. apply in_map_iff. exists j.
      split; [|assumption]. rewrite Hq.
      apply String.eqb_eq in Hid. now rewrite Hid.
    + simpl. discriminate.
Qed.

Lemma successes_app job l1 l2 :
  Worker.successes job (l1 ++ l2) = (Worker.successes job l1 ++ Worker.successes job l2)%list.
Proof. apply filter_app. Qed.

Lemma setPoller_same ps p s : Worker.setPoller ps p s p = s.
Proof. unfold Worker.setPoller. now rewrite Nat.eqb_refl. Qed.

Lemma setPoller_claimed ps p s q job :
  (forall job', s <> Worker.Claimed job') ->
  Worker.setPoller ps p s q = Worker.Claimed job ->
  q <> p /\ ps q = Worker.Claimed job.
Proof.
  unfold Worker.setPoller. intros Hs.
  destruct (Nat.eqb_spec q p) as [->|Hne]; intros H.
  - destruct (Hs _ H).
  - auto.
Qed.

Lemma setPoller_other ps p s q : q <> p -> Worker.setPoller ps p s q = ps q.
Proof. unfold Worker.setPoller. intros H. apply Nat.eqb_neq in H. now rewrite H. Qed.

Lemma inv_initial js : Worker.Inv (Worker.initial js).
Proof.
  constructor; simpl; try discriminate; try tauto. intros; lia.
Qed.

(** A poller that only changes between unclaimed states, with store and
    log untouched, keeps the invariant. *)
Lemma inv_unclaimed_move c p s :
  Worker.Inv c ->
  (forall job, Worker.pollers c p <> Worker.Claimed job) ->
  (forall job, s <> Worker.Claimed job) ->
  Worker.Inv {| Worker.store := Worker.store c;
                Worker.pollers := Worker.setPoller (Worker.pollers c) p s;
                Worker.log := Worker.log c |}.
Proof.
  intros [I1 I2 I3 I4 I5] Hp Hs. constructor; simpl.
  - intros q job H. apply (setPoller_claimed _ _ _ _ _ Hs) in H as [_ H]. eauto.
  - intros q job H. apply (setPoller_claimed _ _ _ _ _ Hs) in H as [_ H]. eauto.
  - intros a Hin Hpos. pose proof (I3 a Hin Hpos) as H.
    rewrite setPoller_other; [exact H|].
    intros Heq. rewrite Heq in H. exact (Hp _ H).
  - intros q job H. apply (setPoller_claimed _ _ _ _ _ Hs) in H as [_ H]. eauto.
  - exact I5.
Qed.

Lemma successes_nil_of_queued c job :
  Worker.Inv c -> ~ Worker.noQueuedRow job (Worker.store c) ->
  Worker.successes job (Worker.log c) = [].
Proof.
  intros I Hq. destruct (Worker.successes job (Worker.log c)) as [|a tl] eqn:E;
    [reflexivity|].
  exfalso. apply Hq.
  assert (In a (Worker.successes job (Worker.log c))) as Ha by (rewrite E; now left).
  apply filter_In in Ha as [Hin Hc]. apply andb_true_iff in Hc as [Hj Hr].
  apply String.eqb_eq in Hj. apply Nat.ltb_lt in Hr. subst job.
  exact (Worker.inv_taken _ I _ _ (Worker.inv_owner _ I _ Hin Hr)).
Qed.

Lemma inv_step p now c : Worker.Inv c -> Worker.Inv (Worker.step p now c).
Proof.
  intros I. unfold Worker.step.
  destruct (Worker.pollers c p) as [|cand|job0|] eqn:Ep; try exact I.
  - destruct (Worker.selectCandidate (Worker.store c));
      apply inv_unclaimed_move; try assumption; try discriminate;
      rewrite Ep; discriminate.
  - pose proof (claimUpdate_store cand now (Worker.store c)) as Hst.
    pose proof (claimUpdate_rows cand now (Worker.store c)) as Hrw.
    pose proof (claimUpdate_hit cand now (Worker.store c)) as Hhit.
    pose proof (noQueuedRow_candidate cand now (Worker.store c)) as Hcand.
    pose proof (fun job => noQueuedRow_claimUpdate job cand now (Worker.store c)) as Hkeep.
    pose proof (fun job => runningRow_claimUpdate job cand now (Worker.store c)) as Hrun.
    destruct (Worker.claimUpdate cand now (Worker.store c)) as [js rows].
    simpl in Hst, Hrw, Hhit, Hcand, Hkeep, Hrun. clear Hst Hrw.
    assert (forall a, In a (Worker.log c) -> (0 < Worker.a_rows a)%nat ->
                      Worker.a_poller a <> p) as Hold.
    { intros a Hin Hpos Heq. pose proof (Worker.inv_owner _ I _ Hin Hpos) as H.
      rewrite Heq, Ep in H. discriminate. }
    destruct (Nat.ltb_spec 0 rows) as [Hpos|Hzero].
    + destruct (Hhit Hpos) as [Hwas Hnow]. constructor; simpl.
      * intros q job H. destruct (Nat.eq_dec q p) as [->|Hne].
        -- rewrite setPoller_same in H. injection H as <-. exact Hcand.
        -- rewrite setPoller_other in H by assumption.
           apply Hkeep. exact (Worker.inv_taken _ I _ _ H).
      * intros q job H. destruct (Nat.eq_dec q p) as [->|Hne].
        -- rewrite setPoller_same in H. injection H as <-. exact Hnow.
        -- rewrite setPoller_other in H by assumption.
           apply Hrun. exact (Worker.inv_running _ I _ _ H).
      * intros a Hin Ha. apply in_app_or in Hin as [Hin|[<-|[]]].
        -- rewrite setPoller_other by (now apply Hold).
           exact (Worker.inv_owner _ I _ Hin Ha).
        -- simpl. apply setPoller_same.
      * intros q job H. destruct (Nat.eq_dec q p) as [->|Hne].
        -- rewrite setPoller_same in H. injection H as <-.
           eexists. split; [apply in_or_app; right; now left|]. simpl. auto.
        -- rewrite setPoller_other in H by assumption.
           destruct (Worker.inv_logged _ I _ _ H) as (a & Hin & Ha).
           exists a. split; [apply in_or_app; now left | exact Ha].
      * intros job. rewrite successes_app, length_app. simpl.
        destruct (String.eqb_spec cand job) as [<-|Hne]; simpl.
        -- rewrite (successes_nil_of_queued _ _ I Hwas).
           destruct (0 <? rows)%nat; simpl; lia.
        -- pose proof (Worker.inv_once _ I job). simpl. lia.
    + assert (rows = 0%nat) as -> by lia. constructor; simpl.
      * intros q job H.
        apply setPoller_claimed in H as [_ H]; [|discriminate].
        apply Hkeep. exact (Worker.inv_taken _ I _ _ H).
      * intros q job H.
        apply setPoller_claimed in H as [_ H]; [|discriminate].
        apply Hrun. exact (Worker.inv_running _ I _ _ H).
      * intros a Hin Ha. apply in_app_or in Hin as [Hin|[<-|[]]].
        -- rewrite setPoller_other by (now apply Hold).
           exact (Worker.inv_owner _ I _ Hin Ha).
        -- simpl in Ha. lia.
      * intros q job H.
        apply setPoller_claimed in H as [_ H]; [|discriminate].
        destruct (Worker.inv_logged _ I _ _ H) as (a & Hin & Ha).
        exists a. split; [apply in_or_app; now left | exact Ha].
      * intros job. rewrite successes_app, length_app. simpl.
        rewrite andb_false_r. simpl. pose proof (Worker.inv_once _ I job). lia.
Qed.

Lemma inv_run schedule c : Worker.Inv c -> Worker.Inv (Worker.run schedule c).
Proof.
  revert c. induction schedule as [|[p now] rest IH]; intros c I; simpl.
  - exact I.
  - apply IH, inv_step, I.
Qed.

(** C2 - for every job id [J] and every interleaving of any number of
    concurrent claim operations over a job store, at most one claim
    observes success for [J]: the winner's attempt is the only one on [J]
    with a row affected, the row is RUNNING with [started_at] set, every
    other attempt on [J] observes zero rows affected, and every other
    claim is still looking, has claimed a different job, or reports no
    work. *)
Theorem claim_is_exclusive :
  forall (js : list Job) (schedule : list (nat * Timestamp)) (J : string),
    let c := Worker.run schedule (Worker.initial js) in
    (List.length (Worker.successes J (Worker.log c)) <= 1)%nat
    /\ (forall p q, Worker.pollers c p = Worker.Claimed J ->
                    Worker.pollers c q = Worker.Claimed J -> p = q)
    /\ (forall a, In a (Worker.log c) -> Worker.a_job a = J ->
                  (0 < Worker.a_rows a)%nat ->
                  Worker.pollers c (Worker.a_poller a) = Worker.Claimed J)
    /\ (forall p, Worker.pollers c p = Worker.Claimed J ->
          Worker.runningRow J (Worker.store c)
          /\ Worker.noQueuedRow J (Worker.store c)
          /\ (exists a, In a (Worker.log c) /\ Worker.a_poller a = p
                        /\ Worker.a_job a = J /\ (0 < Worker.a_rows a)%nat)
          /\ (forall a, In a (Worker.log c) -> Worker.a_job a = J ->
                        Worker.a_poller a <> p -> Worker.a_rows a = 0%nat)
          /\ (forall q, q <> p ->
                Worker.pollers c q = Worker.Idle
                \/ (exists cand, Worker.pollers c q = Worker.Selected cand)
                \/ (exists J', Worker.pollers c q = Worker.Claimed J' /\ J' <> J)
                \/ Worker.pollers c q = Worker.NoWork)).
Proof.
  intros js schedule J c.
  assert (Worker.Inv c) as I by apply inv_run, inv_initial.
  assert (forall p q, Worker.pollers c p = Worker.Claimed J ->
                      Worker.pollers c q = Worker.Claimed J -> p = q) as Huniq.
  { intros p q Hp Hq.
    destruct (Worker.inv_logged _ I _ _ Hp) as (a & Ha & Hap & Haj & Har).
    destruct (Worker.inv_logged _ I _ _ Hq) as (b & Hb & Hbp & Hbj & Hbr).
    assert (forall x, In x (Worker.log c) -> Worker.a_job x = J ->
                      (0 < Worker.a_rows x)%nat ->
                      In x (Worker.successes J (Worker.log c))) as Hs.
    { intros x Hx Hj Hr. apply filter_In. split; [assumption|].
      apply andb_true_iff. split; [now apply String.eqb_eq | now apply Nat.ltb_lt]. }
    pose proof (Hs a Ha Haj Har) as Ha'. pose proof (Hs b Hb Hbj Hbr) as Hb'.
    pose proof (Worker.inv_once _ I J) as Hone.
    destruct (Worker.successes J (Worker.log c)) as [|x [|y tl]];
      simpl in *; try tauto; try lia.
    destruct Ha' as [<-|[]]. destruct Hb' as [<-|[]]. congruence. }
  split; [apply (Worker.inv_once _ I)|].
  split; [exact Huniq|].
  split.
  { intros a Hin <- Hpos. exact (Worker.inv_owner _ I _ Hin Hpos). }
  intros p Hp.
  split; [exact (Worker.inv_running _ I _ _ Hp)|].
  split; [exact (Worker.inv_taken _ I _ _ Hp)|].
  split; [exact (Worker.inv_logged _ I _ _ Hp)|].
  split.
  - intros a Hin Hj Hne.
    destruct (Worker.a_rows a) as [|n] eqn:Er; [reflexivity|].
    exfalso. apply Hne. apply (Huniq _ _ ) ; [|exact Hp].
    rewrite <- Hj. apply (Worker.inv_owner _ I _ Hin). lia.
  - intros q Hne. destruct (Worker.pollers c q) as [|cand|J'|] eqn:Eq; auto.
    + right. left. eauto.
    + right. right. left. exists J'. split; [reflexivity|].
      intros ->. apply Hne. now apply Huniq.
Qed.


(* ================================================================== *)
(** ** Full traversal with cursors *)

Example traverse_sample_items :
  ItemsService.fetchAllPages Sample.uuid_in Sample.array_in Sample.toISOString
    Sample.parseDate 5 Sample.tenantA
    (Sample.itemFilters (Some (Num 2)) None) None Sample.db
  = Some [[Sample.itemShared3; Sample.itemShared2]; [Sample.itemShared1]].
Proof. reflexivity. Qed.

(** *** Subsequences *)

Lemma Subsequence_refl {A : Type} (l : list A) : Subsequence l l.
Proof. induction l; constructor; assumption. Qed.

Lemma Subsequence_after {A : Type} (pre l1 l2 : list A) :
  Subsequence l1 l2 -> Subsequence l1 (pre ++ l2).
Proof. intros H. induction pre; simpl; [assumption | now constructor]. Qed.

Lemma Subsequence_app {A : Type} (l l1 l2 : list A) :
  Subsequence l1 l2 -> Subsequence (l ++ l1) (l ++ l2).
Proof. intros H. induction l; simpl; [assumption | now constructor]. Qed.

Lemma Subsequence_in {A : Type} (l1 l2 : list A) (x : A) :
  Subsequence l1 l2 -> In x l1 -> In x l2.
Proof.
  induction 1 as [|y l1 l2 _ IH|y l1 l2 _ IH]; simpl; [tauto| |]; intuition.
Qed.

Lemma Subsequence_length {A : Type} (l1 l2 : list A) :
  Subsequence l1 l2 -> (List.length l1 <= List.length l2)%nat.
Proof. induction 1; simpl; lia. Qed.

(** A subsequence as long as the whole is the whole. *)
Lemma Subsequence_all {A : Type} (l1 l2 : list A) :
  Subsequence l1 l2 -> List.length l1 = List.length l2 -> l1 = l2.
Proof.
  induction 1 as [|y l1 l2 H IH|y l1 l2 H IH]; simpl; intros Hlen.
  - reflexivity.
  - apply Subsequence_length in H. lia.
  - f_equal. apply IH. lia.
Qed.

(** *** Rows below a bound *)

Lemma keyLt_trans a b c : keyLt a b = true -> keyLt b c = true -> keyLt a c = true.
Proof.
  unfold keyLt. destruct a as [d1 i1], b as [d2 i2], c as [d3 i3]; simpl.
  destruct (Z.ltb_spec d1 d2), (Z.ltb_spec d2 d3), (Z.ltb_spec d1 d3),
    (Z.eqb_spec d1 d2), (Z.eqb_spec d2 d3), (Z.eqb_spec d1 d3);
    simpl; try lia; try congruence.
  apply string_ltb_trans.
Qed.

(** A key below the cursor made of a row is below the key of the row:
    the cursor carries the row's timestamp as read. *)
Lemma keyLt_asRead (a : Timestamp * string) (t : Timestamp) (i : string) :
  keyLt a (asRead t, i) = true -> keyLt a (t, i) = true.
Proof.
  unfold keyLt. destruct a as [d1 i1]; simpl. pose proof (asRead_le t).
  destruct (Z.ltb_spec d1 (asRead t)), (Z.ltb_spec d1 t),
    (Z.eqb_spec d1 (asRead t)), (Z.eqb_spec d1 t); simpl; try lia; congruence.
Qed.

(** *** Counting pages *)

Lemma ceilDiv_last (c n : Z) :
  1 <= n -> 0 <= c <= n -> Z.max 1 (ItemsService.ceilDiv c n) = 1.
Proof.
  intros Hn Hc. unfold ItemsService.ceilDiv.
  assert ((c + n - 1) / n < 2) by (apply Z.div_lt_upper_bound; lia). lia.
Qed.

Lemma ceilDiv_more (c n : Z) :
  1 <= n -> n < c ->
  Z.max 1 (ItemsService.ceilDiv c n)
  = 1 + Z.max 1 (ItemsService.ceilDiv (c - n) n).
Proof.
  intros Hn Hc. unfold ItemsService.ceilDiv.
  replace (c + n - 1) with (c - n + n - 1 + 1 * n) by lia.
  rewrite Z.div_add by lia.
  assert (1 <= (c - n + n - 1) / n) by (apply Z.div_le_lower_bound; lia). lia.
Qed.

Lemma StronglySorted_map {A B : Type} (g : A -> B) (rel : B -> B -> Prop) l :
  StronglySorted (fun a b => rel (g a) (g b)) l -> StronglySorted rel (map g l).
Proof.
  induction 1 as [|x tl Hs IH Hall]; simpl; constructor; [exact IH|].
  apply Forall_forall. intros y Hy. apply in_map_iff in Hy as (z & <- & Hz).
  rewrite Forall_forall in Hall. now apply Hall.
Qed.


(** *** Following cursors over a keyed statement *)

Section Keyset.
Context {R A : Type}.
Variable key : R -> Timestamp * string.
Variable read : R -> A.
Variable text : R -> string.
Variable call : option string -> Result (list A * option string).
Variable L : list R.
Variable k : nat.

Let sdesc (a b : R) : Prop := keyLt (key b) (key a) = true.

(** The key a cursor made of [x] stands for, and the rows below a key. *)
Let cut (x : R) : Timestamp * string := (asRead (fst (key x)), snd (key x)).
Let below (b : Timestamp * string) (l : list R) : list R :=
  filter (fun r => keyLt (key r) b) l.

(** What a call answers when its statement selects [S]. *)
Let answer (S : list R) : Result (list A * option string) :=
  if (k <? List.length S)%nat then
    match nth_error S (k - 1) with
    | Some x => Ok (map read (firstn k S), Some (text x))
    | None => Err TypeError
    end
  else Ok (map read S, None).

Hypothesis Hk : (1 <= k)%nat.
Hypothesis Hstrict : StronglySorted sdesc L.
Hypothesis Hfirst : call None = answer L.
Hypothesis Hnext :
  forall x, In x L -> call (Some (text x)) = answer (below (cut x) L).

Lemma below_all b l :
  Forall (fun r => keyLt (key r) b = true) l -> below b l = l.
Proof.
  unfold below. induction 1 as [|x tl Hx _ IH]; simpl; [reflexivity|].
  now rewrite Hx, IH.
Qed.

(** The rows below a bound are the tail of a descending list. *)
Lemma below_tail b l :
  StronglySorted sdesc l -> exists pre, l = (pre ++ below b l)%list.
Proof.
  induction 1 as [|x tl Hs IH Hall].
  - now exists [].
  - unfold below. simpl. destruct (keyLt (key x) b) eqn:E.
    + exists []. simpl. f_equal. symmetry. apply below_all.
      eapply Forall_impl; [|exact Hall]. intros y Hy.
      eapply keyLt_trans; [exact Hy | exact E].
    + destruct IH as [pre Hpre]. exists (x :: pre). simpl. now f_equal.
Qed.

Lemma cut_below_key a x : keyLt a (cut x) = true -> keyLt a (key x) = true.
Proof.
  unfold cut. intros H. apply keyLt_asRead in H.
  now destruct (key x).
Qed.

(** The rows a cursor made of [x] selects come after [x]. *)
Lemma below_cut pre x post :
  StronglySorted sdesc (pre ++ x :: post) ->
  below (cut x) (pre ++ x :: post) = below (cut x) post.
Proof.
  intros H. destruct (sdesc_app_inv key _ _ H) as [_ Hrel].
  unfold below. rewrite filter_app.
  assert (filter (fun r => keyLt (key r) (cut x)) pre = []) as ->.
  { apply filter_none. intros y Hy.
    destruct (keyLt (key y) (cut x)) eqn:E; [|reflexivity].
    apply cut_below_key in E.
    rewrite (keyLt_asym _ _ (Hrel y x Hy (or_introl eq_refl))) in E.
    discriminate. }
  simpl.
  destruct (keyLt (key x) (cut x)) eqn:E; [|reflexivity].
  apply cut_below_key in E. rewrite keyLt_irrefl in E. discriminate.
Qed.

Lemma sdesc_tail pre S :
  StronglySorted sdesc (pre ++ S) -> StronglySorted sdesc S.
Proof. intros H. now destruct (sdesc_app_inv key _ _ H). Qed.

Lemma answer_last S :
  (List.length S <= k)%nat -> answer S = Ok (map read S, None).
Proof.
  intros H. unfold answer. destruct (Nat.ltb_spec k (List.length S)); [lia|].
  reflexivity.
Qed.

Lemma answer_more S :
  (k < List.length S)%nat ->
  exists x, nth_error S (k - 1) = Some x
            /\ answer S = Ok (map read (firstn k S), Some (text x)).
Proof.
  intros H. unfold answer. destruct (Nat.ltb_spec k (List.length S)); [|lia].
  destruct (nth_error S (k - 1)) as [x|] eqn:E; [eauto|].
  apply nth_error_None in E. lia.
Qed.

Lemma follow_from (m : nat) :
  forall cur pre S,
    (List.length S <= m)%nat -> L = (pre ++ S)%list -> call cur = answer S ->
    exists pages,
      (forall fuel, (m < fuel)%nat -> followCursors call fuel cur = Some pages)
      /\ Subsequence (List.concat pages) (map read S)
      /\ Forall (fun p => (List.length p <= k)%nat) pages
      /\ ((forall x, In x S -> cut x = key x) ->
          List.concat pages = map read S
          /\ Z.of_nat (List.length pages)
             = Z.max 1 (ItemsService.ceilDiv (Z.of_nat (List.length S))
                          (Z.of_nat k))).
Proof.
  induction m as [|m IH]; intros cur pre S Hlen HL Hcall;
    destruct (Nat.le_gt_cases (List.length S) k) as [Hle|Hgt].
  - exists [map read S]. split; [|split; [|split]].
    + intros [|fuel] Hf; [lia|]. simpl. now rewrite Hcall, (answer_last _ Hle).
    + simpl. rewrite app_nil_r. apply Subsequence_refl.
    + repeat constructor. now rewrite length_map.
    + intros _. simpl. rewrite app_nil_r. split; [reflexivity|].
      rewrite ceilDiv_last; [reflexivity | lia | lia].
  - lia.
  - exists [map read S]. split; [|split; [|split]].
    + intros [|fuel] Hf; [lia|]. simpl. now rewrite Hcall, (answer_last _ Hle).
    + simpl. rewrite app_nil_r. apply Subsequence_refl.
    + repeat constructor. now rewrite length_map.
    + intros _. simpl. rewrite app_nil_r. split; [reflexivity|].
      rewrite ceilDiv_last; [reflexivity | lia | lia].
  - destruct (answer_more _ Hgt) as (x & Hx & Hans).
    pose proof (@firstn_skipn_middle _ (k - 1) S x Hx) as Hmid.
    replace (Datatypes.S (k - 1)) with k in Hmid by lia.
    assert (L = ((pre ++ firstn (k - 1) S) ++ x :: skipn k S)%list) as HL'.
    { rewrite HL. rewrite <- Hmid at 1. now rewrite <- !app_assoc. }
    assert (In x L) as HxL.
    { rewrite HL'. apply in_or_app. right. now left. }
    assert (below (cut x) L = below (cut x) (skipn k S)) as Hbelow.
    { rewrite HL'. apply below_cut. now rewrite <- HL'. }
    assert (StronglySorted sdesc (skipn k S)) as Hpost.
    { apply (sdesc_tail ((pre ++ firstn (k - 1) S) ++ [x])).
      rewrite <- app_assoc. simpl. now rewrite <- HL'. }
    destruct (below_tail (cut x) _ Hpost) as [mid Hsplit].
    set (S' := below (cut x) (skipn k S)) in *.
    assert (List.length S' <= m)%nat as Hlen'.
    { assert (List.length (skipn k S) = List.length mid + List.length S')%nat
        as Hl by (rewrite Hsplit at 1; apply length_app).
      rewrite length_skipn in Hl. lia. }
    destruct (IH (Some (text x))
                (((pre ++ firstn (k - 1) S) ++ [x]) ++ mid)%list S' Hlen')
      as (pages & Hrun & Hsub & Hsize & Hwhole).
    { rewrite HL'. rewrite Hsplit at 1. rewrite <- !app_assoc. reflexivity. }
    { rewrite (Hnext x HxL), Hbelow. reflexivity. }
    assert (firstn k S = (firstn (k - 1) S ++ [x])%list) as Hpage.
    { rewrite <- Hmid at 1. rewrite firstn_app, length_firstn.
      replace (Nat.min (k - 1) (List.length S)) with (k - 1)%nat by lia.
      replace (k - (k - 1))%nat with 1%nat by lia.
      rewrite firstn_all2 by (rewrite length_firstn; lia). reflexivity. }
    exists (map read (firstn k S) :: pages). split; [|split; [|split]].
    + intros [|fuel] Hf; [lia|]. simpl. rewrite Hcall, Hans.
      rewrite Hrun by lia. reflexivity.
    + simpl. rewrite <- (firstn_skipn k S) at 2. rewrite map_app.
      apply Subsequence_app. rewrite Hsplit, map_app.
      now apply Subsequence_after.
    + constructor; [|exact Hsize]. rewrite length_map, length_firstn. lia.
    + intros Hwholes.
      assert (S' = skipn k S) as HS'.
      { rewrite <- Hbelow, HL'.
        rewrite (Hwholes x) by (rewrite <- Hmid; apply in_or_app; right; now left).
        apply (after_row key). now rewrite <- HL'. }
      destruct Hwhole as [Hcat Hcount].
      { intros y Hy. apply Hwholes. rewrite <- (firstn_skipn k S).
        apply in_or_app. right. now rewrite <- HS'. }
      split.
      * simpl. rewrite Hcat, HS', <- map_app, firstn_skipn. reflexivity.
      * simpl List.length. rewrite Nat2Z.inj_succ, Hcount, HS', length_skipn.
        rewrite (ceilDiv_more (Z.of_nat (List.length S)) (Z.of_nat k)) by lia.
        replace (Z.of_nat (List.length S - k))
          with (Z.of_nat (List.length S) - Z.of_nat k) by lia.
        lia.
Qed.

(** Following the cursors from the start. *)
Lemma follow_all :
  exists pages,
    (forall fuel, (List.length L < fuel)%nat ->
       followCursors call fuel None = Some pages)
    /\ Subsequence (List.concat pages) (map read L)
    /\ Forall (fun p => (List.length p <= k)%nat) pages
    /\ ((forall x, In x L -> cut x = key x) ->
        List.concat pages = map read L
        /\ Z.of_nat (List.length pages)
           = Z.max 1 (ItemsService.ceilDiv (Z.of_nat (List.length L))
                        (Z.of_nat k))).
Proof. apply (follow_from (List.length L) None []); auto. Qed.

End Keyset.

Lemma StronglySorted_map_in {A B : Type} (g : A -> B) (r : A -> A -> Prop)
  (r' : B -> B -> Prop) (l : list A) :
  (forall a b, In a l -> In b l -> r a b -> r' (g a) (g b)) ->
  StronglySorted r l -> StronglySorted r' (map g l).
Proof.
  intros Hrr Hs. induction Hs as [|x tl Hs IH Hall]; simpl; constructor.
  - apply IH. intros a b Ha Hb. apply Hrr; now right.
  - apply Forall_forall. intros y Hy. apply in_map_iff in Hy as (z & <- & Hz).
    rewrite Forall_forall in Hall. apply Hrr; [now left | now right | now apply Hall].
Qed.

Lemma orderBy_distinct {A B : Type} (g : A -> B) (before : A -> A -> bool) l :
  NoDup (map g l) -> NoDup (map g (orderBy before l)).
Proof.
  apply Permutation_NoDup, Permutation_map, Permutation_sym, orderBy_perm.
Qed.

(** The cursor made of a stored row, as the statement binds it: the
    row's timestamp as read, and its id. *)
Lemma cursorParams_of_row uuid_in toISOString parseDate (t : Timestamp)
  (id : string) :
  parseDate (toISOString (toDate t)) = Some (toDate t) ->
  noPipe (toISOString (toDate t)) = true ->
  noPipe id = true -> uuid_in id = Some id ->
  cursorParams uuid_in parseDate (cursorText toISOString (toDate t) id)
  = Ok (asRead t, Some id).
Proof.
  intros Hp Hd Hi Hu. unfold cursorParams.
  rewrite (split_cursorText _ _ _ Hd Hi). cbn [nth nth_error].
  unfold newDate, uuidParam. rewrite Hp. cbn [bind]. rewrite Hu. reflexivity.
Qed.

(** *** One call of the item list endpoint *)

Section ItemPages.
Variable uuid_in : string -> option string.
Variable array_in : string -> option (list (option string)).
Variable toISOString : Date -> string.
Variable parseDate : string -> option Date.
Variable T : Tenant.
Variable f : ItemsService.Filters.
Variable db : Database.

Let key (r : Item * Dataset) : Timestamp * string := ItemsService.itemKey (fst r).
Let read (r : Item * Dataset) : Item := ItemsTable.selected (fst r).
Let text (r : Item * Dataset) : string :=
  cursorText toISOString (toDate (ItemsTable.observed_at (fst r)))
    (ItemsTable.id (fst r)).
Let k : nat := Z.to_nat (ItemsService.effectiveLimit f).

Lemma items_findAll_answer (cur : option string) (S : list (Item * Dataset)) :
  ItemsService.findAllQuery uuid_in array_in parseDate T
    (ItemsService.withCursor f cur) db = Ok S ->
  1 <= ItemsService.effectiveLimit f ->
  ItemsService.findAll uuid_in array_in toISOString parseDate T
    (ItemsService.withCursor f cur) db
  = if (k <? List.length S)%nat then
      match nth_error S (k - 1) with
      | Some x => Ok (map read (firstn k S), Some (text x))
      | None => Err TypeError
      end
    else Ok (map read S, None).
Proof.
  intros Hq Hn.
  set (n := ItemsService.effectiveLimit f) in *.
  assert (ItemsService.fetched uuid_in array_in parseDate T
            (ItemsService.withCursor f cur) db
          = Ok (map read (firstn (Datatypes.S k) S))) as Hf.
  { unfold ItemsService.fetched. rewrite Hq. cbn [bind].
    change (ItemsService.effectiveLimit (ItemsService.withCursor f cur)) with n.
    unfold limit_. destruct (Z.ltb_spec (n + 1) 0); [lia|]. cbn [bind].
    replace (Z.to_nat (n + 1)) with (Datatypes.S k) by (unfold k; lia).
    reflexivity. }
  assert (List.length (map read (firstn (Datatypes.S k) S))
          = Nat.min (Datatypes.S k) (List.length S)) as Hlen.
  { now rewrite length_map, length_firstn. }
  unfold ItemsService.findAll. rewrite Hf. cbn [bind].
  change (ItemsService.effectiveLimit (ItemsService.withCursor f cur)) with n.
  destruct (Nat.ltb_spec k (List.length S)) as [Hk|Hk].
  - assert (Z.of_nat (List.length (map read (firstn (Datatypes.S k) S))) = n + 1)
      as Hfull by (rewrite Hlen; unfold k; lia).
    destruct (page_of_fetched (map read (firstn (Datatypes.S k) S)) n Hn)
      as [Hpage _]; [lia|].
    destruct (Hpage Hfull) as (Hlt & Hpop & last & Hat & Hnth).
    rewrite Hlt, Hat, Hpop.
    replace (Z.to_nat (n - 1)) with (k - 1)%nat in Hnth by (unfold k; lia).
    rewrite nth_error_map, nth_error_firstn in Hnth.
    destruct (Nat.ltb_spec (k - 1) (Datatypes.S k)); [|lia].
    destruct (nth_error S (k - 1)) as [x|]; [|discriminate].
    simpl in Hnth. injection Hnth as <-.
    fold k. rewrite <- firstn_map, firstn_firstn, firstn_map.
    replace (Nat.min k (Datatypes.S k)) with k by lia.
    unfold text, read. cbn [ItemsTable.observed_at ItemsTable.id ItemsTable.selected].
    now rewrite toDate_asRead.
  - rewrite firstn_all2 by lia.
    destruct (Z.ltb_spec n (Z.of_nat (List.length (map read S)))) as [Hlt|_];
      [|reflexivity].
    rewrite length_map in Hlt. unfold k in Hk. lia.
Qed.

(** The rows of the statement without a cursor: one per item, in
    strictly descending order of [(observed_at, id)]. *)
Lemma items_uncut_rows (L : list (Item * Dataset)) :
  NoDup (map ItemsTable.id (items db)) ->
  NoDup (map DatasetsTable.id (datasets db)) ->
  ItemsService.findAllQuery uuid_in array_in parseDate T
    (ItemsService.withCursor f None) db = Ok L ->
  NoDup (map (fun r : Item * Dataset => ItemsTable.id (fst r)) L)
  /\ StronglySorted (fun a b => keyLt (key b) (key a) = true) L
  /\ forall r, In r L -> In (fst r) (items db).
Proof.
  intros Hitems Hdatasets HL.
  assert (forall r, In r L -> In (fst r) (items db)) as Hrows.
  { intros [i d] Hin.
    destruct (items_query_in _ _ _ _ _ _ _ _ HL Hin) as [Hjoin _].
    now apply in_innerJoin in Hjoin. }
  apply items_query_unfold in HL as (q0 & pc & Hf & -> & _).
  apply items_applyFilters_unfold in Hf as (pd & pe & pt & ps & plo & phi & -> & _).
  assert (NoDup (map (fun r : Item * Dataset => ItemsTable.id (fst r))
                   (orderBy (descKey (fun r => ItemsService.itemKey (fst r)))
                      (where_ pc (where_ phi (where_ plo (where_ ps (where_ pt
                         (where_ pe (where_ pd
                            (where_ (fun r => isVisible (snd r) T)
                               (innerJoin (items db) ItemsTable.dataset_id
                                  (datasets db)))))))))))))
    as Hids.
  { apply orderBy_distinct. repeat apply where_distinct. now apply innerJoin_pk. }
  split; [exact Hids|]. split; [|exact Hrows].
  apply (desc_strict key); [exact Hids | apply orderBy_desc].
Qed.

End ItemPages.

(** *** One call of the job list endpoint *)

Section JobPages.
Variable uuid_in : string -> option string.
Variable toISOString : Date -> string.
Variable parseDate : string -> option Date.
Variable T : Tenant.
Variable f : JobsService.Filters.
Variable db : Database.

Let key (r : Job * Dataset) : Timestamp * string := JobsService.jobKey (fst r).
Let read (r : Job * Dataset) : Job := JobsTable.selected (fst r).
Let text (r : Job * Dataset) : string :=
  cursorText toISOString (toDate (JobsTable.created_at (fst r)))
    (JobsTable.id (fst r)).
Let k : nat := Z.to_nat (JobsService.effectiveLimit f).

Lemma jobs_findAll_answer (cur : option string) (S : list (Job * Dataset)) :
  JobsService.findAllQuery uuid_in parseDate T (JobsService.withCursor f cur) db
  = Ok S ->
  1 <= JobsService.effectiveLimit f ->
  JobsService.findAll uuid_in toISOString parseDate T
    (JobsService.withCursor f cur) db
  = if (k <? List.length S)%nat then
      match nth_error S (k - 1) with
      | Some x => Ok (map read (firstn k S), Some (text x))
      | None => Err TypeError
      end
    else Ok (map read S, None).
Proof.
  intros Hq Hn.
  set (n := JobsService.effectiveLimit f) in *.
  assert (JobsService.fetched uuid_in parseDate T (JobsService.withCursor f cur) db
          = Ok (map read (firstn (Datatypes.S k) S))) as Hf.
  { unfold JobsService.fetched. rewrite Hq. cbn [bind].
    change (JobsService.effectiveLimit (JobsService.withCursor f cur)) with n.
    unfold limit_. destruct (Z.ltb_spec (n + 1) 0); [lia|]. cbn [bind].
    replace (Z.to_nat (n + 1)) with (Datatypes.S k) by (unfold k; lia).
    reflexivity. }
  assert (List.length (map read (firstn (Datatypes.S k) S))
          = Nat.min (Datatypes.S k) (List.length S)) as Hlen.
  { now rewrite length_map, length_firstn. }
  unfold JobsService.findAll. rewrite Hf. cbn [bind].
  change (JobsService.effectiveLimit (JobsService.withCursor f cur)) with n.
  destruct (Nat.ltb_spec k (List.length S)) as [Hk|Hk].
  - assert (Z.of_nat (List.length (map read (firstn (Datatypes.S k) S))) = n + 1)
      as Hfull by (rewrite Hlen; unfold k; lia).
    destruct (page_of_fetched (map read (firstn (Datatypes.S k) S)) n Hn)
      as [Hpage _]; [lia|].
    destruct (Hpage Hfull) as (Hlt & Hpop & last & Hat & Hnth).
    rewrite Hlt, Hat, Hpop.
    replace (Z.to_nat (n - 1)) with (k - 1)%nat in Hnth by (unfold k; lia).
    rewrite nth_error_map, nth_error_firstn in Hnth.
    destruct (Nat.ltb_spec (k - 1) (Datatypes.S k)); [|lia].
    destruct (nth_error S (k - 1)) as [x|]; [|discriminate].
    simpl in Hnth. injection Hnth as <-.
    fold k. rewrite <- firstn_map, firstn_firstn, firstn_map.
    replace (Nat.min k (Datatypes.S k)) with k by lia.
    unfold text, read. cbn [JobsTable.created_at JobsTable.id JobsTable.selected].
    now rewrite toDate_asRead.
  - rewrite firstn_all2 by lia.
    destruct (Z.ltb_spec n (Z.of_nat (List.length (map read S)))) as [Hlt|_];
      [|reflexivity].
    rewrite length_map in Hlt. unfold k in Hk. lia.
Qed.

(** The rows of the statement without a cursor: one per job, in strictly
    descending order of [(created_at, id)]. *)
Lemma jobs_uncut_rows (L : list (Job * Dataset)) :
  NoDup (map JobsTable.id (jobs db)) ->
  NoDup (map DatasetsTable.id (datasets db)) ->
  JobsService.findAllQuery uuid_in parseDate T (JobsService.withCursor f None) db
  = Ok L ->
  NoDup (map (fun r : Job * Dataset => JobsTable.id (fst r)) L)
  /\ StronglySorted (fun a b => keyLt (key b) (key a) = true) L
  /\ forall r, In r L -> In (fst r) (jobs db).
Proof.
  intros Hjobs Hdatasets HL.
  assert (forall r, In r L -> In (fst r) (jobs db)) as Hrows.
  { intros [j d] Hin.
    destruct (jobs_query_in _ _ _ _ _ _ _ HL Hin) as [Hjoin _].
    now apply in_innerJoin in Hjoin. }
  apply jobs_query_unfold in HL as (pd & ps & pc & -> & _).
  assert (NoDup (map (fun r : Job * Dataset => JobsTable.id (fst r))
                   (orderBy (descKey (fun r => JobsService.jobKey (fst r)))
                      (where_ pc (where_ ps (where_ pd
                         (where_ (fun r => isVisible (snd r) T)
                            (innerJoin (jobs db) JobsTable.dataset_id
                               (datasets db)))))))))
    as Hids.
  { apply orderBy_distinct. repeat apply where_distinct. now apply innerJoin_pk. }
  split; [exact Hids|]. split; [|exact Hrows].
  apply (desc_strict key); [exact Hids | apply orderBy_desc].
Qed.

End JobPages.

(** *** The traversal of the item list *)

Lemma items_follow uuid_in array_in toISOString parseDate (T : Tenant)
  (f : ItemsService.Filters) (db : Database) (L : list (Item * Dataset)) :
  NoDup (map ItemsTable.id (items db)) ->
  NoDup (map DatasetsTable.id (datasets db)) ->
  canonicalIds uuid_in ItemsTable.id (items db) ->
  (forall i, In i (items db) ->
     noPipe (ItemsTable.id i) = true
     /\ parseDate (toISOString (toDate (ItemsTable.observed_at i)))
        = Some (toDate (ItemsTable.observed_at i))
     /\ noPipe (toISOString (toDate (ItemsTable.observed_at i))) = true) ->
  1 <= ItemsService.effectiveLimit f ->
  ItemsService.findAllQuery uuid_in array_in parseDate T
    (ItemsService.withCursor f None) db = Ok L ->
  exists pages,
    (forall fuel, (List.length L < fuel)%nat ->
       ItemsService.fetchAllPages uuid_in array_in toISOString parseDate fuel T f
         None db = Some pages)
    /\ Subsequence (List.concat pages)
         (map (fun r => ItemsTable.selected (fst r)) L)
    /\ Forall (fun p => (List.length p <= Z.to_nat (ItemsService.effectiveLimit f))%nat)
         pages
    /\ ((forall i, In i (items db) -> ItemsTable.observed_at i mod 1000 = 0) ->
        List.concat pages = map (fun r => ItemsTable.selected (fst r)) L
        /\ Z.of_nat (List.length pages)
           = Z.max 1 (ItemsService.ceilDiv (Z.of_nat (List.length L))
                        (ItemsService.effectiveLimit f))).
Proof.
  intros Hitems Hdatasets Hcanon Hcodec Hn HL.
  destruct (items_uncut_rows uuid_in array_in parseDate T f db L Hitems Hdatasets HL)
    as (_ & Hstrict & Hrows).
  destruct (follow_all
              (fun r : Item * Dataset => ItemsService.itemKey (fst r))
              (fun r : Item * Dataset => ItemsTable.selected (fst r))
              (fun r : Item * Dataset =>
                 cursorText toISOString (toDate (ItemsTable.observed_at (fst r)))
                   (ItemsTable.id (fst r)))
              (fun cursor =>
                 ItemsService.findAll uuid_in array_in toISOString parseDate T
                   (ItemsService.withCursor f cursor) db)
              L (Z.to_nat (ItemsService.effectiveLimit f)))
    as (pages & Hrun & Hsub & Hsize & Hwhole).
  - lia.
  - exact Hstrict.
  - now apply items_findAll_answer.
  - intros x Hx. apply items_findAll_answer; [|exact Hn].
    rewrite (items_query_with_cursor _ _ _ _ _ _ _ _ HL), truthy_cursorText.
    destruct (Hcodec _ (Hrows x Hx)) as (Hi & Hp & Hd).
    rewrite (cursorParams_of_row _ _ _ _ _ Hp Hd Hi (Hcanon _ (Hrows x Hx))).
    reflexivity.
  - exists pages. split; [exact Hrun|]. split; [exact Hsub|]. split; [exact Hsize|].
    intros Hms. destruct Hwhole as [Hcat Hcount].
    + intros x Hx. unfold ItemsService.itemKey. cbn [fst snd].
      now rewrite (asRead_whole _ (Hms _ (Hrows x Hx))).
    + split; [exact Hcat|]. rewrite Z2Nat.id in Hcount by lia. exact Hcount.
Qed.

Lemma effectiveLimit_of (k : Z) :
  1 <= k -> Math_min (orDefault (Some (Num k)) 50) 100 = Z.min k 100.
Proof.
  intros Hk. unfold Math_min, orDefault.
  destruct (Z.eqb_spec k 0); [lia | reflexivity].
Qed.

(** C5, as stated, fails twice over.  Above the cap the number of pages
    is not ceil(count/k): with 101 rows and page size 101 the traversal
    takes two pages (100 rows and 1 row).  And rows are omitted where the
    store holds instants finer than a millisecond: of three items written
    within one millisecond, a traversal with page size 1 yields the first
    and then an empty page, the cursor carrying the timestamp only to the
    millisecond while the statement compares it with the stored one. *)
Lemma traversal_falls_short :
  option_map (map (@List.length Item))
    (ItemsService.fetchAllPages Sample.uuid_in Sample.array_in Sample.toISOString
       Sample.parseDate 5 Sample.tenantA
       (Sample.itemFilters (Some (Num 101)) None) None Sample.bigDb)
  = Some [100%nat; 1%nat]
  /\ (exists all,
        ItemsService.unpaged Sample.uuid_in Sample.array_in Sample.parseDate
          Sample.tenantA (Sample.itemFilters (Some (Num 101)) None) Sample.bigDb
        = Ok all
        /\ List.length all = 101%nat)
  /\ ItemsService.ceilDiv 101 101 = 1
  /\ ItemsService.fetchAllPages Sample.uuid_in Sample.array_in Sample.toISOString
       Sample.parseDate 5 Sample.tenantA
       (Sample.itemFilters (Some (Num 1)) None) None Sample.burstDb
     = Some [[ItemsTable.selected Sample.burstItem3]; []]
  /\ ItemsService.unpaged Sample.uuid_in Sample.array_in Sample.parseDate
       Sample.tenantA (Sample.itemFilters (Some (Num 1)) None) Sample.burstDb
     = Ok [ItemsTable.selected Sample.burstItem3;
           ItemsTable.selected Sample.burstItem2;
           ItemsTable.selected Sample.burstItem1].
Proof.
  split; [vm_compute; reflexivity|].
  split; [eexists; split; [vm_compute; reflexivity | reflexivity]|].
  split; [reflexivity|].
  split; vm_compute; reflexivity.
Qed.

(** C5, amended - for every tenant, filter set and requested page size
    [k >= 1], with [n = min k 100] the effective page size, item and
    dataset ids being primary keys (uuids, whose texts hold no [|]) and
    the ISO text of every [Date] read from the store parsing back to that
    [Date]: calling [ItemsService.findAll] repeatedly with the returned
    [nextCursor], starting without a cursor, ends (with no writes in
    between) and yields rows of the single unpaged fetch in its order,
    none of them twice, in pages of at most [n] rows.  When every stored
    [observed_at] is a whole number of milliseconds it yields exactly the
    rows of the unpaged fetch, none omitted, in the order
    (observed_at desc, id desc), and the number of pages is
    [ceil(count / n)], one (empty) page when there is no row. *)
Theorem traversal_yields_unpaged_fetch :
  forall (uuid_in : string -> option string)
         (array_in : string -> option (list (option string)))
         (toISOString : Date -> string) (parseDate : string -> option Date)
         (T : Tenant) (f : ItemsService.Filters) (db : Database)
         (k : Z) (all : list Item),
    NoDup (map ItemsTable.id (items db)) ->
    NoDup (map DatasetsTable.id (datasets db)) ->
    canonicalIds uuid_in ItemsTable.id (items db) ->
    (forall i, In i (items db) ->
       noPipe (ItemsTable.id i) = true
       /\ parseDate (toISOString (toDate (ItemsTable.observed_at i)))
          = Some (toDate (ItemsTable.observed_at i))
       /\ noPipe (toISOString (toDate (ItemsTable.observed_at i))) = true) ->
    ItemsService.f_limit f = Some (Num k) ->
    1 <= k ->
    ItemsService.unpaged uuid_in array_in parseDate T f db = Ok all ->
    exists pages,
      (forall fuel, (List.length all < fuel)%nat ->
         ItemsService.fetchAllPages uuid_in array_in toISOString parseDate fuel
           T f None db = Some pages)
      /\ Subsequence (List.concat pages) all
      /\ NoDup (map ItemsTable.id all)
      /\ Forall (fun p => Z.of_nat (List.length p) <= Z.min k 100) pages
      /\ ((forall i, In i (items db) -> ItemsTable.observed_at i mod 1000 = 0) ->
          List.concat pages = all
          /\ StronglySorted
               (fun a b =>
                  keyLt (ItemsService.itemKey b) (ItemsService.itemKey a) = true)
               all
          /\ Z.of_nat (List.length pages)
             = Z.max 1 (ItemsService.ceilDiv (Z.of_nat (List.length all))
                          (Z.min k 100))).
Proof.
  intros uuid_in array_in toISOString parseDate T f db k all
    Hitems Hdatasets Hcanon Hcodec Hlimit Hk Hall.
  unfold ItemsService.unpaged in Hall.
  destruct (ItemsService.findAllQuery uuid_in array_in parseDate T
              (ItemsService.withCursor f None) db) as [L|] eqn:HL; [|discriminate].
  cbn [bind] in Hall. injection Hall as <-.
  assert (ItemsService.effectiveLimit f = Z.min k 100) as Hlim.
  { unfold ItemsService.effectiveLimit. rewrite Hlimit. now apply effectiveLimit_of. }
  destruct (items_uncut_rows uuid_in array_in parseDate T f db L Hitems Hdatasets HL)
    as (Hids & Hstrict & Hrows).
  destruct (items_follow uuid_in array_in toISOString parseDate T f db L
              Hitems Hdatasets Hcanon Hcodec) as (pages & Hrun & Hsub & Hsize & Hwhole);
    [lia | exact HL |].
  exists pages. rewrite length_map.
  split; [exact Hrun|]. split; [exact Hsub|]. split; [|split].
  - rewrite map_map. exact Hids.
  - eapply Forall_impl; [|exact Hsize]. simpl. intros p Hp. lia.
  - intros Hms. destruct (Hwhole Hms) as [Hcat Hcount].
    split; [exact Hcat|]. split; [|now rewrite Hcount, Hlim].
    eapply StronglySorted_map_in; [|exact Hstrict].
    intros a b Ha Hb Hab. unfold ItemsService.itemKey in *.
    cbn [ItemsTable.observed_at ItemsTable.id ItemsTable.selected].
    unfold Item, Dataset in *.
    now rewrite (asRead_whole _ (Hms _ (Hrows a Ha))),
      (asRead_whole _ (Hms _ (Hrows b Hb))).
Qed.

Lemma traversal_yields_unpaged_fetch_witness :
  exists pages,
    ItemsService.fetchAllPages Sample.uuid_in Sample.array_in Sample.toISOString
      Sample.parseDate 4 Sample.tenantA
      (Sample.itemFilters (Some (Num 2)) None) None Sample.db
    = Some pages
    /\ List.concat pages
       = [Sample.itemShared3; Sample.itemShared2; Sample.itemShared1]
    /\ Z.of_nat (List.length pages) = 2.
Proof.
  destruct (traversal_yields_unpaged_fetch Sample.uuid_in Sample.array_in
              Sample.toISOString Sample.parseDate
              Sample.tenantA (Sample.itemFilters (Some (Num 2)) None) Sample.db 2
              [Sample.itemShared3; Sample.itemShared2; Sample.itemShared1])
    as (pages & Hrun & _ & _ & _ & Hwhole).
  - repeat constructor; simpl; intuition discriminate.
  - repeat constructor; simpl; intuition discriminate.
  - intros i [<-|[<-|[<-|[<-|[]]]]]; reflexivity.
  - simpl. intros i [<-|[<-|[<-|[<-|[]]]]]; repeat split.
  - reflexivity.
  - lia.
  - reflexivity.
  - destruct Hwhole as (Hcat & _ & Hcount).
    + simpl. intros i [<-|[<-|[<-|[<-|[]]]]]; reflexivity.
    + exists pages. split; [apply Hrun; simpl; lia|]. split; [exact Hcat|].
      exact Hcount.
Defined.

(* ================================================================== *)
(** * Further properties of the services *)

(** ** Listing datasets *)

Lemma contains_spec (l : list string) (elems : list (option string)) :
  contains l elems = true
  <-> forall e, In e elems -> exists x, e = Some x /\ In x l.
Proof.
  unfold contains. rewrite forallb_forall. split.
  - intros H e He. specialize (H e He). destruct e as [x|]; [|discriminate].
    exists x. split; [reflexivity|].
    apply existsb_exists in H as (y & Hy & Heq).
    apply String.eqb_eq in Heq. now subst.
  - intros H e He. destruct (H e He) as (x & -> & Hx).
    apply existsb_exists. exists x. split; [assumption | apply String.eqb_refl].
Qed.



Lemma StronglySorted_weaken {A : Type} (r r' : A -> A -> Prop) l :
  (forall a b, r a b -> r' a b) -> StronglySorted r l -> StronglySorted r' l.
Proof.
  intros Hrr. induction 1 as [|x tl Hs IH Hall]; constructor; [exact IH|].
  eapply Forall_impl; [|exact Hall]. intros y. apply Hrr.
Qed.

(** The rows a dataset listing selects, for array texts the store
    accepts. *)
Lemma datasets_findAll_unfold array_in (T : Tenant) (f : DatasetsService.Filters)
  (db : Database) (l : list Dataset) :
  DatasetsService.findAll array_in T f db = Ok l ->
  exists pe pt ps pm,
    l = map DatasetsTable.selected
          (orderBy (descDate DatasetsTable.created_at)
             (where_ pm (where_ ps (where_ pt (where_ pe
                (where_ (fun d => isVisible d T) (datasets db)))))))
    /\ match truthy (DatasetsService.entityType f) with
       | Some e => pe = fun d => (DatasetsTable.entity_type d =? e)%string
       | None => pe = fun _ => true
       end
    /\ match truthy (DatasetsService.tag f) with
       | Some t => exists elems, array_in t = Some elems
                                 /\ pt = fun d => contains (DatasetsTable.tags d) elems
       | None => pt = fun _ => true
       end
    /\ match truthy (DatasetsService.source f) with
       | Some s => exists elems, array_in s = Some elems
                                 /\ ps = fun d => contains (DatasetsTable.sources d) elems
       | None => ps = fun _ => true
       end
    /\ match DatasetsService.mine f with
       | Some true =>
           pm = fun d => match DatasetsTable.owner_tenant_id d with
                         | Some o => (o =? TenantsTable.id T)%string
                         | None => false
                         end
       | _ => pm = fun _ => true
       end.
Proof.
  unfold DatasetsService.findAll, arrayParam. intros H.
  destruct (truthy (DatasetsService.tag f)) as [t|];
    [destruct (array_in t) as [ta|]; [|discriminate]|];
    (destruct (truthy (DatasetsService.source f)) as [so|];
     [destruct (array_in so) as [sa|]; [|discriminate]|]);
    cbn [bind] in H; injection H as <-;
    destruct (DatasetsService.mine f) as [[|]|];
    destruct (truthy (DatasetsService.entityType f)) as [e|];
    do 4 eexists; (split; [|split; [|split; [|split]]]);
    try (eexists; split; [reflexivity|]);
    try reflexivity; rewrite ?where_true; reflexivity.
Qed.


(** X2 - in [GET /v1/datasets] only the exact text ["true"] turns the
    ownership filter on: with it every listed dataset is owned by the
    caller (shared ones are left out); with any other value of [mine],
    ["false"] included, the answer is the one without that parameter. *)
Theorem mine_parameter_only_true :
  forall (array_in : string -> option (list (option string)))
         (T : Tenant) (entityType tag source mineParam : option string)
         (db : Database),
    (mineParam = Some "true" ->
     forall l d,
       DatasetsController.findAll array_in T entityType tag source mineParam db
       = Ok l ->
       In d l ->
       DatasetsTable.owner_tenant_id d = Some (TenantsTable.id T))
    /\ (mineParam <> Some "true" ->
        DatasetsController.findAll array_in T entityType tag source mineParam db
        = DatasetsController.findAll array_in T entityType tag source None db).
Proof.
  intros array_in T entityType tag source mineParam db. split.
  - intros -> l d H Hin. unfold DatasetsController.findAll in H. simpl in H.
    apply datasets_findAll_unfold in H as (pe & pt & ps & pm & -> & _ & _ & _ & Hm).
    cbn [DatasetsService.mine] in Hm. subst pm.
    apply in_map_iff in Hin as (d0 & <- & Hin).
    apply in_orderBy in Hin. unfold where_ in Hin.
    apply filter_In in Hin as [_ Ho].
    cbn [DatasetsTable.owner_tenant_id DatasetsTable.selected].
    destruct (DatasetsTable.owner_tenant_id d0) as [o|]; [|discriminate].
    apply String.eqb_eq in Ho. now subst.
  - intros Hne. unfold DatasetsController.findAll.
    destruct mineParam as [m|]; [|reflexivity].
    destruct (String.eqb_spec m "true") as [->|_]; [congruence|].
    destruct (m =? "false")%string; reflexivity.
Qed.


Lemma mine_parameter_only_true_witness :
  DatasetsController.findAll Sample.array_in Sample.tenantA None None None
    (Some "false") Sample.db
  = DatasetsController.findAll Sample.array_in Sample.tenantA None None None
      None Sample.db.
Proof.
  apply (mine_parameter_only_true Sample.array_in Sample.tenantA None None None
           (Some "false") Sample.db).
  discriminate.
Defined.

(** ** Creating and updating datasets *)

(** [findOne] on a table extended with one row under an unused id. *)
Lemma datasets_findOne_appended uuid_in (id : string) (T : Tenant) (db : Database)
  (d : Dataset) :
  ~ In (DatasetsTable.id d) (map DatasetsTable.id (datasets db)) ->
  DatasetsService.findOne uuid_in id T
    (DatasetsService.withDatasets db (datasets db ++ [d]))
  = match uuid_in id with
    | Some u =>
        if (DatasetsTable.id d =? u)%string
        then (if isVisible d T then Ok (DatasetsTable.selected d)
              else Err NotFoundException)
        else DatasetsService.findOne uuid_in id T db
    | None => Err DatabaseError
    end.
Proof.
  intros Hfresh. rewrite !datasets_findOne_unfold.
  destruct (uuid_in id) as [u|]; [|reflexivity].
  cbn [datasets DatasetsService.withDatasets]. unfold where_.
  rewrite filter_app. cbn [filter].
  destruct (String.eqb_spec (DatasetsTable.id d) u) as [<-|Hne].
  - unfold Dataset in *. rewrite (unused_id _ _ _ Hfresh). simpl.
    destruct (isVisible d T); reflexivity.
  - rewrite app_nil_r. reflexivity.
Qed.

(** X3 - a dataset created under an id not yet in use, which the store
    reads back as itself, is owned by its creator, who reads it back with
    [findOne]; a tenant with another id gets NotFound for it; and every
    lookup under a text that does not stand for the new id, by anyone,
    answers as before the insertion. *)
Theorem created_dataset_is_private :
  forall (uuid_in : string -> option string)
         (fresh : string) (now : Timestamp) (T : Tenant)
         (dto : CreateDatasetDto.dto) (db : Database),
    ~ In fresh (map DatasetsTable.id (datasets db)) ->
    uuid_in fresh = Some fresh ->
    let d := fst (DatasetsService.create fresh now T dto db) in
    let db' := snd (DatasetsService.create fresh now T dto db) in
    DatasetsTable.id d = fresh
    /\ DatasetsTable.owner_tenant_id d = Some (TenantsTable.id T)
    /\ DatasetsService.findOne uuid_in fresh T db' = Ok d
    /\ (forall T', TenantsTable.id T' <> TenantsTable.id T ->
                   DatasetsService.findOne uuid_in fresh T' db'
                   = Err NotFoundException)
    /\ (forall T' id, uuid_in id <> Some fresh ->
                      DatasetsService.findOne uuid_in id T' db'
                      = DatasetsService.findOne uuid_in id T' db)
    /\ (exists row, datasets db' = (datasets db ++ [row])%list
                    /\ d = DatasetsTable.selected row)
    /\ tenants db' = tenants db /\ jobs db' = jobs db /\ items db' = items db.
Proof.
  intros uuid_in fresh now T dto db Hfresh Hu d db'.
  assert (forall id T', DatasetsService.findOne uuid_in id T' db'
            = match uuid_in id with
              | Some u =>
                  if (fresh =? u)%string
                  then (if isVisible d T' then Ok d else Err NotFoundException)
                  else DatasetsService.findOne uuid_in id T' db
              | None => Err DatabaseError
              end) as Hone.
  { intros id T'. unfold db', d, DatasetsService.create. cbn [fst snd].
    rewrite datasets_findOne_appended by exact Hfresh. reflexivity. }
  split; [reflexivity|]. split; [reflexivity|].
  split; [|split; [|split; [|split; [|repeat split]]]].
  - rewrite Hone, Hu, String.eqb_refl. unfold isVisible, d. simpl.
    now rewrite String.eqb_refl.
  - intros T' Hne. rewrite Hone, Hu, String.eqb_refl. unfold isVisible, d. simpl.
    apply not_eq_sym, String.eqb_neq in Hne.
    rewrite String.eqb_sym in Hne. now rewrite String.eqb_sym, Hne.
  - intros T' id Hne. rewrite Hone.
    destruct (uuid_in id) as [u|] eqn:Eu.
    + destruct (String.eqb_spec fresh u) as [->|_]; [congruence | reflexivity].
    + rewrite datasets_findOne_unfold, Eu. reflexivity.
  - eexists. split; reflexivity.
Qed.

Lemma created_dataset_is_private_witness :
  DatasetsService.findOne Sample.uuid_in Sample.freshDatasetId Sample.tenantA
    (snd (DatasetsService.create Sample.freshDatasetId Sample.t2 Sample.tenantA
            Sample.createDto Sample.db))
  = Ok (fst (DatasetsService.create Sample.freshDatasetId Sample.t2 Sample.tenantA
               Sample.createDto Sample.db))
  /\ DatasetsService.findOne Sample.uuid_in Sample.freshDatasetId Sample.tenantB
       (snd (DatasetsService.create Sample.freshDatasetId Sample.t2 Sample.tenantA
               Sample.createDto Sample.db))
     = Err NotFoundException.
Proof.
  destruct (created_dataset_is_private Sample.uuid_in Sample.freshDatasetId
              Sample.t2 Sample.tenantA Sample.createDto Sample.db)
    as (_ & _ & Hown & Hother & _).
  - simpl. intuition discriminate.
  - reflexivity.
  - split; [exact Hown|]. apply Hother. discriminate.
Defined.




Lemma touched_id dto id d :
  DatasetsTable.id (DatasetsService.updatedRow dto id d) = DatasetsTable.id d.
Proof. unfold DatasetsService.updatedRow. destruct (_ =? _)%string; reflexivity. Qed.

Lemma touched_visible dto id d T :
  isVisible (DatasetsService.updatedRow dto id d) T = isVisible d T.
Proof. unfold DatasetsService.updatedRow. destruct (_ =? _)%string; reflexivity. Qed.

Lemma touched_selected dto id d :
  DatasetsTable.selected (DatasetsService.updatedRow dto id d)
  = DatasetsService.updatedRow dto id (DatasetsTable.selected d).
Proof.
  unfold DatasetsService.updatedRow.
  cbn [DatasetsTable.id DatasetsTable.selected].
  destruct (_ =? _)%string; reflexivity.
Qed.

Lemma set_twice dto d :
  DatasetsService.set dto (DatasetsService.set dto d) = DatasetsService.set dto d.
Proof.
  unfold DatasetsService.set, DatasetsService.orKeep. simpl.
  destruct dto as [n e t s c x g b]. simpl.
  f_equal.
  - destruct n; reflexivity.
  - destruct e; reflexivity.
  - destruct t; reflexivity.
  - destruct s; reflexivity.
  - destruct c; reflexivity.
  - destruct x; reflexivity.
  - destruct g; reflexivity.
  - destruct b; reflexivity.
Qed.

Lemma touched_twice dto id d :
  DatasetsService.updatedRow dto id (DatasetsService.updatedRow dto id d)
  = DatasetsService.updatedRow dto id d.
Proof.
  unfold DatasetsService.updatedRow.
  destruct (DatasetsTable.id d =? id)%string eqn:E.
  - change (DatasetsTable.id (DatasetsService.set dto d)) with (DatasetsTable.id d).
    rewrite E. apply set_twice.
  - now rewrite E.
Qed.

Lemma datasets_findOne_updated uuid_in dto u id' T' db :
  DatasetsService.findOne uuid_in id' T'
    (DatasetsService.withDatasets db
       (DatasetsService.updatedRows dto u (datasets db)))
  = match DatasetsService.findOne uuid_in id' T' db with
    | Ok d => Ok (DatasetsService.updatedRow dto u d)
    | Err e => Err e
    end.
Proof.
  rewrite !datasets_findOne_unfold.
  destruct (uuid_in id') as [u'|]; [|reflexivity].
  cbn [datasets DatasetsService.withDatasets]. unfold DatasetsService.updatedRows.
  rewrite (where_map _ (DatasetsService.updatedRow dto u))
    by (intros x; now rewrite touched_id).
  rewrite (where_map _ (DatasetsService.updatedRow dto u))
    by (intros x; apply touched_visible).
  rewrite executeTakeFirst_map.
  destruct (executeTakeFirst _); simpl; [|reflexivity].
  now rewrite touched_selected.
Qed.

(** X5 - after a successful [DatasetsService.update], every lookup by
    every tenant answers as before, with the updated fields on the row
    that was updated: the update changes neither who can see a dataset
    nor which dataset an id names, and the caller reads its write back. *)
Theorem update_is_read_back :
  forall (uuid_in : string -> option string)
         (id : string) (T : Tenant) (dto : DatasetsService.UpdateDatasetDto)
         (db db' : Database) (r : option Dataset),
    DatasetsService.update uuid_in id T dto db = Ok (r, db') ->
    exists u,
      uuid_in id = Some u
      /\ (forall T' id',
            DatasetsService.findOne uuid_in id' T' db'
            = match DatasetsService.findOne uuid_in id' T' db with
              | Ok d => Ok (if (DatasetsTable.id d =? u)%string
                            then DatasetsService.set dto d else d)
              | Err e => Err e
              end)
      /\ (exists d, DatasetsService.findOne uuid_in id T db = Ok d
                    /\ DatasetsService.findOne uuid_in id T db'
                       = Ok (DatasetsService.set dto d)).
Proof.
  intros uuid_in id T dto db db' r H.
  apply update_unfold in H
    as (u & d0 & Hu & Hd & Hin & Hid & _ & _ & _ & -> & _).
  exists u. split; [assumption|]. split.
  - intros T' id'. apply datasets_findOne_updated.
  - exists (DatasetsTable.selected d0). split; [assumption|].
    rewrite datasets_findOne_updated, Hd. unfold DatasetsService.updatedRow.
    cbn [DatasetsTable.id DatasetsTable.selected].
    rewrite Hid, String.eqb_refl. reflexivity.
Qed.

Lemma update_is_read_back_witness :
  DatasetsService.findOne Sample.uuid_in (DatasetsTable.id Sample.datasetOfA)
    Sample.tenantA Sample.updatedDb
  = Ok (DatasetsService.set Sample.disableDto Sample.datasetOfA)
  /\ DatasetsService.findOne Sample.uuid_in (DatasetsTable.id Sample.datasetOfA)
       Sample.tenantB Sample.updatedDb
     = Err NotFoundException.
Proof.
  assert (DatasetsService.update Sample.uuid_in (DatasetsTable.id Sample.datasetOfA)
            Sample.tenantA Sample.disableDto Sample.db
          = Ok (Some (DatasetsService.set Sample.disableDto Sample.datasetOfA),
                Sample.updatedDb)) as Hu by reflexivity.
  destruct (update_is_read_back _ _ _ _ _ _ _ Hu) as (u & Eu & Hall & _).
  injection Eu as <-.
  split; [exact (Hall Sample.tenantA _) | exact (Hall Sample.tenantB _)].
Defined.

(** X6 - [DatasetsService.update] is idempotent: sending the same
    payload again succeeds, returns the same row and leaves the store as
    the first update left it. *)
Theorem update_twice_is_update_once :
  forall (uuid_in : string -> option string)
         (id : string) (T : Tenant) (dto : DatasetsService.UpdateDatasetDto)
         (db db' : Database) (r : option Dataset),
    DatasetsService.update uuid_in id T dto db = Ok (r, db') ->
    DatasetsService.update uuid_in id T dto db' = Ok (r, db').
Proof.
  intros uuid_in id T dto db db' r H.
  apply update_unfold in H
    as (u & d0 & Hu & Hd & Hin & Hid & _ & Hnc & Hnr & -> & ->).
  unfold DatasetsService.update.
  rewrite datasets_findOne_updated, Hd. cbn [bind].
  unfold uuidParam. rewrite Hu. cbn [bind].
  unfold DatasetsService.updateTable. rewrite Hnc, Hnr. cbn [andb bind].
  cbn [datasets DatasetsService.withDatasets].
  assert (DatasetsService.updatedRows dto u
            (DatasetsService.updatedRows dto u (datasets db))
          = DatasetsService.updatedRows dto u (datasets db)) as Htwice.
  { unfold DatasetsService.updatedRows. rewrite map_map.
    apply map_ext. intros x. apply (touched_twice dto u x). }
  rewrite Htwice. unfold DatasetsService.withDatasets.
  cbn [tenants jobs items]. reflexivity.
Qed.

Lemma update_twice_is_update_once_witness :
  DatasetsService.update Sample.uuid_in (DatasetsTable.id Sample.datasetOfA)
    Sample.tenantA Sample.disableDto Sample.updatedDb
  = Ok (Some (DatasetsService.set Sample.disableDto Sample.datasetOfA),
        Sample.updatedDb).
Proof.
  apply (update_twice_is_update_once _ _ _ _ Sample.db). reflexivity.
Defined.

(* ================================================================== *)
(** ** Lookups by id *)

Lemma datasets_findOne_complete uuid_in (text : string) (T : Tenant)
  (db : Database) (d : Dataset) :
  NoDup (map DatasetsTable.id (datasets db)) ->
  In d (datasets db) -> isVisible d T = true ->
  uuid_in text = Some (DatasetsTable.id d) ->
  DatasetsService.findOne uuid_in text T db = Ok (DatasetsTable.selected d).
Proof.
  intros Hpk Hin Hv Hu.
  destruct (datasets_findOne_visible uuid_in text T db d Hin Hu Hv) as [d' Hd'].
  rewrite Hd'. apply datasets_findOne_ok in Hd' as (d0 & -> & Hin' & Hid & _).
  assert (DatasetsTable.id d0 = DatasetsTable.id d) as Heq by congruence.
  now rewrite (row_pk DatasetsTable.id _ d0 d Hpk Hin' Hin Heq).
Qed.

Lemma jobs_findOne_complete uuid_in (text : string) (T : Tenant) (db : Database)
  (j : Job) (d : Dataset) :
  NoDup (map JobsTable.id (jobs db)) ->
  In j (jobs db) -> In d (datasets db) ->
  uuid_in (JobsTable.dataset_id j) = Some (DatasetsTable.id d) ->
  isVisible d T = true ->
  uuid_in text = Some (JobsTable.id j) ->
  JobsService.findOne uuid_in text T db = Ok (JobsTable.selected j).
Proof.
  intros Hpk Hj Hd Hfk Hv Hu. rewrite jobs_findOne_unfold, Hu. unfold where_.
  destruct (executeTakeFirst_some
              (filter (fun x => (JobsTable.id x =? JobsTable.id j)%string) (jobs db)) j)
    as [j' Hj'].
  { apply filter_In. split; [assumption | apply String.eqb_refl]. }
  unfold Job in *. rewrite Hj'.
  apply executeTakeFirst_in, filter_In in Hj' as [Hin' Hid].
  apply String.eqb_eq in Hid.
  rewrite (row_pk JobsTable.id _ j' j Hpk Hin' Hj Hid).
  destruct (datasets_findOne_visible uuid_in _ T db d Hd Hfk Hv) as [d' ->].
  reflexivity.
Qed.

Lemma items_findOne_complete uuid_in (text : string) (T : Tenant) (db : Database)
  (i : Item) (d : Dataset) :
  NoDup (map ItemsTable.id (items db)) ->
  In i (items db) -> In d (datasets db) ->
  DatasetsTable.id d = ItemsTable.dataset_id i -> isVisible d T = true ->
  uuid_in text = Some (ItemsTable.id i) ->
  ItemsService.findOne uuid_in text T db = Ok (ItemsTable.selected i).
Proof.
  intros Hpk Hi Hd Hfk Hv Hu. rewrite items_findOne_unfold, Hu. unfold where_.
  destruct (executeTakeFirst_some
              (filter (fun r : Item * Dataset => isVisible (snd r) T)
                 (filter (fun r : Item * Dataset =>
                            (ItemsTable.id (fst r) =? ItemsTable.id i)%string)
                    (innerJoin (items db) ItemsTable.dataset_id (datasets db))))
              (i, d)) as [r Hr].
  { rewrite !filter_In. simpl. rewrite String.eqb_refl.
    repeat split; try assumption. now apply in_innerJoin. }
  unfold Item, Dataset in *. rewrite Hr.
  apply executeTakeFirst_in in Hr. rewrite !filter_In in Hr.
  destruct Hr as [[Hjoin Hid] _]. apply String.eqb_eq in Hid.
  destruct r as [i' d']. apply in_innerJoin in Hjoin as (Hi' & _ & _).
  simpl in *. now rewrite (row_pk ItemsTable.id _ i' i Hpk Hi' Hi Hid).
Qed.

(** X7 - with ids as primary keys, [findOne] of each service, called with
    any text the store reads as the id of a row, returns that row as the
    store hands it out whenever its dataset is visible to the caller: a
    dataset itself, and a job or an item of a visible dataset - for a job,
    whichever tenant triggered it. *)
Theorem lookup_returns_the_stored_row :
  forall (uuid_in : string -> option string)
         (T : Tenant) (db : Database) (D : Dataset),
    In D (datasets db) -> isVisible D T = true ->
    (forall text,
       NoDup (map DatasetsTable.id (datasets db)) ->
       uuid_in text = Some (DatasetsTable.id D) ->
       DatasetsService.findOne uuid_in text T db = Ok (DatasetsTable.selected D))
    /\ (forall j text,
          NoDup (map JobsTable.id (jobs db)) -> In j (jobs db) ->
          uuid_in (JobsTable.dataset_id j) = Some (DatasetsTable.id D) ->
          uuid_in text = Some (JobsTable.id j) ->
          JobsService.findOne uuid_in text T db = Ok (JobsTable.selected j))
    /\ (forall i text,
          NoDup (map ItemsTable.id (items db)) -> In i (items db) ->
          ItemsTable.dataset_id i = DatasetsTable.id D ->
          uuid_in text = Some (ItemsTable.id i) ->
          ItemsService.findOne uuid_in text T db = Ok (ItemsTable.selected i)).
Proof.
  intros uuid_in T db D HD Hv. split; [|split].
  - intros text Hpk Hu. now apply datasets_findOne_complete.
  - intros j text Hpk Hj Hfk Hu. now apply (jobs_findOne_complete uuid_in text T db j D).
  - intros i text Hpk Hi Hfk Hu.
    now apply (items_findOne_complete uuid_in text T db i D).
Qed.

Lemma lookup_returns_the_stored_row_witness :
  JobsService.findOne Sample.uuid_in "70000000-0000-4000-8000-000000000003"
    Sample.tenantA Sample.db
  = Ok (JobsTable.selected Sample.jobShared3)
  /\ JobsTable.tenant_id Sample.jobShared3 = TenantsTable.id Sample.tenantB.
Proof.
  destruct (lookup_returns_the_stored_row Sample.uuid_in Sample.tenantA Sample.db
              Sample.sharedDataset) as (_ & Hj & _).
  - simpl. auto.
  - reflexivity.
  - split; [|reflexivity]. apply Hj.
    + repeat constructor; simpl; intuition discriminate.
    + simpl. auto.
    + reflexivity.
    + reflexivity.
Defined.

(** X8 - with ids as primary keys and stored as the uuids the store reads
    them as, whatever a list endpoint shows can be fetched by id: every
    job on a page of [JobsService.findAll], and every item on a page of
    [ItemsService.findAll], is returned by the service's [findOne] to the
    same tenant. *)
Theorem listed_rows_can_be_fetched :
  forall (uuid_in : string -> option string)
         (array_in : string -> option (list (option string)))
         (toISOString : Date -> string) (parseDate : string -> option Date)
         (T : Tenant) (db : Database),
    (forall f page c j,
       NoDup (map JobsTable.id (jobs db)) ->
       canonicalIds uuid_in JobsTable.id (jobs db) ->
       canonicalIds uuid_in DatasetsTable.id (datasets db) ->
       JobsService.findAll uuid_in toISOString parseDate T f db = Ok (page, c) ->
       In j page ->
       JobsService.findOne uuid_in (JobsTable.id j) T db = Ok j)
    /\ (forall f page c i,
          NoDup (map ItemsTable.id (items db)) ->
          canonicalIds uuid_in ItemsTable.id (items db) ->
          ItemsService.findAll uuid_in array_in toISOString parseDate T f db
          = Ok (page, c) ->
          In i page ->
          ItemsService.findOne uuid_in (ItemsTable.id i) T db = Ok i).
Proof.
  intros uuid_in array_in toISOString parseDate T db. split.
  - intros f page c j Hpk Hcj Hcd Hall Hin.
    apply jobs_findAll_page in Hall as (rows & Hf & Hsub).
    destruct (jobs_fetched_in _ _ _ _ _ _ _ Hf (Hsub j Hin))
      as (j0 & d & -> & Hj & Hd & Hfk & Hv).
    apply (jobs_findOne_complete uuid_in _ T db j0 d); try assumption.
    + rewrite <- Hfk. now apply Hcd.
    + cbn [JobsTable.id JobsTable.selected]. now apply Hcj.
  - intros f page c i Hpk Hci Hall Hin.
    apply items_findAll_page in Hall as (rows & Hf & Hsub).
    destruct (items_fetched_in _ _ _ _ _ _ _ _ Hf (Hsub i Hin))
      as (i0 & d & -> & Hi & Hd & Hfk & Hv).
    apply (items_findOne_complete uuid_in _ T db i0 d); try assumption.
    cbn [ItemsTable.id ItemsTable.selected]. now apply Hci.
Qed.

Lemma listed_rows_can_be_fetched_witness :
  ItemsService.findOne Sample.uuid_in (ItemsTable.id Sample.itemShared2)
    Sample.tenantA Sample.db
  = Ok Sample.itemShared2.
Proof.
  destruct (listed_rows_can_be_fetched Sample.uuid_in Sample.array_in
              Sample.toISOString Sample.parseDate
              Sample.tenantA Sample.db) as [_ Hi].
  apply (Hi (Sample.itemFilters (Some (Num 2)) None)
            [Sample.itemShared3; Sample.itemShared2]
            (Some "2024-01-01T00:01:00.000Z|80000000-0000-4000-8000-000000000002")).
  - repeat constructor; simpl; intuition discriminate.
  - intros r Hr. simpl in Hr.
    repeat (destruct Hr as [<-|Hr]; [reflexivity|]). destruct Hr.
  - reflexivity.
  - simpl. auto.
Defined.

(** ** What a page holds *)

Lemma jobs_query_filters uuid_in parseDate (T : Tenant) (f : JobsService.Filters)
  (db : Database) (q : list (Job * Dataset)) (r : Job * Dataset) :
  JobsService.findAllQuery uuid_in parseDate T f db = Ok q -> In r q ->
  (forall d, truthy (JobsService.f_datasetId f) = Some d ->
             uuid_in d = Some (JobsTable.dataset_id (fst r)))
  /\ (forall s, truthy (JobsService.f_status f) = Some s ->
                statusText (JobsTable.status (fst r)) = s).
Proof.
  intros Hq Hin.
  apply jobs_query_unfold in Hq as (pd & ps & pc & -> & Hd & Hs & _).
  apply in_orderBy in Hin. unfold where_ in Hin. rewrite !filter_In in Hin.
  destruct Hin as [[[_ Hpd] Hps] _]. split.
  - intros d Ed. rewrite Ed in Hd. destruct Hd as (u & Hu & ->).
    apply String.eqb_eq in Hpd. congruence.
  - intros s Es. rewrite Es in Hs. subst ps. now apply String.eqb_eq.
Qed.

Lemma items_applyFilters_sat uuid_in array_in parseDate (f : ItemsService.Filters)
  (q q' : list (Item * Dataset)) (r : Item * Dataset) :
  ItemsService.applyFilters uuid_in array_in parseDate f q = Ok q' -> In r q' ->
  (forall d, truthy (ItemsService.f_datasetId f) = Some d ->
             uuid_in d = Some (ItemsTable.dataset_id (fst r)))
  /\ (forall e, truthy (ItemsService.f_entityType f) = Some e ->
                ItemsTable.entity_type (fst r) = e)
  /\ (forall t, truthy (ItemsService.f_tag f) = Some t ->
                exists elems,
                  array_in t = Some elems
                  /\ forall e, In e elems ->
                               exists x, e = Some x /\ In x (ItemsTable.tags (fst r)))
  /\ (forall s, truthy (ItemsService.f_source f) = Some s ->
                ItemsTable.source (fst r) = s)
  /\ (forall s, truthy (ItemsService.f_since f) = Some s ->
                exists d, parseDate s = Some d
                          /\ toTimestamp d <= ItemsTable.observed_at (fst r))
  /\ (forall u, truthy (ItemsService.f_until f) = Some u ->
                exists d, parseDate u = Some d
                          /\ ItemsTable.observed_at (fst r) <= toTimestamp d).
Proof.
  intros Hq Hin.
  apply items_applyFilters_unfold in Hq
    as (pd & pe & pt & ps & plo & phi & -> & Hd & He & Ht & Hs & Hlo & Hhi).
  unfold where_ in Hin. rewrite !filter_In in Hin.
  destruct Hin as [[[[[[_ Hpd] Hpe] Hpt] Hps] Hplo] Hphi].
  split; [|split; [|split; [|split; [|split]]]].
  - intros d Ed. rewrite Ed in Hd. destruct Hd as (u & Hu & ->).
    apply String.eqb_eq in Hpd. congruence.
  - intros e Ee. rewrite Ee in He. subst pe. now apply String.eqb_eq.
  - intros t Et. rewrite Et in Ht. destruct Ht as (elems & Ha & ->).
    exists elems. split; [assumption|]. now apply contains_spec.
  - intros s Es. rewrite Es in Hs. subst ps. now apply String.eqb_eq.
  - intros s Es. rewrite Es in Hlo. destruct Hlo as (d & Hp & ->).
    exists d. split; [assumption|]. now apply Z.leb_le.
  - intros u Eu. rewrite Eu in Hhi. destruct Hhi as (d & Hp & ->).
    exists d. split; [assumption|]. now apply Z.leb_le.
Qed.

Lemma items_query_filters uuid_in array_in parseDate (T : Tenant)
  (f : ItemsService.Filters) (db : Database) (q : list (Item * Dataset))
  (r : Item * Dataset) :
  ItemsService.findAllQuery uuid_in array_in parseDate T f db = Ok q -> In r q ->
  exists q0 base,
    ItemsService.applyFilters uuid_in array_in parseDate f base = Ok q0 /\ In r q0.
Proof.
  intros Hq Hin. apply items_query_unfold in Hq as (q0 & pc & Hf & -> & _).
  exists q0. eexists. split; [exact Hf|].
  apply in_orderBy in Hin. unfold where_ in Hin. now apply filter_In in Hin.
Qed.

(** X9 - every row on a page passes every filter of the request that is
    set: for jobs the dataset id (the filter text is read as the uuid of
    the job's dataset) and the status; for items the dataset id, the
    entity type, the tag (the filter text is read as an array, each
    element of which is among the item's tags), the source, and the
    [since] / [until] bounds on [observed_at], both inclusive. *)
Theorem pages_honour_the_filters :
  forall (uuid_in : string -> option string)
         (array_in : string -> option (list (option string)))
         (toISOString : Date -> string) (parseDate : string -> option Date)
         (T : Tenant) (db : Database)
         (fj : JobsService.Filters) (fi : ItemsService.Filters),
    (forall page c j,
       JobsService.findAll uuid_in toISOString parseDate T fj db = Ok (page, c) ->
       In j page ->
       (forall d, truthy (JobsService.f_datasetId fj) = Some d ->
                  uuid_in d = Some (JobsTable.dataset_id j))
       /\ (forall s, truthy (JobsService.f_status fj) = Some s ->
                     statusText (JobsTable.status j) = s))
    /\ (forall page c i,
          ItemsService.findAll uuid_in array_in toISOString parseDate T fi db
          = Ok (page, c) ->
          In i page ->
          (forall d, truthy (ItemsService.f_datasetId fi) = Some d ->
                     uuid_in d = Some (ItemsTable.dataset_id i))
          /\ (forall e, truthy (ItemsService.f_entityType fi) = Some e ->
                        ItemsTable.entity_type i = e)
          /\ (forall t, truthy (ItemsService.f_tag fi) = Some t ->
                        exists elems,
                          array_in t = Some elems
                          /\ forall e, In e elems ->
                                       exists x, e = Some x
                                                 /\ In x (ItemsTable.tags i))
          /\ (forall s, truthy (ItemsService.f_source fi) = Some s ->
                        ItemsTable.source i = s)
          /\ (forall s, truthy (ItemsService.f_since fi) = Some s ->
                        exists d, parseDate s = Some d
                                  /\ toTimestamp d <= ItemsTable.observed_at i)
          /\ (forall u, truthy (ItemsService.f_until fi) = Some u ->
                        exists d, parseDate u = Some d
                                  /\ ItemsTable.observed_at i <= toTimestamp d)).
Proof.
  intros uuid_in array_in toISOString parseDate T db fj fi. split.
  - intros page c j Hall Hin.
    apply jobs_findAll_page in Hall as (rows & Hf & Hsub).
    apply Hsub in Hin. apply jobs_fetched_unfold in Hf as (q & Hq & _ & ->).
    apply in_map_iff in Hin as ([j' d] & <- & Hin). apply in_firstn in Hin.
    exact (jobs_query_filters _ _ _ _ _ _ _ Hq Hin).
  - intros page c i Hall Hin.
    apply items_findAll_page in Hall as (rows & Hf & Hsub).
    apply Hsub in Hin. apply items_fetched_unfold in Hf as (q & Hq & _ & ->).
    apply in_map_iff in Hin as ([i' d] & <- & Hin). apply in_firstn in Hin.
    destruct (items_query_filters _ _ _ _ _ _ _ _ Hq Hin) as (q0 & base & Hf & Hin0).
    destruct (items_applyFilters_sat _ _ _ _ _ _ _ Hf Hin0)
      as (H1 & H2 & H3 & H4 & H5 & H6).
    cbn [fst] in *.
    split; [exact H1|]. split; [exact H2|]. split; [exact H3|].
    split; [exact H4|].
    cbn [ItemsTable.observed_at ItemsTable.selected]. split.
    + intros s Es. destruct (H5 s Es) as (dd & Hp & Hle). exists dd.
      split; [assumption | now apply asRead_lower].
    + intros u Eu. destruct (H6 u Eu) as (dd & Hp & Hle). exists dd.
      split; [assumption | now apply asRead_upper].
Qed.

Lemma pages_honour_the_filters_witness :
  statusText (JobsTable.status Sample.jobShared2) = "QUEUED".
Proof.
  destruct (pages_honour_the_filters Sample.uuid_in Sample.array_in
              Sample.toISOString Sample.parseDate
              Sample.tenantA Sample.db
              {| JobsService.f_datasetId := None;
                 JobsService.f_status := Some "QUEUED";
                 JobsService.f_limit := Some (Num 2);
                 JobsService.f_cursor := None |}
              (Sample.itemFilters None None)) as [Hj _].
  destruct (Hj [Sample.jobShared3; Sample.jobShared2]
              (Some "2024-01-01T00:01:00.000Z|70000000-0000-4000-8000-000000000002")
              Sample.jobShared2) as [_ Hs].
  - reflexivity.
  - simpl. auto.
  - apply Hs. reflexivity.
Defined.

Lemma length_pop {A : Type} (l : list A) :
  List.length (pop l) = (List.length l - 1)%nat.
Proof.
  unfold pop. induction l as [|x tl IH]; [reflexivity|].
  destruct tl as [|y tl']; [reflexivity|].
  change (removelast (x :: y :: tl')) with (x :: removelast (y :: tl')).
  simpl List.length in *. rewrite IH. lia.
Qed.

Lemma pop_map {A B : Type} (g : A -> B) (l : list A) :
  pop (map g l) = map g (pop l).
Proof.
  unfold pop. induction l as [|x tl IH]; [reflexivity|].
  destruct tl as [|y tl']; [reflexivity|].
  change (map g (x :: y :: tl')) with (g x :: map g (y :: tl')).
  change (removelast (x :: y :: tl')) with (x :: removelast (y :: tl')).
  cbn [map]. cbn [map] in IH.
  change (removelast (g x :: g y :: map g tl'))
    with (g x :: removelast (g y :: map g tl')).
  now rewrite IH.
Qed.

(** The two ways a list endpoint ends well: all fetched rows and no
    cursor, or a full page cut off the [n + 1] fetched rows. *)
Lemma page_cases {A : Type} (rows page : list A) (n : Z) (c : option string)
  (text : A -> string) :
  Z.of_nat (List.length rows) <= n + 1 ->
  (if n <? Z.of_nat (List.length rows)
   then match at_ rows (n - 1) with
        | Some last => Ok (pop rows, Some (text last))
        | None => Err TypeError
        end
   else Ok (rows, None)) = Ok (page, c) ->
  (c = None /\ page = rows /\ Z.of_nat (List.length rows) <= n)
  \/ (c <> None /\ page = pop rows /\ 1 <= n
      /\ Z.of_nat (List.length page) = n).
Proof.
  intros Hlen. destruct (Z.ltb_spec n (Z.of_nat (List.length rows))) as [Hlt|Hge].
  - unfold at_. destruct (Z.ltb_spec (n - 1) 0) as [Hneg|Hpos]; [discriminate|].
    destruct (nth_error rows (Z.to_nat (n - 1))); [|discriminate].
    intros H. injection H as <- <-. right.
    split; [discriminate|]. split; [reflexivity|]. split; [lia|].
    rewrite length_pop. lia.
  - intros H. injection H as <- <-. left. auto.
Qed.

Lemma jobs_findAll_cases uuid_in toISOString parseDate (T : Tenant)
  (f : JobsService.Filters) (db : Database) (page : list Job) (c : option string) :
  JobsService.findAll uuid_in toISOString parseDate T f db = Ok (page, c) ->
  exists q,
    JobsService.findAllQuery uuid_in parseDate T f db = Ok q
    /\ let stored :=
         map fst (firstn (Z.to_nat (JobsService.effectiveLimit f + 1)) q) in
       (c = None /\ page = map JobsTable.selected stored
        /\ Z.of_nat (List.length stored) <= JobsService.effectiveLimit f)
       \/ (c <> None /\ page = map JobsTable.selected (pop stored)
           /\ 1 <= JobsService.effectiveLimit f
           /\ Z.of_nat (List.length page) = JobsService.effectiveLimit f).
Proof.
  unfold JobsService.findAll.
  destruct (JobsService.fetched uuid_in parseDate T f db) as [rows|] eqn:Hf;
    [|discriminate].
  cbn [bind]. intros H.
  apply jobs_fetched_unfold in Hf as (q & Hq & Hpos & ->).
  exists q. split; [exact Hq|]. cbv zeta.
  rewrite <- pop_map, map_map.
  replace (List.length (map fst (firstn (Z.to_nat (JobsService.effectiveLimit f + 1)) q)))
    with (List.length (map (fun r : Job * Dataset => JobsTable.selected (fst r))
                         (firstn (Z.to_nat (JobsService.effectiveLimit f + 1)) q)))
    by now rewrite !length_map.
  eapply page_cases; [|exact H].
  rewrite length_map.
  pose proof (firstn_le_length (Z.to_nat (JobsService.effectiveLimit f + 1)) q).
  unfold Job, Dataset in *. lia.
Qed.

Lemma items_findAll_cases uuid_in array_in toISOString parseDate (T : Tenant)
  (f : ItemsService.Filters) (db : Database) (page : list Item) (c : option string) :
  ItemsService.findAll uuid_in array_in toISOString parseDate T f db = Ok (page, c) ->
  exists q,
    ItemsService.findAllQuery uuid_in array_in parseDate T f db = Ok q
    /\ let stored :=
         map fst (firstn (Z.to_nat (ItemsService.effectiveLimit f + 1)) q) in
       (c = None /\ page = map ItemsTable.selected stored
        /\ Z.of_nat (List.length stored) <= ItemsService.effectiveLimit f)
       \/ (c <> None /\ page = map ItemsTable.selected (pop stored)
           /\ 1 <= ItemsService.effectiveLimit f
           /\ Z.of_nat (List.length page) = ItemsService.effectiveLimit f).
Proof.
  unfold ItemsService.findAll.
  destruct (ItemsService.fetched uuid_in array_in parseDate T f db) as [rows|] eqn:Hf;
    [|discriminate].
  cbn [bind]. intros H.
  apply items_fetched_unfold in Hf as (q & Hq & Hpos & ->).
  exists q. split; [exact Hq|]. cbv zeta.
  rewrite <- pop_map, map_map.
  replace (List.length (map fst (firstn (Z.to_nat (ItemsService.effectiveLimit f + 1)) q)))
    with (List.length (map (fun r : Item * Dataset => ItemsTable.selected (fst r))
                         (firstn (Z.to_nat (ItemsService.effectiveLimit f + 1)) q)))
    by now rewrite !length_map.
  eapply page_cases; [|exact H].
  rewrite length_map.
  pose proof (firstn_le_length (Z.to_nat (ItemsService.effectiveLimit f + 1)) q).
  unfold Item, Dataset in *. lia.
Qed.

(** X10 - whatever limit is asked for, a page of jobs or of items never
    holds more than 100 rows, nor more than the effective page size; and a
    next cursor only comes with a page that is full. *)
Theorem pages_are_capped :
  forall (uuid_in : string -> option string)
         (array_in : string -> option (list (option string)))
         (toISOString : Date -> string) (parseDate : string -> option Date)
         (T : Tenant) (db : Database)
         (fj : JobsService.Filters) (fi : ItemsService.Filters),
    (forall page c,
       JobsService.findAll uuid_in toISOString parseDate T fj db = Ok (page, c) ->
       Z.of_nat (List.length page) <= JobsService.effectiveLimit fj <= 100
       /\ (c <> None ->
           Z.of_nat (List.length page) = JobsService.effectiveLimit fj))
    /\ (forall page c,
          ItemsService.findAll uuid_in array_in toISOString parseDate T fi db
          = Ok (page, c) ->
          Z.of_nat (List.length page) <= ItemsService.effectiveLimit fi <= 100
          /\ (c <> None ->
              Z.of_nat (List.length page) = ItemsService.effectiveLimit fi)).
Proof.
  intros uuid_in array_in toISOString parseDate T db fj fi. split.
  - intros page c H.
    assert (JobsService.effectiveLimit fj <= 100) as Hcap
      by (unfold JobsService.effectiveLimit, Math_min; lia).
    apply jobs_findAll_cases in H as (q & _ & [(-> & -> & Hle)|(Hc & _ & _ & Heq)]).
    + rewrite length_map. unfold Job, Dataset in *. split; [lia | congruence].
    + split; [lia | auto].
  - intros page c H.
    assert (ItemsService.effectiveLimit fi <= 100) as Hcap
      by (unfold ItemsService.effectiveLimit, Math_min; lia).
    apply items_findAll_cases in H as (q & _ & [(-> & -> & Hle)|(Hc & _ & _ & Heq)]).
    + rewrite length_map. unfold Item, Dataset in *. split; [lia | congruence].
    + split; [lia | auto].
Qed.

Lemma pages_are_capped_witness :
  Z.of_nat (List.length [Sample.jobShared3; Sample.jobShared2])
  = JobsService.effectiveLimit (Sample.jobFilters (Some (Num 2)) None).
Proof.
  destruct (pages_are_capped Sample.uuid_in Sample.array_in
              Sample.toISOString Sample.parseDate Sample.tenantA
              Sample.db (Sample.jobFilters (Some (Num 2)) None)
              (Sample.itemFilters None None)) as [Hj _].
  destruct (Hj [Sample.jobShared3; Sample.jobShared2]
              (Some "2024-01-01T00:01:00.000Z|70000000-0000-4000-8000-000000000002"))
    as [_ Hfull].
  - reflexivity.
  - apply Hfull. discriminate.
Defined.

Lemma StronglySorted_firstn {A : Type} (r : A -> A -> Prop) (n : nat) (l : list A) :
  StronglySorted r l -> StronglySorted r (firstn n l).
Proof.
  revert l. induction n as [|n IH]; intros l Hs; [constructor|].
  destruct Hs as [|x tl Hs Hall]; simpl; constructor; [now apply IH|].
  apply Forall_forall. intros y Hy. apply in_firstn in Hy.
  rewrite Forall_forall in Hall. now apply Hall.
Qed.

Lemma StronglySorted_pop {A : Type} (r : A -> A -> Prop) (l : list A) :
  StronglySorted r l -> StronglySorted r (pop l).
Proof.
  intros Hs. destruct l as [|x tl]; [constructor|].
  rewrite (pop_firstn (x :: tl) (List.length tl)) by reflexivity.
  now apply StronglySorted_firstn.
Qed.

Lemma keyLe_date (a b : Timestamp * string) : keyLe a b = true -> fst a <= fst b.
Proof.
  unfold keyLe. intros H. apply orb_true_iff in H as [H|H].
  - apply Z.ltb_lt in H. lia.
  - apply andb_true_iff in H as [H _]. apply Z.eqb_eq in H. lia.
Qed.

(** X11 - the rows of a page are rows of the table, read out in the order
    of the statement: jobs by the stored [(created_at, id)] and items by
    the stored [(observed_at, id)], each row at or above the ones after
    it; the timestamps as returned never go up along the page. *)
Theorem pages_are_ordered :
  forall (uuid_in : string -> option string)
         (array_in : string -> option (list (option string)))
         (toISOString : Date -> string) (parseDate : string -> option Date)
         (T : Tenant) (db : Database)
         (fj : JobsService.Filters) (fi : ItemsService.Filters),
    (forall page c,
       JobsService.findAll uuid_in toISOString parseDate T fj db = Ok (page, c) ->
       (exists stored,
          page = map JobsTable.selected stored
          /\ (forall j, In j stored -> In j (jobs db))
          /\ StronglySorted
               (fun a b => keyLe (JobsService.jobKey b) (JobsService.jobKey a) = true)
               stored)
       /\ StronglySorted
            (fun a b => JobsTable.created_at b <= JobsTable.created_at a) page)
    /\ (forall page c,
          ItemsService.findAll uuid_in array_in toISOString parseDate T fi db
          = Ok (page, c) ->
          (exists stored,
             page = map ItemsTable.selected stored
             /\ (forall i, In i stored -> In i (items db))
             /\ StronglySorted
                  (fun a b => keyLe (ItemsService.itemKey b) (ItemsService.itemKey a)
                              = true)
                  stored)
          /\ StronglySorted
               (fun a b => ItemsTable.observed_at b <= ItemsTable.observed_at a) page).
Proof.
  intros uuid_in array_in toISOString parseDate T db fj fi. split.
  - intros page c H.
    apply jobs_findAll_cases in H as (q & Hq & Hcases). cbv zeta in Hcases.
    assert (StronglySorted
              (fun a b => keyLe (JobsService.jobKey b) (JobsService.jobKey a) = true)
              (map fst (firstn (Z.to_nat (JobsService.effectiveLimit fj + 1)) q)))
      as Hs.
    { apply StronglySorted_map, StronglySorted_firstn.
      apply jobs_query_unfold in Hq as (pd & ps & pc & -> & _).
      apply (orderBy_desc (fun r : Job * Dataset => JobsService.jobKey (fst r))). }
    assert (forall j, In j (map fst (firstn (Z.to_nat (JobsService.effectiveLimit fj + 1)) q))
                      -> In j (jobs db)) as Hin.
    { intros j Hj. apply in_map_iff in Hj as ([j' d] & <- & Hj).
      apply in_firstn in Hj.
      destruct (jobs_query_in _ _ _ _ _ _ _ Hq Hj) as [Hjoin _].
      now apply in_innerJoin in Hjoin as (? & _). }
    assert (exists stored,
              page = map JobsTable.selected stored
              /\ (forall j, In j stored -> In j (jobs db))
              /\ StronglySorted
                   (fun a b => keyLe (JobsService.jobKey b) (JobsService.jobKey a) = true)
                   stored) as (stored & -> & Hsub & Hsorted).
    { destruct Hcases as [(_ & -> & _)|(_ & -> & _)]; eexists;
        (split; [reflexivity|]).
      - split; assumption.
      - split; [|now apply StronglySorted_pop].
        intros j Hj. apply Hin. now apply in_pop in Hj. }
    split; [exists stored; auto|].
    eapply StronglySorted_map_in; [|exact Hsorted].
    intros a b _ _ Hab. apply keyLe_date in Hab.
    cbn [JobsTable.created_at JobsTable.selected]. now apply asRead_mono.
  - intros page c H.
    apply items_findAll_cases in H as (q & Hq & Hcases). cbv zeta in Hcases.
    assert (StronglySorted
              (fun a b => keyLe (ItemsService.itemKey b) (ItemsService.itemKey a) = true)
              (map fst (firstn (Z.to_nat (ItemsService.effectiveLimit fi + 1)) q)))
      as Hs.
    { apply StronglySorted_map, StronglySorted_firstn.
      apply items_query_unfold in Hq as (q0 & pc & _ & -> & _).
      apply (orderBy_desc (fun r : Item * Dataset => ItemsService.itemKey (fst r))). }
    assert (forall i, In i (map fst (firstn (Z.to_nat (ItemsService.effectiveLimit fi + 1)) q))
                      -> In i (items db)) as Hin.
    { intros i Hi. apply in_map_iff in Hi as ([i' d] & <- & Hi).
      apply in_firstn in Hi.
      destruct (items_query_in _ _ _ _ _ _ _ _ Hq Hi) as [Hjoin _].
      now apply in_innerJoin in Hjoin as (? & _). }
    assert (exists stored,
              page = map ItemsTable.selected stored
              /\ (forall i, In i stored -> In i (items db))
              /\ StronglySorted
                   (fun a b => keyLe (ItemsService.itemKey b) (ItemsService.itemKey a)
                               = true)
                   stored) as (stored & -> & Hsub & Hsorted).
    { destruct Hcases as [(_ & -> & _)|(_ & -> & _)]; eexists;
        (split; [reflexivity|]).
      - split; assumption.
      - split; [|now apply StronglySorted_pop].
        intros i Hi. apply Hin. now apply in_pop in Hi. }
    split; [exists stored; auto|].
    eapply StronglySorted_map_in; [|exact Hsorted].
    intros a b _ _ Hab. apply keyLe_date in Hab.
    cbn [ItemsTable.observed_at ItemsTable.selected]. now apply asRead_mono.
Qed.

Lemma pages_are_ordered_witness :
  StronglySorted
    (fun a b => ItemsTable.observed_at b <= ItemsTable.observed_at a)
    [Sample.itemShared3; Sample.itemShared2].
Proof.
  destruct (pages_are_ordered Sample.uuid_in Sample.array_in
              Sample.toISOString Sample.parseDate Sample.tenantA
              Sample.db (Sample.jobFilters None None)
              (Sample.itemFilters (Some (Num 2)) None)) as [_ Hi].
  apply (Hi [Sample.itemShared3; Sample.itemShared2]
            (Some "2024-01-01T00:01:00.000Z|80000000-0000-4000-8000-000000000002")).
  reflexivity.
Defined.

(** X12 - a status filter that names none of the five job states is not
    an error: when the request goes through, the page is empty and there
    is no next cursor. *)
Theorem unknown_status_lists_nothing :
  forall (uuid_in : string -> option string)
         (toISOString : Date -> string) (parseDate : string -> option Date)
         (T : Tenant) (db : Database) (f : JobsService.Filters)
         (s : string) (page : list Job) (c : option string),
    truthy (JobsService.f_status f) = Some s ->
    (forall st, statusText st <> s) ->
    JobsService.findAll uuid_in toISOString parseDate T f db = Ok (page, c) ->
    page = [] /\ c = None.
Proof.
  intros uuid_in toISOString parseDate T db f s page c Hs Hunknown H.
  apply jobs_findAll_cases in H as (q & Hq & Hcases).
  assert (q = []) as ->.
  { destruct q as [|r tl]; [reflexivity|]. exfalso.
    destruct (jobs_query_filters _ _ _ _ _ _ _ Hq (or_introl eq_refl)) as [_ Hst].
    exact (Hunknown _ (Hst s Hs)). }
  rewrite firstn_nil in Hcases. simpl in Hcases.
  destruct Hcases as [(-> & -> & _)|(_ & -> & Hn & Hlen)]; [auto|].
  simpl in Hlen. lia.
Qed.

Lemma unknown_status_lists_nothing_witness :
  JobsService.findAll Sample.uuid_in Sample.toISOString Sample.parseDate
    Sample.tenantA
    {| JobsService.f_datasetId := None;
       JobsService.f_status := Some "DONE";
       JobsService.f_limit := None;
       JobsService.f_cursor := None |} Sample.db
  = Ok ([], None).
Proof.
  destruct (JobsService.findAll Sample.uuid_in Sample.toISOString Sample.parseDate
              Sample.tenantA
              {| JobsService.f_datasetId := None;
                 JobsService.f_status := Some "DONE";
                 JobsService.f_limit := None;
                 JobsService.f_cursor := None |} Sample.db)
    as [[page c]|e] eqn:E; [|discriminate E].
  assert (forall st, statusText st <> "DONE") as Hno
    by (intros []; discriminate).
  pose proof (fun Hs => unknown_status_lists_nothing _ _ _ _ _ _ "DONE" _ _ Hs Hno E)
    as Hempty.
  destruct (Hempty eq_refl) as [-> ->]. reflexivity.
Defined.

(** X20 - an empty time window is not an error: when [since] lies after
    [until], a request for items that goes through returns an empty page
    and no next cursor. *)
Theorem empty_window_lists_nothing :
  forall (uuid_in : string -> option string)
         (array_in : string -> option (list (option string)))
         (toISOString : Date -> string) (parseDate : string -> option Date)
         (T : Tenant) (db : Database) (f : ItemsService.Filters)
         (s u : string) (ds du : Date) (page : list Item) (c : option string),
    truthy (ItemsService.f_since f) = Some s -> parseDate s = Some ds ->
    truthy (ItemsService.f_until f) = Some u -> parseDate u = Some du ->
    du < ds ->
    ItemsService.findAll uuid_in array_in toISOString parseDate T f db
    = Ok (page, c) ->
    page = [] /\ c = None.
Proof.
  intros uuid_in array_in toISOString parseDate T db f s u ds du page c
    Hs Hds Hu Hdu Hlt H.
  apply items_findAll_cases in H as (q & Hq & Hcases).
  assert (q = []) as ->.
  { destruct q as [|r tl]; [reflexivity|]. exfalso.
    destruct (items_query_filters _ _ _ _ _ _ _ _ Hq (or_introl eq_refl))
      as (q0 & base & Hf & Hin).
    destruct (items_applyFilters_sat _ _ _ _ _ _ _ Hf Hin)
      as (_ & _ & _ & _ & Hsince & Huntil).
    destruct (Hsince s Hs) as (ds' & Hds' & Hlo).
    destruct (Huntil u Hu) as (du' & Hdu' & Hhi).
    assert (ds' = ds) by congruence. assert (du' = du) by congruence.
    subst. unfold toTimestamp in *. lia. }
  rewrite firstn_nil in Hcases. simpl in Hcases.
  destruct Hcases as [(-> & -> & _)|(_ & -> & Hn & Hlen)]; [auto|].
  simpl in Hlen. lia.
Qed.

Lemma empty_window_lists_nothing_witness :
  ItemsService.findAll Sample.uuid_in Sample.array_in Sample.toISOString
    Sample.parseDate Sample.tenantA
    {| ItemsService.f_datasetId := None;
       ItemsService.f_entityType := None;
       ItemsService.f_tag := None;
       ItemsService.f_source := None;
       ItemsService.f_since := Some "2024-01-01T00:02:00.000Z";
       ItemsService.f_until := Some "2024-01-01T00:00:00.000Z";
       ItemsService.f_limit := None;
       ItemsService.f_cursor := None |} Sample.db
  = Ok ([], None).
Proof.
  destruct (ItemsService.findAll Sample.uuid_in Sample.array_in Sample.toISOString
              Sample.parseDate Sample.tenantA
              {| ItemsService.f_datasetId := None;
                 ItemsService.f_entityType := None;
                 ItemsService.f_tag := None;
                 ItemsService.f_source := None;
                 ItemsService.f_since := Some "2024-01-01T00:02:00.000Z";
                 ItemsService.f_until := Some "2024-01-01T00:00:00.000Z";
                 ItemsService.f_limit := None;
                 ItemsService.f_cursor := None |} Sample.db)
    as [[page c]|e] eqn:E; [|discriminate E].
  pose proof (fun H1 H2 H3 H4 H5 =>
                empty_window_lists_nothing _ _ _ _ _ _ _
                  "2024-01-01T00:02:00.000Z" "2024-01-01T00:00:00.000Z"
                  Sample.d2 Sample.d0 _ _ H1 H2 H3 H4 H5 E) as Hempty.
  destruct Hempty as [-> ->]; reflexivity.
Defined.

(* ================================================================== *)
(** ** The API key guard *)

(** X13 - the guard lets a request through only with a key that is
    present and not empty, and the tenant it attaches is a row of the
    tenants table, as the store hands it out, that holds that key and is
    enabled: a request without a key, with an unknown key or with the key
    of a disabled tenant never reaches a service. *)
Theorem guard_admits_enabled_key_holders_only :
  forall (apiKey : option string) (db : Database) (t : Tenant),
    ApiKeyGuard.canActivate apiKey db = ApiKeyGuard.Activated t ->
    (exists t0, In t0 (tenants db) /\ t = TenantsTable.selected t0)
    /\ apiKey = Some (TenantsTable.api_key t)
    /\ TenantsTable.api_key t <> ""
    /\ TenantsTable.is_enabled t = true.
Proof.
  intros apiKey db t. unfold ApiKeyGuard.canActivate, truthy, where_.
  destruct apiKey as [k|]; [|discriminate].
  destruct (String.eqb_spec k "") as [|Hne]; [discriminate|].
  destruct (executeTakeFirst _) as [t'|] eqn:E; [|discriminate].
  intros H. injection H as <-.
  apply executeTakeFirst_in in E. rewrite !filter_In in E.
  destruct E as [[Hin Hkey] Hen]. apply String.eqb_eq in Hkey.
  apply Bool.eqb_prop in Hen. subst k.
  cbn [TenantsTable.api_key TenantsTable.is_enabled TenantsTable.selected].
  split; [exists t'|]; auto.
Qed.

Lemma guard_admits_enabled_key_holders_only_witness :
  (exists t0, In t0 (tenants Sample.dbWithDisabled)
              /\ Sample.tenantA = TenantsTable.selected t0)
  /\ Some "key-a" = Some (TenantsTable.api_key Sample.tenantA)
  /\ TenantsTable.api_key Sample.tenantA <> ""
  /\ TenantsTable.is_enabled Sample.tenantA = true.
Proof.
  apply (guard_admits_enabled_key_holders_only (Some "key-a") Sample.dbWithDisabled).
  reflexivity.
Defined.

(** X14 - with API keys unique, the key of an enabled tenant attaches
    that very tenant, and the key of a disabled tenant is turned down with
    the message for an invalid or disabled key; a missing or empty key is
    turned down with the message for a missing header. *)
Theorem guard_resolves_keys :
  forall (db : Database) (t : Tenant),
    NoDup (map TenantsTable.api_key (tenants db)) ->
    In t (tenants db) ->
    TenantsTable.api_key t <> "" ->
    ApiKeyGuard.canActivate (Some (TenantsTable.api_key t)) db
    = (if TenantsTable.is_enabled t
       then ApiKeyGuard.Activated (TenantsTable.selected t)
       else ApiKeyGuard.UnauthorizedException "Invalid or disabled API key")
    /\ ApiKeyGuard.canActivate None db
       = ApiKeyGuard.UnauthorizedException "Missing X-API-Key header"
    /\ ApiKeyGuard.canActivate (Some "") db
       = ApiKeyGuard.UnauthorizedException "Missing X-API-Key header".
Proof.
  intros db t Huniq Hin Hne. split; [|split; reflexivity].
  unfold ApiKeyGuard.canActivate, truthy, where_.
  apply String.eqb_neq in Hne. rewrite Hne.
  assert (filter (fun x => (TenantsTable.api_key x =? TenantsTable.api_key t)%string)
            (tenants db) = [t]) as ->.
  { clear Hne. induction (tenants db) as [|x tl IH]; [destruct Hin|].
    simpl in Huniq. inversion Huniq as [|? ? Hnot Htl]; subst. simpl.
    destruct Hin as [->|Hin].
    - rewrite String.eqb_refl. f_equal. now apply unused_id.
    - destruct (String.eqb_spec (TenantsTable.api_key x) (TenantsTable.api_key t))
        as [Heq|_]; [|now apply IH].
      exfalso. apply Hnot. rewrite Heq. now apply in_map. }
  simpl. destruct (TenantsTable.is_enabled t); reflexivity.
Qed.

Lemma guard_resolves_keys_witness :
  ApiKeyGuard.canActivate (Some "key-c") Sample.dbWithDisabled
  = ApiKeyGuard.UnauthorizedException "Invalid or disabled API key"
  /\ ApiKeyGuard.canActivate (Some "key-b") Sample.dbWithDisabled
     = ApiKeyGuard.Activated (TenantsTable.selected Sample.tenantB).
Proof.
  assert (NoDup (map TenantsTable.api_key (tenants Sample.dbWithDisabled))) as Hu
    by (repeat constructor; simpl; intuition discriminate).
  split.
  - apply (guard_resolves_keys Sample.dbWithDisabled Sample.disabledTenant Hu).
    + simpl. auto.
    + discriminate.
  - apply (guard_resolves_keys Sample.dbWithDisabled Sample.tenantB Hu).
    + simpl. auto.
    + discriminate.
Defined.

(* ================================================================== *)
(** ** The seed script *)

Lemma seed_unfold (a b : string) (now : Timestamp) (db : Database) :
  Seed.seed a b now db
  = {| tenants :=
         match executeTakeFirst
                 (where_ (fun t => (TenantsTable.api_key t =? "dev-key")%string)
                    (tenants db)) with
         | Some _ => tenants db
         | None => (tenants db ++ [Seed.newTenant a now])%list
         end;
       datasets :=
         match executeTakeFirst
                 (where_ (fun d => (DatasetsTable.extractor d
                                    =? "example_news_spider")%string)
                    (where_ (fun d => (DatasetsTable.name d =? "Example News")%string)
                       (datasets db))) with
         | Some _ => datasets db
         | None => (datasets db ++ [Seed.newDataset b now])%list
         end;
       jobs := jobs db;
       items := items db |}.
Proof.
  unfold Seed.seed. destruct db as [ts ds js its]. cbn [tenants datasets jobs items].
  destruct (executeTakeFirst
              (where_ (fun t => (TenantsTable.api_key t =? "dev-key")%string) ts));
    cbn [datasets Seed.withTenants];
    destruct (executeTakeFirst
                (where_ (fun d => (DatasetsTable.extractor d
                                   =? "example_news_spider")%string)
                   (where_ (fun d => (DatasetsTable.name d =? "Example News")%string)
                      ds)));
    reflexivity.
Qed.

Lemma executeTakeFirst_where_app {A : Type} (p : A -> bool) (l : list A) (x : A) :
  p x = true ->
  executeTakeFirst (where_ p l) = None ->
  executeTakeFirst (where_ p (l ++ [x])) = Some x.
Proof.
  unfold where_. intros Hx Hnone. apply executeTakeFirst_none in Hnone.
  rewrite filter_app, Hnone. simpl. now rewrite Hx.
Qed.

(** X15 - the seed is idempotent and only ever adds: running it again,
    whatever ids and time the store would assign, leaves the store as the
    first run left it; a run keeps every tenant and dataset that was
    there, adds at most one of each, and touches neither jobs nor items;
    afterwards a tenant with key [dev-key] and a dataset named
    [Example News] with the example extractor exist. *)
Theorem seed_is_idempotent :
  forall (a b a' b' : string) (now now' : Timestamp) (db : Database),
    let db1 := Seed.seed a b now db in
    Seed.seed a' b' now' db1 = db1
    /\ (exists ts ds,
          tenants db1 = (tenants db ++ ts)%list
          /\ datasets db1 = (datasets db ++ ds)%list
          /\ (List.length ts <= 1)%nat /\ (List.length ds <= 1)%nat)
    /\ jobs db1 = jobs db /\ items db1 = items db
    /\ (exists t, In t (tenants db1) /\ TenantsTable.api_key t = "dev-key")
    /\ (exists d, In d (datasets db1)
                  /\ DatasetsTable.name d = "Example News"
                  /\ DatasetsTable.extractor d = "example_news_spider").
Proof.
  intros a b a' b' now now' db db1.
  pose proof (seed_unfold a b now db) as H1.
  pose proof (seed_unfold a' b' now' db1) as H2.
  unfold Tenant, Dataset in *.
  set (isDev := fun t : TenantsTable.row =>
                  (TenantsTable.api_key t =? "dev-key")%string) in *.
  set (isNews := fun d : DatasetsTable.row =>
                   (DatasetsTable.name d =? "Example News")%string) in *.
  set (isSpider := fun d : DatasetsTable.row =>
                     (DatasetsTable.extractor d =? "example_news_spider")%string) in *.
  fold db1 in H1.
  assert (exists t, executeTakeFirst (where_ isDev (tenants db1)) = Some t) as [t Ht].
  { rewrite H1. cbn [tenants].
    destruct (executeTakeFirst (where_ isDev (tenants db))) as [t|] eqn:E.
    - now exists t.
    - eexists. now apply executeTakeFirst_where_app. }
  assert (exists d, executeTakeFirst (where_ isSpider (where_ isNews (datasets db1)))
                    = Some d) as [d Hd].
  { rewrite H1. cbn [datasets].
    destruct (executeTakeFirst (where_ isSpider (where_ isNews (datasets db))))
      as [d|] eqn:E.
    - now exists d.
    - apply executeTakeFirst_none in E. unfold where_ in *.
      rewrite !filter_app, E. simpl. now eexists. }
  split; [|split; [|split; [|split; [|split]]]].
  - rewrite H2, Ht, Hd. now destruct db1.
  - rewrite H1. cbn [tenants datasets].
    destruct (executeTakeFirst _); destruct (executeTakeFirst _).
    + exists [], []. rewrite !app_nil_r. repeat split; simpl; lia.
    + exists [], [Seed.newDataset b now]. rewrite app_nil_r.
      repeat split; simpl; lia.
    + exists [Seed.newTenant a now], []. rewrite app_nil_r.
      repeat split; simpl; lia.
    + exists [Seed.newTenant a now], [Seed.newDataset b now].
      repeat split; simpl; lia.
  - now rewrite H1.
  - now rewrite H1.
  - exists t. apply executeTakeFirst_in in Ht. unfold where_ in Ht.
    apply filter_In in Ht as [Hin Hk]. apply String.eqb_eq in Hk. auto.
  - exists d. apply executeTakeFirst_in in Hd. unfold where_ in Hd.
    rewrite !filter_In in Hd. destruct Hd as [[Hin Hn] He].
    apply String.eqb_eq in Hn, He. auto.
Qed.

(** An unfiltered listing shows every visible row of the table. *)
Lemma datasets_findAll_unfiltered array_in (T : Tenant) (mine : option bool)
  (db : Database) (d : Dataset) :
  In d (datasets db) -> isVisible d T = true ->
  (mine = Some true ->
   DatasetsTable.owner_tenant_id d = Some (TenantsTable.id T)) ->
  exists l,
    DatasetsService.findAll array_in T
      {| DatasetsService.entityType := None;
         DatasetsService.tag := None;
         DatasetsService.source := None;
         DatasetsService.mine := mine |} db = Ok l
    /\ In (DatasetsTable.selected d) l.
Proof.
  intros Hin Hv Hm. unfold DatasetsService.findAll.
  cbn [truthy DatasetsService.entityType DatasetsService.tag
       DatasetsService.source DatasetsService.mine bind].
  eexists. split; [reflexivity|].
  apply in_map. apply in_orderBy.
  destruct mine as [[|]|]; unfold where_; rewrite ?filter_In; auto.
  split; [auto|]. rewrite (Hm eq_refl). apply String.eqb_refl.
Qed.

(** X16 - setting up from scratch: after seeding a store that has no
    tenant with key [dev-key] and no [Example News] dataset of the example
    extractor, the guard accepts [dev-key] as the new dev tenant, and the
    seeded dataset, being shared, is in the unfiltered dataset list of
    every tenant. *)
Theorem seeded_store_is_usable :
  forall (array_in : string -> option (list (option string)))
         (a b : string) (now : Timestamp) (db : Database) (T : Tenant),
    (forall t, In t (tenants db) -> TenantsTable.api_key t <> "dev-key") ->
    (forall d, In d (datasets db) ->
               DatasetsTable.name d = "Example News" ->
               DatasetsTable.extractor d <> "example_news_spider") ->
    ApiKeyGuard.canActivate (Some "dev-key") (Seed.seed a b now db)
    = ApiKeyGuard.Activated (TenantsTable.selected (Seed.newTenant a now))
    /\ exists l,
         DatasetsService.findAll array_in T
           {| DatasetsService.entityType := None;
              DatasetsService.tag := None;
              DatasetsService.source := None;
              DatasetsService.mine := None |}
           (Seed.seed a b now db) = Ok l
         /\ In (DatasetsTable.selected (Seed.newDataset b now)) l.
Proof.
  intros array_in a b now db T Hnodev Hnonews.
  pose proof (seed_unfold a b now db) as H1.
  unfold Tenant, Dataset in *.
  assert (filter (fun t : TenantsTable.row =>
                    (TenantsTable.api_key t =? "dev-key")%string) (tenants db) = [])
    as Ht.
  { apply filter_none. intros t Hin. apply String.eqb_neq. now apply Hnodev. }
  assert (filter (fun d : DatasetsTable.row =>
                    (DatasetsTable.extractor d =? "example_news_spider")%string)
            (filter (fun d : DatasetsTable.row =>
                       (DatasetsTable.name d =? "Example News")%string)
               (datasets db)) = []) as Hd.
  { apply filter_none. intros d Hin. apply filter_In in Hin as [Hin Hn].
    apply String.eqb_eq in Hn. apply String.eqb_neq. now apply Hnonews. }
  unfold where_ in H1. rewrite Ht, Hd in H1. simpl in H1. rewrite H1. split.
  - unfold ApiKeyGuard.canActivate, where_. cbn [truthy String.eqb tenants].
    simpl truthy. rewrite filter_app, Ht. reflexivity.
  - apply datasets_findAll_unfiltered.
    + cbn [datasets]. apply in_or_app. right. now left.
    + reflexivity.
    + discriminate.
Qed.

Lemma seeded_store_is_usable_witness :
  ApiKeyGuard.canActivate (Some "dev-key")
    (Seed.seed "99999999-9999-4999-8999-999999999999" Sample.freshDatasetId
       Sample.t0 Sample.emptyDb)
  = ApiKeyGuard.Activated
      (TenantsTable.selected
         (Seed.newTenant "99999999-9999-4999-8999-999999999999" Sample.t0)).
Proof.
  apply (seeded_store_is_usable Sample.array_in _ Sample.freshDatasetId Sample.t0
           Sample.emptyDb Sample.tenantA).
  - intros t [].
  - intros d [].
Defined.

(** X19 - a newly created dataset shows up in its creator's dataset list
    (unfiltered, or with [mine]) and in no list of a tenant with another
    id, whatever the filters. *)
Theorem created_dataset_is_listed_for_creator_only :
  forall (array_in : string -> option (list (option string)))
         (fresh : string) (now : Timestamp) (T : Tenant)
         (dto : CreateDatasetDto.dto) (db : Database),
    let d := fst (DatasetsService.create fresh now T dto db) in
    let db' := snd (DatasetsService.create fresh now T dto db) in
    (forall mine,
       exists l,
         DatasetsService.findAll array_in T
           {| DatasetsService.entityType := None;
              DatasetsService.tag := None;
              DatasetsService.source := None;
              DatasetsService.mine := mine |} db' = Ok l
         /\ In d l)
    /\ (forall T' f l, TenantsTable.id T' <> TenantsTable.id T ->
                       DatasetsService.findAll array_in T' f db' = Ok l ->
                       ~ In d l).
Proof.
  intros array_in fresh now T dto db d db'. split.
  - intros mine. unfold d, db', DatasetsService.create. cbn [fst snd].
    apply datasets_findAll_unfiltered.
    + cbn [datasets DatasetsService.withDatasets]. apply in_or_app. right. now left.
    + unfold isVisible. cbn [DatasetsTable.owner_tenant_id].
      now rewrite String.eqb_refl.
    + reflexivity.
  - intros T' f l Hne H Hin.
    destruct (datasets_findAll_in _ _ _ _ _ _ H Hin) as (d0 & Hd0 & _ & Hv).
    apply isVisible_spec in Hv.
    assert (DatasetsTable.owner_tenant_id d0 = Some (TenantsTable.id T)) as Ho.
    { change (DatasetsTable.owner_tenant_id d0)
        with (DatasetsTable.owner_tenant_id (DatasetsTable.selected d0)).
      rewrite <- Hd0. reflexivity. }
    rewrite Ho in Hv. destruct Hv as [Hv|Hv]; congruence.
Qed.

(* ================================================================== *)
(** ** Creating jobs *)

(** X17 - [JobsService.create] never hands back a job: once the dataset
    lookup has gone through it reads [dto], a name that its body does not
    bind, and stops with a ReferenceError before anything is inserted or
    queued; this is the outcome for every dataset the caller can see. *)
Theorem create_job_stops_on_unbound_name :
  forall (uuid_in : string -> option string)
         (fresh : string) (now : Timestamp) (T : Tenant) (datasetId : string)
         (db : Database) (queue : list JobsService.QueueJob),
    (forall r, JobsService.create uuid_in fresh now T datasetId (db, queue) <> Ok r)
    /\ (JobsService.create uuid_in fresh now T datasetId (db, queue)
        = Err ReferenceError
        <-> exists d, In d (datasets db)
                      /\ uuid_in datasetId = Some (DatasetsTable.id d)
                      /\ (DatasetsTable.owner_tenant_id d = None
                          \/ DatasetsTable.owner_tenant_id d
                             = Some (TenantsTable.id T))).
Proof.
  intros uuid_in fresh now T datasetId db queue. rewrite jobs_create_unfold.
  destruct (DatasetsService.findOne uuid_in datasetId T db) as [d|e] eqn:Hd.
  - split; [discriminate|]. split; [|reflexivity]. intros _.
    apply datasets_findOne_ok in Hd as (d0 & _ & Hin & Hu & Hv).
    exists d0. split; [assumption|]. split; [assumption|].
    now apply isVisible_spec.
  - split; [discriminate|]. split.
    + intros [= ->]. apply datasets_findOne_err in Hd as [[H _]|[H _]]; discriminate.
    + intros (d & Hin & Hu & Hv). apply isVisible_spec in Hv.
      destruct (datasets_findOne_visible uuid_in datasetId T db d Hin Hu Hv)
        as [d' Hd'].
      congruence.
Qed.

Lemma create_job_stops_on_unbound_name_witness :
  JobsService.create Sample.uuid_in Sample.freshJobId Sample.t2 Sample.tenantA
    (DatasetsTable.id Sample.sharedDataset) (Sample.db, [])
  = Err ReferenceError.
Proof.
  apply (create_job_stops_on_unbound_name Sample.uuid_in Sample.freshJobId
           Sample.t2 Sample.tenantA (DatasetsTable.id Sample.sharedDataset)
           Sample.db []).
  exists Sample.sharedDataset. split; [simpl; auto|]. split; [reflexivity|].
  now left.
Defined.

(* ================================================================== *)
(** ** The traversal of the job list *)

Lemma jobs_follow uuid_in toISOString parseDate (T : Tenant)
  (f : JobsService.Filters) (db : Database) (L : list (Job * Dataset)) :
  NoDup (map JobsTable.id (jobs db)) ->
  NoDup (map DatasetsTable.id (datasets db)) ->
  canonicalIds uuid_in JobsTable.id (jobs db) ->
  (forall j, In j (jobs db) ->
     noPipe (JobsTable.id j) = true
     /\ parseDate (toISOString (toDate (JobsTable.created_at j)))
        = Some (toDate (JobsTable.created_at j))
     /\ noPipe (toISOString (toDate (JobsTable.created_at j))) = true) ->
  1 <= JobsService.effectiveLimit f ->
  JobsService.findAllQuery uuid_in parseDate T (JobsService.withCursor f None) db
  = Ok L ->
  exists pages,
    (forall fuel, (List.length L < fuel)%nat ->
       JobsService.fetchAllPages uuid_in toISOString parseDate fuel T f None db
       = Some pages)
    /\ Subsequence (List.concat pages)
         (map (fun r => JobsTable.selected (fst r)) L)
    /\ Forall (fun p => (List.length p <= Z.to_nat (JobsService.effectiveLimit f))%nat)
         pages
    /\ ((forall j, In j (jobs db) -> JobsTable.created_at j mod 1000 = 0) ->
        List.concat pages = map (fun r => JobsTable.selected (fst r)) L
        /\ Z.of_nat (List.length pages)
           = Z.max 1 (ItemsService.ceilDiv (Z.of_nat (List.length L))
                        (JobsService.effectiveLimit f))).
Proof.
  intros Hjobs Hdatasets Hcanon Hcodec Hn HL.
  destruct (jobs_uncut_rows uuid_in parseDate T f db L Hjobs Hdatasets HL)
    as (_ & Hstrict & Hrows).
  destruct (follow_all
              (fun r : Job * Dataset => JobsService.jobKey (fst r))
              (fun r : Job * Dataset => JobsTable.selected (fst r))
              (fun r : Job * Dataset =>
                 cursorText toISOString (toDate (JobsTable.created_at (fst r)))
                   (JobsTable.id (fst r)))
              (fun cursor =>
                 JobsService.findAll uuid_in toISOString parseDate T
                   (JobsService.withCursor f cursor) db)
              L (Z.to_nat (JobsService.effectiveLimit f)))
    as (pages & Hrun & Hsub & Hsize & Hwhole).
  - lia.
  - exact Hstrict.
  - now apply jobs_findAll_answer.
  - intros x Hx. apply jobs_findAll_answer; [|exact Hn].
    rewrite (jobs_query_with_cursor _ _ _ _ _ _ _ HL), truthy_cursorText.
    destruct (Hcodec _ (Hrows x Hx)) as (Hi & Hp & Hd).
    rewrite (cursorParams_of_row _ _ _ _ _ Hp Hd Hi (Hcanon _ (Hrows x Hx))).
    reflexivity.
  - exists pages. split; [exact Hrun|]. split; [exact Hsub|]. split; [exact Hsize|].
    intros Hms. destruct Hwhole as [Hcat Hcount].
    + intros x Hx. unfold JobsService.jobKey. cbn [fst snd].
      now rewrite (asRead_whole _ (Hms _ (Hrows x Hx))).
    + split; [exact Hcat|]. rewrite Z2Nat.id in Hcount by lia. exact Hcount.
Qed.

(** X18 - paging through the job list: for every tenant, filter set and
    requested page size [k >= 1], with [n = min k 100], job and dataset
    ids being primary keys (uuids, whose texts hold no [|]) and the ISO
    text of every [Date] read from the store parsing back to that [Date],
    calling [JobsService.findAll] with the returned [nextCursor] until it
    is absent ends (with no writes in between) and yields rows of the
    unpaged statement in its order, none of them twice, in pages of at
    most [n] rows.  When every stored [created_at] is a whole number of
    milliseconds it yields exactly the rows of the unpaged statement, in
    the order (created_at desc, id desc), in [ceil(count / n)] pages (one
    empty page when there is no row). *)
Theorem job_traversal_yields_unpaged_fetch :
  forall (uuid_in : string -> option string)
         (toISOString : Date -> string) (parseDate : string -> option Date)
         (T : Tenant) (f : JobsService.Filters) (db : Database)
         (k : Z) (all : list Job),
    NoDup (map JobsTable.id (jobs db)) ->
    NoDup (map DatasetsTable.id (datasets db)) ->
    canonicalIds uuid_in JobsTable.id (jobs db) ->
    (forall j, In j (jobs db) ->
       noPipe (JobsTable.id j) = true
       /\ parseDate (toISOString (toDate (JobsTable.created_at j)))
          = Some (toDate (JobsTable.created_at j))
       /\ noPipe (toISOString (toDate (JobsTable.created_at j))) = true) ->
    JobsService.f_limit f = Some (Num k) ->
    1 <= k ->
    JobsService.unpaged uuid_in parseDate T f db = Ok all ->
    exists pages,
      (forall fuel, (List.length all < fuel)%nat ->
         JobsService.fetchAllPages uuid_in toISOString parseDate fuel T f None db
         = Some pages)
      /\ Subsequence (List.concat pages) all
      /\ NoDup (map JobsTable.id all)
      /\ Forall (fun p => Z.of_nat (List.length p) <= Z.min k 100) pages
      /\ ((forall j, In j (jobs db) -> JobsTable.created_at j mod 1000 = 0) ->
          List.concat pages = all
          /\ StronglySorted
               (fun a b =>
                  keyLt (JobsService.jobKey b) (JobsService.jobKey a) = true)
               all
          /\ Z.of_nat (List.length pages)
             = Z.max 1 (ItemsService.ceilDiv (Z.of_nat (List.length all))
                          (Z.min k 100))).
Proof.
  intros uuid_in toISOString parseDate T f db k all
    Hjobs Hdatasets Hcanon Hcodec Hlimit Hk Hall.
  unfold JobsService.unpaged in Hall.
  destruct (JobsService.findAllQuery uuid_in parseDate T
              (JobsService.withCursor f None) db) as [L|] eqn:HL; [|discriminate].
  cbn [bind] in Hall. injection Hall as <-.
  assert (JobsService.effectiveLimit f = Z.min k 100) as Hlim.
  { unfold JobsService.effectiveLimit. rewrite Hlimit. now apply effectiveLimit_of. }
  destruct (jobs_uncut_rows uuid_in parseDate T f db L Hjobs Hdatasets HL)
    as (Hids & Hstrict & Hrows).
  destruct (jobs_follow uuid_in toISOString parseDate T f db L
              Hjobs Hdatasets Hcanon Hcodec) as (pages & Hrun & Hsub & Hsize & Hwhole);
    [lia | exact HL |].
  exists pages. rewrite length_map.
  split; [exact Hrun|]. split; [exact Hsub|]. split; [|split].
  - rewrite map_map. exact Hids.
  - eapply Forall_impl; [|exact Hsize]. simpl. intros p Hp. lia.
  - intros Hms. destruct (Hwhole Hms) as [Hcat Hcount].
    split; [exact Hcat|]. split; [|now rewrite Hcount, Hlim].
    eapply StronglySorted_map_in; [|exact Hstrict].
    intros a b Ha Hb Hab. unfold JobsService.jobKey in *.
    cbn [JobsTable.created_at JobsTable.id JobsTable.selected].
    unfold Job, Dataset in *.
    now rewrite (asRead_whole _ (Hms _ (Hrows a Ha))),
      (asRead_whole _ (Hms _ (Hrows b Hb))).
Qed.

Lemma job_traversal_yields_unpaged_fetch_witness :
  exists pages,
    JobsService.fetchAllPages Sample.uuid_in Sample.toISOString Sample.parseDate 4
      Sample.tenantA (Sample.jobFilters (Some (Num 2)) None) None Sample.db
    = Some pages
    /\ List.concat pages
       = [Sample.jobShared3; Sample.jobShared2; Sample.jobShared1]
    /\ Z.of_nat (List.length pages) = 2.
Proof.
  destruct (job_traversal_yields_unpaged_fetch Sample.uuid_in
              Sample.toISOString Sample.parseDate
              Sample.tenantA (Sample.jobFilters (Some (Num 2)) None) Sample.db 2
              [Sample.jobShared3; Sample.jobShared2; Sample.jobShared1])
    as (pages & Hrun & _ & _ & _ & Hwhole).
  - repeat constructor; simpl; intuition discriminate.
  - repeat constructor; simpl; intuition discriminate.
  - intros j [<-|[<-|[<-|[<-|[]]]]]; reflexivity.
  - simpl. intros j [<-|[<-|[<-|[<-|[]]]]]; repeat split.
  - reflexivity.
  - lia.
  - reflexivity.
  - destruct Hwhole as (Hcat & _ & Hcount).
    + simpl. intros j [<-|[<-|[<-|[<-|[]]]]]; reflexivity.
    + exists pages. split; [apply Hrun; simpl; lia|]. split; [exact Hcat|].
      exact Hcount.
Defined.
